(** * Exam-Management-System: the student exam application (exam.py)
      and the admin restore action (app.py)

    A shallow embedding of the proctored exam session: the Flask session,
    the hosted data tables reached over HTTP, the face-check tick, the
    gated pages, login and submission.  Handlers are state-passing
    functions over a [World]; every outbound HTTP request consumes one
    outcome of the network script and is recorded in a log. *)

From Stdlib Require Import ZArith Floats Lia.
From stdpp Require Import base option list strings gmap fin_maps pretty.

Local Open Scope string_scope.
Local Open Scope Z_scope.
Local Open Scope list_scope.

(** ** Python values and helpers *)

Module Py.

(** [not s] for a string: the empty string is falsy. *)
Definition str_truthy (s : string) : bool :=
  match s with EmptyString => false | _ => true end.

(** Truthiness of [d.get(k)] for a string field: [None] and [''] are falsy. *)
Definition opt_truthy (o : option string) : bool :=
  match o with Some s => str_truthy s | None => false end.

(** Truthiness of [session.get(k)] for a boolean field. *)
Definition flag (o : option bool) : bool := default false o.

(** [f"{x}"] of a value that is a string or [None]. *)
Definition str (o : option string) : string := default "None" o.

(** [a == b] where [a] is a string or [None] and [b] is a string. *)
Definition opt_eqb (a : option string) (b : string) : bool :=
  match a with Some x => String.eqb x b | None => false end.

Fixpoint strip_prefix (p s : string) : option string :=
  match p, s with
  | EmptyString, _ => Some s
  | String a p', String b s' =>
      if Ascii.eqb a b then strip_prefix p' s' else None
  | String _ _, EmptyString => None
  end.

(** The text after the last occurrence of [sep] in [s], if there is one. *)
Fixpoint after_last (sep s : string) : option string :=
  match s with
  | EmptyString => None
  | String _ s' =>
      match after_last sep s' with
      | Some r => Some r
      | None => strip_prefix sep s
      end
  end.

(** [s.split(sep)[-1]] for a separator none of whose proper prefixes is
    a suffix of it (occurrences cannot overlap), such as ['base64,']. *)
Definition split_last (sep s : string) : string :=
  default s (after_last sep s).

(** [float(z)] for an integer: the nearest double, ties to even.  Where
    [float_overflows] holds Python raises instead of returning. *)
Definition float_of_Z (z : Z) : float :=
  SF2Prim (binary_normalize prec emax z 0 false).

(** [float(z)] raises [OverflowError]: the nearest double would be
    infinite ("int too large to convert to float"). *)
Definition float_overflows (z : Z) : bool :=
  match binary_normalize prec emax z 0 false with
  | S754_infinity _ => true
  | _ => false
  end.

(** [a / b] on integers (true division), for operands below 2^53. *)
Definition truediv (a b : Z) : float :=
  PrimFloat.div (float_of_Z a) (float_of_Z b).

(** Nearest integer to [num / den], ties to even ([den > 0]). *)
Definition round_half_even (num den : Z) : Z :=
  let q := num / den in
  let r := num mod den in
  if 2 * r <? den then q
  else if den <? 2 * r then q + 1
  else if Z.even q then q else q + 1.

(** [round(x, 2)]: the exact binary value of [x] is rounded to two
    decimals (ties to even) and the decimal is read back as the nearest
    double. *)
Definition round2 (x : float) : float :=
  match Prim2SF x with
  | S754_finite s m e =>
      let c := if 0 <=? e then 100 * Z.pos m * 2 ^ e
               else round_half_even (100 * Z.pos m) (2 ^ (- e)) in
      let r := PrimFloat.div (float_of_Z c) (float_of_Z 100) in
      if s then PrimFloat.opp r else r
  | _ => x
  end.

End Py.

(** ** The hosted data tables *)

Record Credential := {
  c_applicantEmail : string;
  c_examId : string;
  generatedPassword : option string;
  sentAt : Z
}.

Record Exam := {
  e_objectId : string;
  examTitle : option string;
  startDateTime : option string;
  endDateTime : option string;
  testDuration : option Z;
  e_applicationId : option string
}.

Record Question := {
  q_objectId : string;
  q_examId : string;
  correctAnswer : string
}.

Record ExamResult := {
  r_applicantEmail : option string;
  r_examId : string;
  r_applicationId : option string;
  score : float;
  totalQuestions : Z;
  submissionTime : Z
}.

(** A row of ExamTerminations.  exam.py writes and queries [isBlocked];
    app.py writes and queries [is_active] and [removed_at]. *)
Record Termination := {
  t_objectId : string;
  t_applicantEmail : option string;
  t_examId : option string;
  terminationReason : option string;
  currentScore : float;
  terminationTime : Z;
  isBlocked : option bool;
  is_active : option bool;
  removed_at : option Z
}.

Record Backend := {
  exam_login : list Credential;
  Exams : list Exam;
  Questions : list Question;
  ExamResults : list ExamResult;
  ExamTerminations : list Termination
}.

Definition with_ExamResults (rs : list ExamResult) (d : Backend) : Backend :=
  {| exam_login := exam_login d; Exams := Exams d; Questions := Questions d;
     ExamResults := rs; ExamTerminations := ExamTerminations d |}.

Definition with_ExamTerminations (ts : list Termination) (d : Backend) : Backend :=
  {| exam_login := exam_login d; Exams := Exams d; Questions := Questions d;
     ExamResults := ExamResults d; ExamTerminations := ts |}.

(** ** The Flask session *)

Record Session := {
  student_logged_in : option bool;
  student_email : option string;
  session_exam_id : option string;
  no_face_count : option Z;
  multiple_face_count : option Z;
  no_face_warning_count : option Z
}.

Definition empty_session : Session :=
  {| student_logged_in := None; student_email := None; session_exam_id := None;
     no_face_count := None; multiple_face_count := None;
     no_face_warning_count := None |}.

Definition set_student_logged_in (v : option bool) (s : Session) : Session :=
  {| student_logged_in := v; student_email := student_email s;
     session_exam_id := session_exam_id s; no_face_count := no_face_count s;
     multiple_face_count := multiple_face_count s;
     no_face_warning_count := no_face_warning_count s |}.

Definition set_student_email (v : option string) (s : Session) : Session :=
  {| student_logged_in := student_logged_in s; student_email := v;
     session_exam_id := session_exam_id s; no_face_count := no_face_count s;
     multiple_face_count := multiple_face_count s;
     no_face_warning_count := no_face_warning_count s |}.

Definition set_exam_id (v : option string) (s : Session) : Session :=
  {| student_logged_in := student_logged_in s; student_email := student_email s;
     session_exam_id := v; no_face_count := no_face_count s;
     multiple_face_count := multiple_face_count s;
     no_face_warning_count := no_face_warning_count s |}.

Definition set_no_face_count (v : option Z) (s : Session) : Session :=
  {| student_logged_in := student_logged_in s; student_email := student_email s;
     session_exam_id := session_exam_id s; no_face_count := v;
     multiple_face_count := multiple_face_count s;
     no_face_warning_count := no_face_warning_count s |}.

Definition set_multiple_face_count (v : option Z) (s : Session) : Session :=
  {| student_logged_in := student_logged_in s; student_email := student_email s;
     session_exam_id := session_exam_id s; no_face_count := no_face_count s;
     multiple_face_count := v;
     no_face_warning_count := no_face_warning_count s |}.

Definition set_no_face_warning_count (v : option Z) (s : Session) : Session :=
  {| student_logged_in := student_logged_in s; student_email := student_email s;
     session_exam_id := session_exam_id s; no_face_count := no_face_count s;
     multiple_face_count := multiple_face_count s;
     no_face_warning_count := v |}.

(** [session.get('no_face_count', 0)] and its two siblings. *)
Definition get_no_face_count (s : Session) : Z := default 0 (no_face_count s).
Definition get_multiple_face_count (s : Session) : Z := default 0 (multiple_face_count s).
Definition get_no_face_warning_count (s : Session) : Z :=
  default 0 (no_face_warning_count s).

(** ** The world a request handler runs in *)

Inductive net_outcome :=
| NetOk          (* the request is served *)
| NetHttpError   (* an error status comes back *)
| NetDown.       (* requests raises a connection error *)

Inductive request :=
| GetCredential (email exam_id : string)
| GetExam (exam_id : string)
| GetQuestions (exam_id : string)
| GetResults (email exam_id : string)
| PostResult (r : ExamResult)
| GetBlockedTerminations (email exam_id : string)
| PostTermination (t : Termination)
| PutTermination (object_id : string) (active : bool) (removed : Z).

Record World := {
  session : Session;
  flashes : list (string * string);   (* Flask keeps them inside the session *)
  db : Backend;
  net : list net_outcome;             (* fate of the coming requests; [] = all served *)
  log : list (request * net_outcome); (* requests issued so far, newest first *)
  clock : Z
}.

Definition with_session (s : Session) (w : World) : World :=
  {| session := s; flashes := flashes w; db := db w; net := net w;
     log := log w; clock := clock w |}.

Definition with_flashes (f : list (string * string)) (w : World) : World :=
  {| session := session w; flashes := f; db := db w; net := net w;
     log := log w; clock := clock w |}.

Definition with_db (d : Backend) (w : World) : World :=
  {| session := session w; flashes := flashes w; db := d; net := net w;
     log := log w; clock := clock w |}.

Definition M (A : Type) : Type := World -> A * World.

Definition ret {A} (a : A) : M A := fun w => (a, w).

Definition bind {A B} (m : M A) (k : A -> M B) : M B :=
  fun w => let (a, w') := m w in k a w'.

Notation "x <- c1 ;; c2" := (bind c1 (fun x => c2))
  (at level 100, c1 at next level, right associativity).
Notation "c1 ;; c2" := (bind c1 (fun _ => c2))
  (at level 100, right associativity).

Definition get_session : M Session := fun w => (session w, w).
Definition get_db : M Backend := fun w => (db w, w).
Definition now : M Z := fun w => (clock w, w).

Definition modify_session (f : Session -> Session) : M unit :=
  fun w => (tt, with_session (f (session w)) w).

Definition modify_db (f : Backend -> Backend) : M unit :=
  fun w => (tt, with_db (f (db w)) w).

(** [flash(message, category)] *)
Definition flash (message category : string) : M unit :=
  fun w => (tt, with_flashes (flashes w ++ [(category, message)]) w).

(** [session.clear()]: the pending flashes live in the session and go too. *)
Definition session_clear : M unit :=
  fun w => (tt, with_flashes [] (with_session empty_session w)).

(** One outbound HTTP request. *)
Definition http (rq : request) : M net_outcome :=
  fun w =>
    let o := hd NetOk (net w) in
    (o, {| session := session w; flashes := flashes w; db := db w;
           net := tl (net w); log := (rq, o) :: log w; clock := clock w |}).

(** ** What the data service answers *)

Module Backendless.

Definition cred_matches (email exam_id : string) (c : Credential) : bool :=
  String.eqb (c_applicantEmail c) email && String.eqb (c_examId c) exam_id.

(** [sortBy 'sentAt DESC', pageSize 1]: the most recently sent row. *)
Fixpoint newest (cs : list Credential) : option Credential :=
  match cs with
  | [] => None
  | c :: cs' =>
      match newest cs' with
      | Some c' => if sentAt c <? sentAt c' then Some c' else Some c
      | None => Some c
      end
  end.

Definition result_matches (email exam_id : string) (r : ExamResult) : bool :=
  Py.opt_eqb (r_applicantEmail r) email && String.eqb (r_examId r) exam_id.

(** [applicantEmail = '..' AND examId = '..' AND isBlocked = true] *)
Definition blocked_matches (email exam_id : string) (t : Termination) : bool :=
  Py.opt_eqb (t_applicantEmail t) email && Py.opt_eqb (t_examId t) exam_id
  && match isBlocked t with Some true => true | _ => false end.

(** The object id given to the next row posted to a table of [n] rows. *)
Definition new_object_id (n : nat) : string := pretty n.

(** [PUT] of [{'is_active': .., 'removed_at': ..}] on one object: the
    properties named in the body are updated, the others are kept. *)
Definition put_inactive (object_id : string) (active : bool) (removed : Z)
    (t : Termination) : Termination :=
  if String.eqb (t_objectId t) object_id then
    {| t_objectId := t_objectId t; t_applicantEmail := t_applicantEmail t;
       t_examId := t_examId t; terminationReason := terminationReason t;
       currentScore := currentScore t; terminationTime := terminationTime t;
       isBlocked := isBlocked t;
       is_active := Some active; removed_at := Some removed |}
  else t.

End Backendless.

(** ** exam.py: database utility functions *)

Definition get_login_credential (email exam_id : string) : M (option Credential) :=
  o <- http (GetCredential email exam_id) ;;
  match o with
  | NetOk =>
      d <- get_db ;;
      ret (Backendless.newest
             (List.filter (Backendless.cred_matches email exam_id) (exam_login d)))
  | _ => ret None
  end.

Record exam_paper := {
  examId : string;
  p_examTitle : option string;
  p_startDateTime : option string;
  p_endDateTime : option string;
  p_testDuration : option Z;
  questions : list Question;
  applicationId : option string
}.

Definition get_exam_paper_by_exam_id (exam_id : string) : M (option exam_paper) :=
  o1 <- http (GetExam exam_id) ;;
  match o1 with
  | NetOk =>
      d <- get_db ;;
      match List.find (fun e => String.eqb (e_objectId e) exam_id) (Exams d) with
      | None => ret None
      | Some exam_data =>
          o2 <- http (GetQuestions exam_id) ;;
          match o2 with
          | NetDown => ret None
          | _ =>
              let questions :=
                match o2 with
                | NetOk => List.filter (fun q => String.eqb (q_examId q) exam_id)
                                       (Questions d)
                | _ => []
                end in
              ret (Some {| examId := exam_id;
                           p_examTitle := examTitle exam_data;
                           p_startDateTime := startDateTime exam_data;
                           p_endDateTime := endDateTime exam_data;
                           p_testDuration := testDuration exam_data;
                           questions := questions;
                           applicationId := e_applicationId exam_data |})
          end
      end
  | _ => ret None
  end.

Record result_data := {
  rd_email : option string;
  rd_exam_id : string;
  rd_application_id : option string;
  rd_score : float;
  rd_total_questions : Z
}.

Definition save_exam_result (rd : result_data) : M bool :=
  t <- now ;;
  let data := {| r_applicantEmail := rd_email rd;
                 r_examId := rd_exam_id rd;
                 r_applicationId := rd_application_id rd;
                 score := rd_score rd;
                 totalQuestions := rd_total_questions rd;
                 submissionTime := t |} in
  o <- http (PostResult data) ;;
  match o with
  | NetOk =>
      modify_db (fun d => with_ExamResults (ExamResults d ++ [data]) d) ;;
      ret true
  | _ => ret false
  end.

Definition check_if_result_exists (email exam_id : string) : M bool :=
  o <- http (GetResults email exam_id) ;;
  match o with
  | NetOk =>
      d <- get_db ;;
      ret (0 <? Z.of_nat (length (List.filter (Backendless.result_matches email exam_id)
                                              (ExamResults d))))
  | _ => ret false
  end.

Definition check_active_termination (email exam_id : string) : M bool :=
  o <- http (GetBlockedTerminations email exam_id) ;;
  match o with
  | NetOk =>
      d <- get_db ;;
      ret (0 <? Z.of_nat (length (List.filter (Backendless.blocked_matches email exam_id)
                                              (ExamTerminations d))))
  | _ => ret false
  end.

(** An exception that nothing in the program catches: it leaves the view
    function and Flask answers with its 500 page. *)
Inductive exception := OverflowError.

(** How a call that can raise ends. *)
Inductive outcome (A : Type) :=
| Returned (a : A)
| Raised (e : exception).
Arguments Returned {A} a.
Arguments Raised {A} e.

(** The record is built before the [try]: [float(current_score)] raises
    there, out of the function, before anything is posted. *)
Definition terminate_exam (email exam_id violation_type : option string)
    (current_score : Z) : M (outcome bool) :=
  if Py.float_overflows current_score then ret (Raised OverflowError) else
  t <- now ;;
  d <- get_db ;;
  let data := {| t_objectId := Backendless.new_object_id (length (ExamTerminations d));
                 t_applicantEmail := email;
                 t_examId := exam_id;
                 terminationReason := violation_type;
                 currentScore := Py.float_of_Z current_score;
                 terminationTime := t;
                 isBlocked := Some true;
                 is_active := None;
                 removed_at := None |} in
  o <- http (PostTermination data) ;;
  match o with
  | NetOk =>
      modify_db (fun d => with_ExamTerminations (ExamTerminations d ++ [data]) d) ;;
      ret (Returned true)
  | _ => ret (Returned false)
  end.

(** ** app.py: the admin restore action *)

Definition remove_termination_status (termination_object_id : string) : M bool :=
  t <- now ;;
  o <- http (PutTermination termination_object_id false t) ;;
  match o with
  | NetOk =>
      d <- get_db ;;
      if existsb (fun r => String.eqb (t_objectId r) termination_object_id)
                 (ExamTerminations d)
      then
        modify_db (fun d => with_ExamTerminations
                     (map (Backendless.put_inactive termination_object_id false t)
                          (ExamTerminations d)) d) ;;
        ret true
      else ret false
  | _ => ret false
  end.

(** ** Requests and responses *)

Record face_reply := {
  success : bool;
  face_detected : bool;
  message : string;
  terminate : bool;
  reply_no_face_count : Z;
  reply_multiple_face_count : Z;
  reply_no_face_warning_count : Z
}.

Inductive response :=
| Redirect (endpoint : string) (exam_id : option string)
| Render (view : string)
| JsonMessage (status : Z) (ok : bool) (text : string)
| JsonFace (status : Z) (r : face_reply)
| InternalServerError (e : exception).  (* status 500: the view raised *)

(** The JSON body of a face-check request. *)
Record face_request := {
  image_data : option string;
  is_pre_check : option bool;
  current_score : option Z
}.

Inductive http_method := GET | POST.

Record login_form := {
  form_email : option string;
  form_password : option string;
  form_exam_id : option string
}.

(** A parsed timestamp: an instant, and whether it carries a UTC offset. *)
Record datetime := { instant : Z; aware : bool }.

(** [a <= b] on datetimes; an aware and a naive one do not compare
    (TypeError). *)
Definition dt_le (a b : datetime) : option bool :=
  if Bool.eqb (aware a) (aware b) then Some (instant a <=? instant b) else None.

(** The local variables of [api_check_face] that the decision table sets. *)
Record locals := {
  l_no_face_count : Z;
  l_multiple_face_count : Z;
  l_no_face_warning_count : Z;
  l_message : string;
  l_should_terminate : bool;
  l_violation_type : option string
}.

Definition face_lost_message (no_face_warning_count remaining_consecutive : Z) : string :=
  "WARNING: Face lost! Total Warnings: " +:+ pretty no_face_warning_count
  +:+ "/5. Re-appear in " +:+ pretty remaining_consecutive +:+ "s!".

Section Exam.

(** Whether DeepFace and its dependencies could be imported. *)
Variable DEEPFACE_AVAILABLE : bool.

(** Base64 decoding, image decoding and [DeepFace.extract_faces]: the
    confidences of the detections, or [None] when any step raises. *)
Variable extract_faces : string -> option (list float).

(** [dateutil.parser.isoparse]; [None] when it raises. *)
Variable isoparse : string -> option datetime.

(** *** The decorator [student_exam_required] *)

Definition student_exam_required (exam_id : string) (f : M response) : M response :=
  s <- get_session ;;
  if negb (Py.flag (student_logged_in s)) then
    flash "Please log in to start your test." "warning" ;;
    ret (Redirect "test_login" (Some exam_id))
  else if negb (Py.opt_eqb (session_exam_id s) exam_id) then
    flash "Access Denied: You are not authorized for this specific exam." "error" ;;
    modify_session (set_student_logged_in None) ;;
    modify_session (set_student_email None) ;;
    modify_session (set_exam_id None) ;;
    ret (Redirect "test_login" (Some exam_id))
  else
    let email := student_email s in
    blocked <- check_active_termination (Py.str email) exam_id ;;
    if blocked then
      flash "Access Denied: Your exam access has been terminated." "error" ;;
      session_clear ;;
      ret (Redirect "exam_finished" None)
    else f.

(** *** Login *)

Definition test_login (exam_id : string) (method : http_method)
    (form : login_form) : M response :=
  let is_placeholder := String.eqb exam_id "ENTER_YOUR_ID" in
  s <- get_session ;;
  if Py.flag (student_logged_in s) && Py.opt_eqb (session_exam_id s) exam_id
     && negb is_placeholder then
    ret (Redirect "pre_exam_check" (Some exam_id))
  else
    match method with
    | POST =>
        let email := form_email form in
        let password := form_password form in
        let login_exam_id := form_exam_id form in
        if negb (Py.opt_truthy login_exam_id) || negb (Py.opt_truthy email)
           || negb (Py.opt_truthy password) then
          flash "All fields are required." "error" ;;
          ret (Render "test_login_view")
        else
          blocked <- check_active_termination (Py.str email) (Py.str login_exam_id) ;;
          if blocked then
            flash "Access Denied: Your exam access has been permanently terminated due to a policy violation." "error" ;;
            ret (Redirect "exam_finished" None)
          else
            credential <- get_login_credential (Py.str email) (Py.str login_exam_id) ;;
            match credential with
            | Some c =>
                if match generatedPassword c with
                   | Some p => Py.opt_eqb password p
                   | None => false
                   end
                then
                  modify_session (set_student_logged_in (Some true)) ;;
                  modify_session (set_student_email email) ;;
                  modify_session (set_exam_id login_exam_id) ;;
                  modify_session (set_no_face_count (Some 0)) ;;
                  modify_session (set_multiple_face_count (Some 0)) ;;
                  modify_session (set_no_face_warning_count (Some 0)) ;;
                  flash "Login successful. Please complete the pre-test system check." "success" ;;
                  ret (Redirect "pre_exam_check" login_exam_id)
                else
                  flash "Invalid credentials. Check your Email, Password, and Exam ID (case-sensitive)." "error" ;;
                  ret (Render "test_login_view")
            | None =>
                flash "Invalid credentials. Check your Email, Password, and Exam ID (case-sensitive)." "error" ;;
                ret (Render "test_login_view")
            end
    | GET => ret (Render "test_login_view")
    end.

(** *** The time window of an exam

    The [try] block that the three gated pages share: any exception
    (a missing or malformed timestamp, an aware/naive comparison)
    leaves the exam open. *)
Definition is_exam_open (paper : exam_paper) : M bool :=
  t <- now ;;
  ret (match p_startDateTime paper with
       | None => true
       | Some start_text =>
       match isoparse start_text with
       | None => true
       | Some start_time =>
       match p_endDateTime paper with
       | None => true
       | Some end_text =>
       match isoparse end_text with
       | None => true
       | Some end_time =>
           let now_time := {| instant := t; aware := true |} in
           match dt_le start_time now_time with
           | None => true
           | Some false => false
           | Some true =>
               match dt_le now_time end_time with
               | None => true
               | Some b => b
               end
           end
       end end end end).

Definition closed_message : string :=
  "The exam is currently closed. Check the start and end dates/times.".

(** *** The gated pages *)

Definition pre_exam_check (exam_id : string) : M response :=
  student_exam_required exam_id (
    s <- get_session ;;
    let email := student_email s in
    submitted <- check_if_result_exists (Py.str email) exam_id ;;
    if submitted then
      flash "You have already submitted this exam. Access is denied." "warning" ;;
      ret (Redirect "exam_finished" None)
    else
      paper <- get_exam_paper_by_exam_id exam_id ;;
      match paper with
      | None =>
          flash "Exam paper not found. Contact the administrator." "error" ;;
          ret (Redirect "test_login" (Some exam_id))
      | Some exam_paper =>
          open <- is_exam_open exam_paper ;;
          if negb open then
            flash closed_message "error" ;;
            ret (Redirect "exam_finished" None)
          else ret (Render "pre_check_view")
      end).

Definition exam_instructions (exam_id : string) : M response :=
  student_exam_required exam_id (
    s <- get_session ;;
    let email := student_email s in
    paper <- get_exam_paper_by_exam_id exam_id ;;
    match paper with
    | None =>
        flash "Exam paper not found." "error" ;;
        ret (Redirect "test_login" (Some exam_id))
    | Some exam_paper =>
        submitted <- check_if_result_exists (Py.str email) exam_id ;;
        if submitted then
          flash "You have already submitted this exam." "warning" ;;
          ret (Redirect "exam_finished" None)
        else
          open <- is_exam_open exam_paper ;;
          if negb open then
            flash closed_message "error" ;;
            ret (Redirect "exam_finished" None)
          else ret (Render "instructions_view")
    end).

Definition start_exam (exam_id : string) : M response :=
  student_exam_required exam_id (
    s <- get_session ;;
    let email := student_email s in
    submitted <- check_if_result_exists (Py.str email) exam_id ;;
    if submitted then
      flash "You have already submitted this exam. Access is denied." "warning" ;;
      ret (Redirect "exam_finished" None)
    else
      paper <- get_exam_paper_by_exam_id exam_id ;;
      match paper with
      | None =>
          flash "Exam paper not found or is empty. Contact the administrator." "error" ;;
          ret (Redirect "test_login" (Some exam_id))
      | Some exam_paper =>
          match questions exam_paper with
          | [] =>
              flash "Exam paper not found or is empty. Contact the administrator." "error" ;;
              ret (Redirect "test_login" (Some exam_id))
          | _ :: _ =>
              open <- is_exam_open exam_paper ;;
              if negb open then
                flash closed_message "error" ;;
                ret (Redirect "exam_finished" None)
              else ret (Render "exam_view")
          end
      end).

(** *** The face-check tick *)

(** The double that the literal [0.8] denotes. *)
Definition confidence_threshold : float := 0x1.999999999999ap-1%float.

(** Detections above the confidence threshold. *)
Definition detected_faces_count (detections : list float) : Z :=
  Z.of_nat (length (List.filter
                      (fun confidence => PrimFloat.ltb confidence_threshold confidence)
                      detections)).

(** Step 1 of [api_check_face]: ([face_detected], [multiple_faces]). *)
Definition analyse (base64_img : string) : bool * bool :=
  match extract_faces base64_img with
  | Some detections =>
      (detected_faces_count detections =? 1, 1 <? detected_faces_count detections)
  | None => (false, false)
  end.

(** Step 2: the decision table, run on the counters read from the
    session at the start of the request. *)
Definition decision_table (face_detected multiple_faces : bool)
    (no_face_count multiple_face_count no_face_warning_count : Z) : M locals :=
  if face_detected then
    modify_session (set_no_face_count (Some 0)) ;;
    modify_session (set_multiple_face_count (Some 0)) ;;
    ret {| l_no_face_count := no_face_count;
           l_multiple_face_count := multiple_face_count;
           l_no_face_warning_count := no_face_warning_count;
           l_message := "Face Detected";
           l_should_terminate := false;
           l_violation_type := None |}
  else if multiple_faces then
    let multiple_face_count := multiple_face_count + 1 in
    let l :=
      if 2 <=? multiple_face_count then
        {| l_no_face_count := no_face_count;
           l_multiple_face_count := multiple_face_count;
           l_no_face_warning_count := no_face_warning_count;
           l_message := "EXAM TERMINATED: Multiple faces detected twice.";
           l_should_terminate := true;
           l_violation_type := Some "MULTIPLE_FACES_DETECTED" |}
      else
        {| l_no_face_count := no_face_count;
           l_multiple_face_count := multiple_face_count;
           l_no_face_warning_count := no_face_warning_count;
           l_message := "WARNING: Multiple faces detected (1/2 checks). Next failure terminates exam.";
           l_should_terminate := false;
           l_violation_type := None |} in
    modify_session (set_multiple_face_count (Some multiple_face_count)) ;;
    modify_session (set_no_face_count (Some 0)) ;;
    ret l
  else
    let no_face_count := no_face_count + 1 in
    if 5 <=? no_face_count then
      ret {| l_no_face_count := no_face_count;
             l_multiple_face_count := multiple_face_count;
             l_no_face_warning_count := no_face_warning_count;
             l_message := "EXAM TERMINATED: Face lost for 5 seconds.";
             l_should_terminate := true;
             l_violation_type := Some "NO_FACE_DETECTED_FOR_5_CHECKS" |}
    else if no_face_count =? 1 then
      let no_face_warning_count := no_face_warning_count + 1 in
      if 5 <=? no_face_warning_count then
        ret {| l_no_face_count := no_face_count;
               l_multiple_face_count := multiple_face_count;
               l_no_face_warning_count := no_face_warning_count;
               l_message := "EXAM TERMINATED: 5 Total Warnings Reached.";
               l_should_terminate := true;
               l_violation_type := Some "NO_FACE_DETECTED_5_WARNINGS" |}
      else
        let remaining_consecutive := 5 - no_face_count in
        ret {| l_no_face_count := no_face_count;
               l_multiple_face_count := multiple_face_count;
               l_no_face_warning_count := no_face_warning_count;
               l_message := face_lost_message no_face_warning_count remaining_consecutive;
               l_should_terminate := false;
               l_violation_type := None |}
    else
      let remaining_consecutive := 5 - no_face_count in
      ret {| l_no_face_count := no_face_count;
             l_multiple_face_count := multiple_face_count;
             l_no_face_warning_count := no_face_warning_count;
             l_message := face_lost_message no_face_warning_count remaining_consecutive;
             l_should_terminate := false;
             l_violation_type := None |}.

Definition api_check_face (data : face_request) : M response :=
  s <- get_session ;;
  if negb (Py.flag (student_logged_in s)) then
    ret (JsonMessage 401 false "Authentication required.")
  else
    let base64_img := Py.split_last "base64," (default "" (image_data data)) in
    let exam_id := session_exam_id s in
    let email := student_email s in
    let no_face_count := get_no_face_count s in
    let multiple_face_count := get_multiple_face_count s in
    let no_face_warning_count := get_no_face_warning_count s in
    let is_pre_check := default false (is_pre_check data) in
    if negb DEEPFACE_AVAILABLE then
      modify_session (set_no_face_count (Some 0)) ;;
      modify_session (set_multiple_face_count (Some 0)) ;;
      modify_session (set_no_face_warning_count (Some 0)) ;;
      ret (JsonFace 200 {| success := true;
                           face_detected := true;
                           message := "Proctoring ON (DeepFace Mock)";
                           terminate := false;
                           reply_no_face_count := 0;
                           reply_multiple_face_count := 0;
                           reply_no_face_warning_count := 0 |})
    else if negb (Py.str_truthy base64_img) then
      ret (JsonMessage 400 false "No image data received.")
    else
      let '(face_detected, multiple_faces) := analyse base64_img in
      r <- (if negb is_pre_check then
              l <- decision_table face_detected multiple_faces
                     no_face_count multiple_face_count no_face_warning_count ;;
              (* Update session data *)
              modify_session (set_no_face_count (Some (l_no_face_count l))) ;;
              modify_session (set_no_face_warning_count
                                (Some (l_no_face_warning_count l))) ;;
              modify_session (set_multiple_face_count
                                (Some (l_multiple_face_count l))) ;;
              (if l_should_terminate l then
                 let current_score := default 0 (current_score data) in
                 saved <- terminate_exam email exam_id (l_violation_type l)
                            current_score ;;
                 match saved with
                 | Raised e => ret (Raised e)
                 | Returned _ =>
                     modify_session (set_student_logged_in None) ;;
                     modify_session (set_student_email None) ;;
                     modify_session (set_exam_id None) ;;
                     ret (Returned l)
                 end
               else ret (Returned l))
            else
              ret (Returned {| l_no_face_count := no_face_count;
                               l_multiple_face_count := multiple_face_count;
                               l_no_face_warning_count := no_face_warning_count;
                               l_message := "Face Detected";
                               l_should_terminate := false;
                               l_violation_type := None |})) ;;
      match r with
      | Raised e => ret (InternalServerError e)
      | Returned l =>
          s' <- get_session ;;
          ret (JsonFace 200
                 {| success := true;
                    face_detected := face_detected;
                    message := l_message l;
                    terminate := l_should_terminate l;
                    reply_no_face_count := get_no_face_count s';
                    reply_multiple_face_count := get_multiple_face_count s';
                    reply_no_face_warning_count := get_no_face_warning_count s' |})
      end.

(** *** Submission and scoring *)

(** [{q['objectId']: q['correctAnswer'] for q in questions}] *)
Definition correct_answers (qs : list Question) : gmap string string :=
  foldl (fun d q => <[q_objectId q := correctAnswer q]> d) ∅ qs.

(** [student_answer and student_answer == correct_ans] *)
Definition answer_matches (form : gmap string string) (q_id correct_ans : string) : bool :=
  match form !! q_id with
  | Some student_answer =>
      Py.str_truthy student_answer && String.eqb student_answer correct_ans
  | None => false
  end.

Definition raw_score (form : gmap string string) (answers : gmap string string) : Z :=
  map_fold (fun q_id correct_ans raw_score =>
              if answer_matches form q_id correct_ans then raw_score + 1
              else raw_score) 0 answers.

Definition percentage_score (raw_score total_questions : Z) : float :=
  if 0 <? total_questions then
    Py.round2 (PrimFloat.mul (Py.truediv raw_score total_questions) (Py.float_of_Z 100))
  else 0%float.

Definition submit_exam (exam_id : string) (form : gmap string string) : M response :=
  student_exam_required exam_id (
    s <- get_session ;;
    let email := student_email s in
    submitted <- check_if_result_exists (Py.str email) exam_id ;;
    if submitted then
      flash "You have already submitted this exam. Access denied." "warning" ;;
      ret (Redirect "exam_finished" None)
    else
      paper <- get_exam_paper_by_exam_id exam_id ;;
      match paper with
      | None =>
          flash "Critical Error: Exam data is missing. Submission failed." "error" ;;
          ret (Redirect "exam_finished" None)
      | Some exam_paper =>
          match questions exam_paper with
          | [] =>
              flash "Critical Error: Exam data is missing. Submission failed." "error" ;;
              ret (Redirect "exam_finished" None)
          | _ :: _ =>
              let total_questions := Z.of_nat (length (questions exam_paper)) in
              let raw_score := raw_score form (correct_answers (questions exam_paper)) in
              let percentage_score := percentage_score raw_score total_questions in
              let application_id := applicationId exam_paper in
              let result_data := {| rd_email := email;
                                    rd_exam_id := exam_id;
                                    rd_application_id := application_id;
                                    rd_score := percentage_score;
                                    rd_total_questions := total_questions |} in
              saved <- save_exam_result result_data ;;
              if saved then
                modify_session (set_student_logged_in None) ;;
                modify_session (set_student_email None) ;;
                modify_session (set_exam_id None) ;;
                modify_session (set_no_face_count None) ;;
                modify_session (set_multiple_face_count None) ;;
                modify_session (set_no_face_warning_count None) ;;
                flash "Your test has been successfully submitted!" "success" ;;
                ret (Render "exam_finished_view")
              else
                flash "Database Error: Failed to save your result. Contact the administrator." "error" ;;
                ret (Redirect "start_exam" (Some exam_id))
          end
      end).

End Exam.

(** * Specification vocabulary *)

(** The image payload of a face-check request, as line 395 computes it. *)
Definition image_payload (data : face_request) : string :=
  Py.split_last "base64," (default "" (image_data data)).

(** The number of faces a tick acts on: the detections over the
    threshold, and none when the analysis raises. *)
Definition faces_seen (extract_faces : string -> option (list float))
    (data : face_request) : Z :=
  match extract_faces (image_payload data) with
  | Some detections => detected_faces_count detections
  | None => 0
  end.

Definition logged_in (w : World) : Prop :=
  Py.flag (student_logged_in (session w)) = true.

(** The request is an in-exam tick carrying an image, from a logged-in
    client. *)
Definition in_exam_tick (data : face_request) (w : World) : Prop :=
  logged_in w /\
  default false (is_pre_check data) = false /\
  image_payload data <> "".

(** [float()] accepts the score the request carries (0 when absent). *)
Definition score_converts (data : face_request) : Prop :=
  Py.float_overflows (default 0 (current_score data)) = false.

Definition tick_terminates (resp : response) : bool :=
  match resp with
  | JsonFace _ r => terminate r
  | _ => false
  end.

(** Between [w] and [w'] exactly one request was issued: a blocking
    termination record with reason [code]. *)
Definition reports (w w' : World) (code : string) : Prop :=
  exists t o, log w' = (PostTermination t, o) :: log w /\
              terminationReason t = Some code /\ isBlocked t = Some true.

(** The locals of a tick after the decision table, as a function of the
    faces seen and of the counters read at the start of the request. *)
Definition tick_outcome (faces n m c : Z) : locals :=
  if faces =? 1 then
    {| l_no_face_count := n; l_multiple_face_count := m; l_no_face_warning_count := c;
       l_message := "Face Detected"; l_should_terminate := false;
       l_violation_type := None |}
  else if 1 <? faces then
    {| l_no_face_count := n; l_multiple_face_count := m + 1;
       l_no_face_warning_count := c;
       l_message := if 2 <=? m + 1
                    then "EXAM TERMINATED: Multiple faces detected twice."
                    else "WARNING: Multiple faces detected (1/2 checks). Next failure terminates exam.";
       l_should_terminate := 2 <=? m + 1;
       l_violation_type := if 2 <=? m + 1 then Some "MULTIPLE_FACES_DETECTED" else None |}
  else if 5 <=? n + 1 then
    {| l_no_face_count := n + 1; l_multiple_face_count := m;
       l_no_face_warning_count := c;
       l_message := "EXAM TERMINATED: Face lost for 5 seconds.";
       l_should_terminate := true;
       l_violation_type := Some "NO_FACE_DETECTED_FOR_5_CHECKS" |}
  else if n + 1 =? 1 then
    {| l_no_face_count := n + 1; l_multiple_face_count := m;
       l_no_face_warning_count := c + 1;
       l_message := if 5 <=? c + 1 then "EXAM TERMINATED: 5 Total Warnings Reached."
                    else face_lost_message (c + 1) (5 - (n + 1));
       l_should_terminate := 5 <=? c + 1;
       l_violation_type := if 5 <=? c + 1 then Some "NO_FACE_DETECTED_5_WARNINGS" else None |}
  else
    {| l_no_face_count := n + 1; l_multiple_face_count := m;
       l_no_face_warning_count := c;
       l_message := face_lost_message c (5 - (n + 1));
       l_should_terminate := false;
       l_violation_type := None |}.

(** The session after the write-back of the locals [l]. *)
Definition written_back (l : locals) (s : Session) : Session :=
  {| student_logged_in := student_logged_in s;
     student_email := student_email s;
     session_exam_id := session_exam_id s;
     no_face_count := Some (l_no_face_count l);
     multiple_face_count := Some (l_multiple_face_count l);
     no_face_warning_count := Some (l_no_face_warning_count l) |}.

(** The termination action of step 3: the pops are skipped when
    [terminate_exam] raises. *)
Definition termination_action (email exam_id : option string) (l : locals)
    (data : face_request) : M (outcome unit) :=
  saved <- terminate_exam email exam_id (l_violation_type l)
             (default 0 (current_score data)) ;;
  match saved with
  | Raised e => ret (Raised e)
  | Returned _ =>
      modify_session (set_student_logged_in None) ;;
      modify_session (set_student_email None) ;;
      modify_session (set_exam_id None) ;;
      ret (Returned tt)
  end.

(** Some row of the ledger blocks the pair: what the query of
    [check_active_termination] selects. *)
Definition blocked (email exam_id : string) (d : Backend) : bool :=
  existsb (Backendless.blocked_matches email exam_id) (ExamTerminations d).

(** Some result row is on file for the pair. *)
Definition result_on_file (email exam_id : string) (d : Backend) : bool :=
  existsb (Backendless.result_matches email exam_id) (ExamResults d).

(** Parsing the timestamp raises: it is missing, or [isoparse] rejects it. *)
Definition unparsable (isoparse : string -> option datetime) (o : option string) : Prop :=
  match o with
  | Some text => isoparse text = None
  | None => True
  end.

(** The page turned the student away because the exam is closed. *)
Definition refused_as_closed (w : World) (resp : response) (w' : World) : Prop :=
  resp = Redirect "exam_finished" None /\
  flashes w' = flashes w ++ [("error", closed_message)].

(** The exam row that [GET Exams/<exam_id>] answers with. *)
Definition exam_row (exam_id : string) (d : Backend) : option Exam :=
  List.find (fun e => String.eqb (e_objectId e) exam_id) (Exams d).

(** The student is logged in for [exam_id], every request is served, the
    pair is neither blocked nor already has a result, and the exam row
    [e] exists. *)
Definition admitted (exam_id : string) (e : Exam) (w : World) : Prop :=
  Py.flag (student_logged_in (session w)) = true /\
  Py.opt_eqb (session_exam_id (session w)) exam_id = true /\
  net w = [] /\
  blocked (Py.str (student_email (session w))) exam_id (db w) = false /\
  result_on_file (Py.str (student_email (session w))) exam_id (db w) = false /\
  exam_row exam_id (db w) = Some e.

(** Both timestamps of [e] parse and the clock [t] is outside the window. *)
Definition outside_window (isoparse : string -> option datetime) (e : Exam) (t : Z)
    : Prop :=
  exists start_text end_text start_time end_time,
    startDateTime e = Some start_text /\ isoparse start_text = Some start_time /\
    endDateTime e = Some end_text /\ isoparse end_text = Some end_time /\
    ~ (instant start_time <= t <= instant end_time).

(** The requests in [l] only fetch the paper of [exam_id]. *)
Definition reads_paper (exam_id : string) (l : list (request * net_outcome)) : Prop :=
  forall rq o, In (rq, o) l -> rq = GetExam exam_id \/ rq = GetQuestions exam_id.

(** The questions of an exam as the Questions table holds them. *)
Definition questions_of (exam_id : string) (d : Backend) : list Question :=
  List.filter (fun q => String.eqb (q_examId q) exam_id) (Questions d).

(** The row that [submit_exam] posts for the questions [qs]. *)
Definition result_row (email : option string) (exam_id : string)
    (application_id : option string) (form : gmap string string)
    (qs : list Question) (t : Z) : ExamResult :=
  {| r_applicantEmail := email;
     r_examId := exam_id;
     r_applicationId := application_id;
     score := percentage_score (raw_score form (correct_answers qs))
                               (Z.of_nat (length qs));
     totalQuestions := Z.of_nat (length qs);
     submissionTime := t |}.

(** The questions of [qs] that the submitted form answers correctly. *)
Definition matching_answers (form : gmap string string) (qs : list Question) : Z :=
  Z.of_nat (length (List.filter
                      (fun q => answer_matches form (q_objectId q) (correctAnswer q))
                      qs)).

(** The ways a run of [submit_exam] from [w] can end. *)
Inductive submit_case (exam_id : string) (form : gmap string string) (w : World) :
    response -> World -> Prop :=
| submit_not_admitted w' :
    db w' = db w -> log w' = log w ->
    submit_case exam_id form w (Redirect "test_login" (Some exam_id)) w'
| submit_blocked w' o :
    db w' = db w ->
    log w' = (GetBlockedTerminations (Py.str (student_email (session w))) exam_id, o)
             :: log w ->
    submit_case exam_id form w (Redirect "exam_finished" None) w'
| submit_already w' o :
    db w' = db w -> session w' = session w ->
    log w' = (GetResults (Py.str (student_email (session w))) exam_id, NetOk)
             :: (GetBlockedTerminations (Py.str (student_email (session w))) exam_id, o)
             :: log w ->
    result_on_file (Py.str (student_email (session w))) exam_id (db w) = true ->
    submit_case exam_id form w (Redirect "exam_finished" None) w'
| submit_no_paper w' o1 o2 l :
    db w' = db w -> session w' = session w ->
    reads_paper exam_id l ->
    log w' = l ++ (GetResults (Py.str (student_email (session w))) exam_id, o2)
             :: (GetBlockedTerminations (Py.str (student_email (session w))) exam_id, o1)
             :: log w ->
    (o2 = NetOk ->
     result_on_file (Py.str (student_email (session w))) exam_id (db w) = false) ->
    submit_case exam_id form w (Redirect "exam_finished" None) w'
| submit_saved w' o1 o2 l application_id :
    let qs := questions_of exam_id (db w) in
    let data := result_row (student_email (session w)) exam_id application_id form qs
                           (clock w) in
    qs <> [] ->
    db w' = with_ExamResults (ExamResults (db w) ++ [data]) (db w) ->
    reads_paper exam_id l ->
    log w' = (PostResult data, NetOk)
             :: l ++ (GetResults (Py.str (student_email (session w))) exam_id, o2)
             :: (GetBlockedTerminations (Py.str (student_email (session w))) exam_id, o1)
             :: log w ->
    (o2 = NetOk ->
     result_on_file (Py.str (student_email (session w))) exam_id (db w) = false) ->
    submit_case exam_id form w (Render "exam_finished_view") w'
| submit_save_failed w' o o1 o2 l application_id :
    let qs := questions_of exam_id (db w) in
    let data := result_row (student_email (session w)) exam_id application_id form qs
                           (clock w) in
    qs <> [] -> o <> NetOk ->
    db w' = db w -> session w' = session w ->
    flashes w' = flashes w ++
      [("error", "Database Error: Failed to save your result. Contact the administrator.")] ->
    reads_paper exam_id l ->
    log w' = (PostResult data, o)
             :: l ++ (GetResults (Py.str (student_email (session w))) exam_id, o2)
             :: (GetBlockedTerminations (Py.str (student_email (session w))) exam_id, o1)
             :: log w ->
    (o2 = NetOk ->
     result_on_file (Py.str (student_email (session w))) exam_id (db w) = false) ->
    submit_case exam_id form w (Redirect "start_exam" (Some exam_id)) w'.

(** A sequence of face-check requests, one after the other. *)
Fixpoint run_ticks (extract_faces : string -> option (list float))
    (frames : list face_request) (w : World) : World :=
  match frames with
  | [] => w
  | data :: frames' =>
      run_ticks extract_faces frames' (snd (api_check_face true extract_faces data w))
  end.

(** The three counters of the session are not negative. *)
Definition counters_nonneg (w : World) : Prop :=
  0 <= get_no_face_count (session w) /\
  0 <= get_multiple_face_count (session w) /\
  0 <= get_no_face_warning_count (session w).

(** ** A concrete deployment, for running the handlers *)

Module Demo.

(** A sensor that reads the number of faces off a one-word payload. *)
Definition sensor (img : string) : option (list float) :=
  if String.eqb img "one" then Some [0x1.ccccccccccccdp-1%float]
  else if String.eqb img "two" then
    Some [0x1.ccccccccccccdp-1%float; 0x1.e666666666666p-1%float; 0.5%float]
  else if String.eqb img "none" then Some [0.5%float]
  else None.

Definition parse (s : string) : option datetime :=
  if String.eqb s "2025-01-01T09:00:00+00:00" then
    Some {| instant := 50; aware := true |}
  else if String.eqb s "2025-01-01T10:00:00+00:00" then
    Some {| instant := 80; aware := true |}
  else if String.eqb s "2025-01-01T12:00:00+00:00" then
    Some {| instant := 150; aware := true |}
  else None.

Definition exam (start_text end_text : option string) : Exam :=
  {| e_objectId := "E1"; examTitle := Some "Aptitude";
     startDateTime := start_text; endDateTime := end_text;
     testDuration := Some 60; e_applicationId := Some "APP-7" |}.

Definition paper_questions : list Question :=
  [ {| q_objectId := "q1"; q_examId := "E1"; correctAnswer := "A" |};
    {| q_objectId := "q2"; q_examId := "E1"; correctAnswer := "B" |};
    {| q_objectId := "q3"; q_examId := "E1"; correctAnswer := "C" |} ].

Definition backend (e : Exam) (qs : list Question) : Backend :=
  {| exam_login := [ {| c_applicantEmail := "ann@example.org"; c_examId := "E1";
                        generatedPassword := Some "s3cret"; sentAt := 10 |} ];
     Exams := [ e ];
     Questions := qs;
     ExamResults := [];
     ExamTerminations := [] |}.

Definition world (s : Session) (d : Backend) (script : list net_outcome) : World :=
  {| session := s; flashes := []; db := d; net := script; log := []; clock := 100 |}.

Definition in_window : Exam :=
  exam (Some "2025-01-01T09:00:00+00:00") (Some "2025-01-01T12:00:00+00:00").

(** Before login. *)
Definition fresh : World := world empty_session (backend in_window paper_questions) [].

Definition credentials : login_form :=
  {| form_email := Some "ann@example.org"; form_password := Some "s3cret";
     form_exam_id := Some "E1" |}.

Definition login : M response := test_login "E1" POST credentials.

Definition frame (payload : string) : face_request :=
  {| image_data := Some ("data:image/jpeg;base64," +:+ payload);
     is_pre_check := None; current_score := Some 2 |}.

Definition tick (payload : string) : M response :=
  api_check_face true sensor (frame payload).

(** A frame showing nobody, with a score beyond the range of a double. *)
Definition oversized : face_request :=
  {| image_data := Some "data:image/jpeg;base64,none";
     is_pre_check := None; current_score := Some (10 ^ 400) |}.

(** A logged-in session with given counters. *)
Definition seated (n m c : Z) : World :=
  world {| student_logged_in := Some true; student_email := Some "ann@example.org";
           session_exam_id := Some "E1"; no_face_count := Some n;
           multiple_face_count := Some m; no_face_warning_count := Some c |}
        (backend in_window paper_questions) [].

(** After login and one frame showing two faces. *)
Definition after_two_faces : World := snd ((login ;; tick "two") fresh).

(** After login and one frame showing nobody. *)
Definition after_no_face : World := snd ((login ;; tick "none") fresh).

(** After login and two frames showing two faces: terminated. *)
Definition terminated : World := snd ((login ;; tick "two" ;; tick "two") fresh).

(** The admin restores the terminated student (the ledger row has id 0). *)
Definition restored : World := snd (remove_termination_status "0" terminated).

(** The exam row carries a start time that does not parse. *)
Definition malformed : Exam :=
  exam (Some "tomorrow at nine") (Some "2025-01-01T12:00:00+00:00").

Definition seated_malformed : World :=
  world {| student_logged_in := Some true; student_email := Some "ann@example.org";
           session_exam_id := Some "E1"; no_face_count := Some 0;
           multiple_face_count := Some 0; no_face_warning_count := Some 0 |}
        (backend malformed paper_questions) [].

(** The exam ended before the clock of the deployment (100). *)
Definition ended : Exam :=
  exam (Some "2025-01-01T09:00:00+00:00") (Some "2025-01-01T10:00:00+00:00").

Definition seated_ended : World :=
  world {| student_logged_in := Some true; student_email := Some "ann@example.org";
           session_exam_id := Some "E1"; no_face_count := Some 0;
           multiple_face_count := Some 0; no_face_warning_count := Some 0 |}
        (backend ended paper_questions) [].

(** The same deployment with an exam that has no question. *)
Definition seated_empty_exam : World :=
  world {| student_logged_in := Some true; student_email := Some "ann@example.org";
           session_exam_id := Some "E1"; no_face_count := Some 0;
           multiple_face_count := Some 0; no_face_warning_count := Some 0 |}
        (backend in_window []) [].

(** Two right answers out of three. *)
Definition answers : gmap string string :=
  {[ "q1" := "A"; "q2" := "B"; "q3" := "D" ]}.

(** The write of the result fails: ledger, result and paper queries are
    served, the post is not. *)
Definition seated_write_down : World :=
  world {| student_logged_in := Some true; student_email := Some "ann@example.org";
           session_exam_id := Some "E1"; no_face_count := Some 1;
           multiple_face_count := Some 0; no_face_warning_count := Some 1 |}
        (backend in_window paper_questions) [NetOk; NetOk; NetOk; NetOk; NetDown].

(** A result is already on file. *)
Definition seated_submitted : World :=
  world {| student_logged_in := Some true; student_email := Some "ann@example.org";
           session_exam_id := Some "E1"; no_face_count := Some 0;
           multiple_face_count := Some 0; no_face_warning_count := Some 0 |}
        (with_ExamResults
           [ {| r_applicantEmail := Some "ann@example.org"; r_examId := "E1";
                r_applicationId := Some "APP-7"; score := 100%float;
                totalQuestions := 3; submissionTime := 90 |} ]
           (backend in_window paper_questions)) [].

End Demo.

(** * More of exam.py *)

(** The JSON body of a violation report: a field is [None] when the key
    is absent. *)
Record violation_request := {
  violation_type : option string;
  reported_score : option Z
}.

(** [api_report_violation]: a client-side violation ends the exam at once. *)
Definition api_report_violation (data : violation_request) : M response :=
  s <- get_session ;;
  if negb (Py.flag (student_logged_in s)) then
    ret (JsonMessage 401 false "Authentication required.")
  else
    let violation_type := default "CLIENT_SIDE_VIOLATION" (violation_type data) in
    let current_score := default 0 (reported_score data) in
    let exam_id := session_exam_id s in
    let email := student_email s in
    if negb (Py.opt_truthy exam_id) || negb (Py.opt_truthy email) then
      ret (JsonMessage 400 false "Session data missing.")
    else
      saved <- terminate_exam email exam_id (Some violation_type) current_score ;;
      match saved with
      | Raised e => ret (InternalServerError e)
      | Returned _ =>
          modify_session (set_student_logged_in None) ;;
          modify_session (set_student_email None) ;;
          modify_session (set_exam_id None) ;;
          modify_session (set_no_face_count None) ;;
          modify_session (set_multiple_face_count None) ;;
          modify_session (set_no_face_warning_count None) ;;
          ret (JsonMessage 200 true
                 ("Exam terminated due to " +:+ violation_type +:+ "."))
      end.

(** [index]: the landing page sends to the login prompt. *)
Definition index : M response :=
  ret (Redirect "test_login" (Some "ENTER_YOUR_ID")).

(** [exam_finished] *)
Definition exam_finished : M response :=
  ret (Render "exam_finished_view").

(** [exam_logout] *)
Definition exam_logout : M response :=
  modify_session (set_student_logged_in None) ;;
  modify_session (set_student_email None) ;;
  modify_session (set_exam_id None) ;;
  modify_session (set_no_face_count None) ;;
  modify_session (set_multiple_face_count None) ;;
  modify_session (set_no_face_warning_count None) ;;
  flash "You have been successfully logged out." "info" ;;
  ret (Redirect "index" None).

(** ** Vocabulary for sequences of frames *)

(** The request is an in-exam tick with an image (whoever sends it). *)
Definition is_tick (data : face_request) : bool :=
  negb (default false (is_pre_check data)) && Py.str_truthy (image_payload data).

(** The in-exam frames of a sequence that show no face. *)
Definition misses (extract_faces : string -> option (list float))
    (frames : list face_request) : Z :=
  Z.of_nat (length (List.filter
                      (fun data => is_tick data && (faces_seen extract_faces data =? 0))
                      frames)).

(** The in-exam frames of a sequence that show more than one face. *)
Definition crowds (extract_faces : string -> option (list float))
    (frames : list face_request) : Z :=
  Z.of_nat (length (List.filter
                      (fun data => is_tick data && (1 <? faces_seen extract_faces data))
                      frames)).

(** The termination record that [terminate_exam] posts from [w]. *)
Definition termination_row (email exam_id violation_type : option string)
    (current_score : Z) (w : World) : Termination :=
  {| t_objectId := Backendless.new_object_id (length (ExamTerminations (db w)));
     t_applicantEmail := email;
     t_examId := exam_id;
     terminationReason := violation_type;
     currentScore := Py.float_of_Z current_score;
     terminationTime := clock w;
     isBlocked := Some true;
     is_active := None;
     removed_at := None |}.

(** A login form with the three fields filled in. *)
Definition filled_form (email password login_exam_id : string) : login_form :=
  {| form_email := Some email; form_password := Some password;
     form_exam_id := Some login_exam_id |}.

(** The session a successful login leaves. *)
Definition fresh_login (email login_exam_id : string) : Session :=
  {| student_logged_in := Some true;
     student_email := Some email;
     session_exam_id := Some login_exam_id;
     no_face_count := Some 0;
     multiple_face_count := Some 0;
     no_face_warning_count := Some 0 |}.

(** The credential that [get_login_credential] selects from the tables. *)
Definition issued_credential (email exam_id : string) (d : Backend) : option Credential :=
  Backendless.newest (List.filter (Backendless.cred_matches email exam_id) (exam_login d)).

(** The password of a credential row is [password]. *)
Definition password_is (password : string) (c : Credential) : bool :=
  match generatedPassword c with
  | Some p => String.eqb password p
  | None => false
  end.

(** A form field that is absent or empty. *)
Definition blank (field : option string) : Prop :=
  field = None \/ field = Some "".

(** The request meets a data service that answers it. *)
Definition served (o : net_outcome) : bool :=
  match o with NetOk => true | _ => false end.

(** What decides a login with all fields filled in: the ledger query
    does not report a block, the credential query is served, and the
    newest credential of the pair carries the password typed. *)
Definition login_accepts (email password login_exam_id : string) (w : World) : bool :=
  negb (served (hd NetOk (net w)) && blocked email login_exam_id (db w))
  && served (hd NetOk (tl (net w)))
  && match issued_credential email login_exam_id (db w) with
     | Some c => password_is password c
     | None => false
     end.

(** A request that reads the data service. *)
Definition is_read (rq : request) : bool :=
  match rq with
  | PostResult _ | PostTermination _ | PutTermination _ _ _ => false
  | _ => true
  end.

(** From [w] to [w'] the tables are unchanged and only read requests
    were issued. *)
Definition quiet (w w' : World) : Prop :=
  db w' = db w /\
  exists l, log w' = l ++ log w /\
            Forall (fun entry => is_read (fst entry) = true) l.

(** A computation that is quiet from every world. *)
Definition reads_only {A : Type} (c : M A) : Prop :=
  forall w, quiet w (snd (c w)).

(** The paper that [get_exam_paper_by_exam_id] builds from an exam row
    and the questions fetched. *)
Definition paper_of (exam_id : string) (e : Exam) (qs : list Question) : exam_paper :=
  {| examId := exam_id;
     p_examTitle := examTitle e;
     p_startDateTime := startDateTime e;
     p_endDateTime := endDateTime e;
     p_testDuration := testDuration e;
     questions := qs;
     applicationId := e_applicationId e |}.

(** ** More concrete runs *)

Module Scenario.

(** A miss, a found face, and four more misses. *)
Definition six_frames : list face_request :=
  [Demo.frame "none"; Demo.frame "one"; Demo.frame "none";
   Demo.frame "none"; Demo.frame "none"; Demo.frame "none"].

(** The record posted on the fifth miss. *)
Definition fifth_miss_row : Termination :=
  {| t_objectId := "0";
     t_applicantEmail := Some "ann@example.org";
     t_examId := Some "E1";
     terminationReason := Some "NO_FACE_DETECTED_FOR_5_CHECKS";
     currentScore := Py.float_of_Z 2;
     terminationTime := 100;
     isBlocked := Some true;
     is_active := None;
     removed_at := None |}.

(** A logged-in student one crowd away from termination, with the
    data service down. *)
Definition seated_ledger_down : World :=
  Demo.world {| student_logged_in := Some true; student_email := Some "ann@example.org";
                session_exam_id := Some "E1"; no_face_count := Some 0;
                multiple_face_count := Some 1; no_face_warning_count := Some 0 |}
             (Demo.backend Demo.in_window Demo.paper_questions) [NetDown].

(** A session that says logged in but carries no e-mail. *)
Definition seated_without_email : World :=
  Demo.world {| student_logged_in := Some true; student_email := None;
                session_exam_id := Some "E1"; no_face_count := Some 0;
                multiple_face_count := Some 0; no_face_warning_count := Some 0 |}
             (Demo.backend Demo.in_window Demo.paper_questions) [].

(** A logged-in student with a blocking record on file; the first
    request of the coming page is not served. *)
Definition blocked_ledger_down : World :=
  Demo.world {| student_logged_in := Some true; student_email := Some "ann@example.org";
                session_exam_id := Some "E1"; no_face_count := Some 0;
                multiple_face_count := Some 0; no_face_warning_count := Some 0 |}
             (with_ExamTerminations [fifth_miss_row]
                (Demo.backend Demo.in_window Demo.paper_questions))
             [NetDown].

(** The student was sent a second password after the first one. *)
Definition reissued : World :=
  Demo.world empty_session
    {| exam_login := [ {| c_applicantEmail := "ann@example.org"; c_examId := "E1";
                          generatedPassword := Some "s3cret"; sentAt := 10 |};
                       {| c_applicantEmail := "ann@example.org"; c_examId := "E1";
                          generatedPassword := Some "n3wer"; sentAt := 20 |};
                       {| c_applicantEmail := "bob@example.org"; c_examId := "E1";
                          generatedPassword := Some "s3cret"; sentAt := 30 |} ];
       Exams := [ Demo.in_window ];
       Questions := Demo.paper_questions;
       ExamResults := [];
       ExamTerminations := [] |}
    [].

End Scenario.

(** * Proof tactics *)

(** Unfold the state-passing operators and read the fields of the worlds
    they build. *)
Ltac run_monad :=
  cbv beta iota zeta delta
    [bind ret get_session get_db now modify_session modify_db flash session_clear
     http with_session with_flashes with_db
     set_student_logged_in set_student_email set_exam_id set_no_face_count
     set_multiple_face_count set_no_face_warning_count
     terminate_exam save_exam_result check_if_result_exists
     check_active_termination get_login_credential];
  cbn beta iota zeta delta
    [session flashes db net log clock
     student_logged_in student_email session_exam_id no_face_count
     multiple_face_count no_face_warning_count
     l_no_face_count l_multiple_face_count l_no_face_warning_count l_message
     l_should_terminate l_violation_type
     get_no_face_count get_multiple_face_count get_no_face_warning_count
     fst snd negb].

(** An early exit of a gated page is not the closed redirect: the
    response or the flashed message differs. *)
Ltac not_closed Hrun Hclosed :=
  cbn in Hrun; injection Hrun as <- <-;
  let Hresp := fresh "Hresp" in
  let Hflash := fresh "Hflash" in
  destruct Hclosed as (Hresp & Hflash);
  first
    [ discriminate Hresp
    | exfalso; cbn [flashes with_flashes with_session] in Hflash;
      repeat match goal with
             | H : flashes _ = flashes _ |- _ => rewrite H in Hflash; clear H
             end;
      apply app_inv_head in Hflash; unfold closed_message in Hflash;
      discriminate Hflash ].


(** * Proofs *)

(** ** The face-check tick *)

Lemma str_truthy_nonempty s : Py.str_truthy s = true <-> s <> "".
Proof. destruct s; cbn; split; intros; congruence. Qed.

Lemma str_truthy_empty s : Py.str_truthy s = false <-> s = "".
Proof. destruct s; cbn; split; intros; congruence. Qed.

Lemma detected_faces_count_nonneg detections : 0 <= detected_faces_count detections.
Proof. unfold detected_faces_count. lia. Qed.

Lemma faces_seen_nonneg extract_faces data : 0 <= faces_seen extract_faces data.
Proof.
  unfold faces_seen. destruct (extract_faces _); [apply detected_faces_count_nonneg | lia].
Qed.

Lemma analyse_faces_seen extract_faces data :
  analyse extract_faces (image_payload data)
  = (faces_seen extract_faces data =? 1, 1 <? faces_seen extract_faces data).
Proof. unfold analyse, faces_seen. destruct (extract_faces _); reflexivity. Qed.

(** The tick as one equation: the decision table applied to the counters
    of the session, the write-back of the three locals, and the
    termination action. *)
Lemma api_check_face_in_exam extract_faces data w :
  in_exam_tick data w ->
  let s := session w in
  let faces := faces_seen extract_faces data in
  let l := tick_outcome faces (get_no_face_count s) (get_multiple_face_count s)
                        (get_no_face_warning_count s) in
  let w1 := with_session (written_back l s) w in
  let act := if l_should_terminate l
             then termination_action (student_email s) (session_exam_id s) l data w1
             else (Returned tt, w1) in
  api_check_face true extract_faces data w
  = (match fst act with
     | Raised e => InternalServerError e
     | Returned _ =>
         JsonFace 200 {| success := true;
                         face_detected := faces =? 1;
                         message := l_message l;
                         terminate := l_should_terminate l;
                         reply_no_face_count := l_no_face_count l;
                         reply_multiple_face_count := l_multiple_face_count l;
                         reply_no_face_warning_count := l_no_face_warning_count l |}
     end,
     snd act).
Proof.
  intros (Hlog & Hpre & Himg). cbv zeta.
  apply str_truthy_nonempty in Himg. unfold logged_in in Hlog.
  unfold api_check_face, bind at 1, get_session at 1.
  fold (image_payload data).
  rewrite Hlog, Hpre, Himg. cbn [negb].
  rewrite analyse_faces_seen.
  unfold tick_outcome, decision_table, termination_action, written_back, terminate_exam.
  destruct (faces_seen extract_faces data =? 1); [reflexivity|].
  destruct (1 <? faces_seen extract_faces data).
  - run_monad. destruct (2 <=? _); [|reflexivity].
    run_monad. destruct (Py.float_overflows _); [reflexivity|].
    run_monad. destruct (hd NetOk (net w)); reflexivity.
  - run_monad. destruct (5 <=? _).
    { run_monad. destruct (Py.float_overflows _); [reflexivity|].
      run_monad. destruct (hd NetOk (net w)); reflexivity. }
    destruct (_ =? 1); [|reflexivity].
    destruct (5 <=? _); [|reflexivity].
    run_monad. destruct (Py.float_overflows _); [reflexivity|].
    run_monad. destruct (hd NetOk (net w)); reflexivity.
Qed.

Lemma termination_action_effect email exam_id l data w1 :
  let r := fst (termination_action email exam_id l data w1) in
  let w2 := snd (termination_action email exam_id l data w1) in
  no_face_count (session w2) = no_face_count (session w1) /\
  multiple_face_count (session w2) = multiple_face_count (session w1) /\
  no_face_warning_count (session w2) = no_face_warning_count (session w1) /\
  (score_converts data /\ r = Returned tt /\
   student_logged_in (session w2) = None /\
   (exists t o, log w2 = (PostTermination t, o) :: log w1 /\
                terminationReason t = l_violation_type l /\ isBlocked t = Some true)
   \/
   ~ score_converts data /\ r = Raised OverflowError /\ w2 = w1).
Proof.
  unfold termination_action, terminate_exam, score_converts.
  destruct (Py.float_overflows _).
  - repeat split. right. repeat split. discriminate.
  - run_monad.
    destruct (hd NetOk (net w1)); run_monad; repeat split; left; repeat split; eauto.
Qed.

Lemma tick_outcome_rule faces n m c :
  0 <= faces ->
  let l := tick_outcome faces n m c in
  (l_should_terminate l = true <->
     (1 < faces /\ 2 <= l_multiple_face_count l) \/
     (faces = 0 /\ 5 <= l_no_face_count l) \/
     (faces = 0 /\ l_no_face_count l = 1 /\ 5 <= l_no_face_warning_count l)) /\
  (1 < faces /\ 2 <= l_multiple_face_count l ->
     l_violation_type l = Some "MULTIPLE_FACES_DETECTED") /\
  (faces = 0 /\ 5 <= l_no_face_count l ->
     l_violation_type l = Some "NO_FACE_DETECTED_FOR_5_CHECKS") /\
  (faces = 0 /\ l_no_face_count l = 1 /\ 5 <= l_no_face_warning_count l ->
     l_violation_type l = Some "NO_FACE_DETECTED_5_WARNINGS").
Proof.
  intros Hf. unfold tick_outcome.
  destruct (Z.eqb_spec faces 1).
  { cbn. repeat split; intros; try lia; try discriminate. }
  destruct (Z.ltb_spec 1 faces).
  { cbn. destruct (Z.leb_spec 2 (m + 1));
      repeat split; intros; try lia; try discriminate; auto. }
  destruct (Z.leb_spec 5 (n + 1)).
  { cbn. repeat split; intros; try lia; auto. }
  destruct (Z.eqb_spec (n + 1) 1).
  { cbn. destruct (Z.leb_spec 5 (c + 1));
      repeat split; intros; try lia; try discriminate; auto. }
  cbn. repeat split; intros; try lia; try discriminate.
Qed.

(** X26: an in-exam tick whose score [float()] accepts terminates exactly
    under the three counter rules, read on the counters the tick leaves
    in the session, reports the matching reason code and logs the client
    out; a detector failure counts as zero faces. *)
Theorem check_face_terminates_iff
    (extract_faces : string -> option (list float)) (data : face_request) (w : World) :
  in_exam_tick data w ->
  score_converts data ->
  let faces := faces_seen extract_faces data in
  let resp := fst (api_check_face true extract_faces data w) in
  let w' := snd (api_check_face true extract_faces data w) in
  let n := get_no_face_count (session w') in
  let m := get_multiple_face_count (session w') in
  let c := get_no_face_warning_count (session w') in
  (tick_terminates resp = true <->
     (1 < faces /\ 2 <= m) \/ (faces = 0 /\ 5 <= n) \/ (faces = 0 /\ n = 1 /\ 5 <= c)) /\
  (1 < faces /\ 2 <= m -> reports w w' "MULTIPLE_FACES_DETECTED") /\
  (faces = 0 /\ 5 <= n -> reports w w' "NO_FACE_DETECTED_FOR_5_CHECKS") /\
  (faces = 0 /\ n = 1 /\ 5 <= c -> reports w w' "NO_FACE_DETECTED_5_WARNINGS") /\
  (tick_terminates resp = true -> student_logged_in (session w') = None) /\
  (tick_terminates resp = false ->
     log w' = log w /\ db w' = db w /\
     student_logged_in (session w') = student_logged_in (session w)).
Proof.
  intros Htick Hscore. cbv zeta.
  rewrite (api_check_face_in_exam extract_faces data w Htick). cbv zeta.
  pose proof (tick_outcome_rule (faces_seen extract_faces data)
                (get_no_face_count (session w)) (get_multiple_face_count (session w))
                (get_no_face_warning_count (session w))
                (faces_seen_nonneg extract_faces data)) as Hrule.
  cbv zeta in Hrule.
  set (faces := faces_seen extract_faces data) in *.
  set (l := tick_outcome _ _ _ _) in *.
  set (w1 := with_session (written_back l (session w)) w).
  pose proof (termination_action_effect (student_email (session w))
                (session_exam_id (session w)) l data w1) as Heffect.
  cbv zeta in Heffect.
  destruct Heffect as (Hn & Hm & Hc & [(_ & Hr & Hout & t & o & Hlog & Hreason & Hblocked)
                                      | (Hno & _)]);
    [|contradiction].
  destruct Hrule as (Hiff & Hmulti & Hfive & Hwarn).
  unfold get_no_face_count, get_multiple_face_count, get_no_face_warning_count, reports.
  destruct (l_should_terminate l) eqn:Hterm.
  - rewrite Hr. cbn [fst snd tick_terminates terminate].
    rewrite Hn, Hm, Hc, Hlog. subst w1.
    cbn [with_session session log written_back no_face_count
      multiple_face_count no_face_warning_count default].
    split; [exact Hiff|].
    repeat split; intros; try discriminate; auto;
      exists t, o; rewrite Hreason; auto.
  - cbn [fst snd tick_terminates terminate]. subst w1.
    cbn [with_session session log db written_back no_face_count
      multiple_face_count no_face_warning_count student_logged_in default].
    split; [exact Hiff|].
    repeat split; intros; try discriminate; exfalso;
      assert (false = true) by (apply Hiff; auto); discriminate.
Qed.

Lemma check_face_terminates_iff_witness :
  in_exam_tick (Demo.frame "two") (Demo.seated 0 1 0) /\
  score_converts (Demo.frame "two") /\
  faces_seen Demo.sensor (Demo.frame "two") = 2 /\
  tick_terminates (fst (Demo.tick "two" (Demo.seated 0 1 0))) = true /\
  reports (Demo.seated 0 1 0) (snd (Demo.tick "two" (Demo.seated 0 1 0)))
          "MULTIPLE_FACES_DETECTED".
Proof.
  assert (Htick : in_exam_tick (Demo.frame "two") (Demo.seated 0 1 0)).
  { repeat split. vm_compute. discriminate. }
  assert (Hscore : score_converts (Demo.frame "two")) by (vm_compute; reflexivity).
  pose proof (check_face_terminates_iff Demo.sensor (Demo.frame "two")
                (Demo.seated 0 1 0) Htick Hscore) as H.
  cbv zeta in H. destruct H as (Hiff & Hmulti & _).
  split; [exact Htick|]. split; [exact Hscore|]. split; [reflexivity|].
  split.
  - apply Hiff. left. vm_compute. split; [reflexivity | discriminate].
  - apply Hmulti. vm_compute. split; [reflexivity | discriminate].
Defined.

(** C1: the code at the failing input.  The session has four misses on
    record and the frame shows no face, so the tick takes no_face_count
    to 5; its score is an integer that [float()] refuses.  The view
    raises: the answer is the 500 page, no record is posted, and the
    client is still logged in with the 5 on record.  The same frame with
    score 2 terminates. *)
Theorem termination_skipped_on_score_overflow :
  in_exam_tick Demo.oversized (Demo.seated 4 0 0) /\
  faces_seen Demo.sensor Demo.oversized = 0 /\
  fst (api_check_face true Demo.sensor Demo.oversized (Demo.seated 4 0 0))
  = InternalServerError OverflowError /\
  get_no_face_count
    (session (snd (api_check_face true Demo.sensor Demo.oversized (Demo.seated 4 0 0))))
  = 5 /\
  logged_in (snd (api_check_face true Demo.sensor Demo.oversized (Demo.seated 4 0 0))) /\
  log (snd (api_check_face true Demo.sensor Demo.oversized (Demo.seated 4 0 0))) = [] /\
  db (snd (api_check_face true Demo.sensor Demo.oversized (Demo.seated 4 0 0)))
  = db (Demo.seated 4 0 0) /\
  tick_terminates (fst (Demo.tick "none" (Demo.seated 4 0 0))) = true /\
  student_logged_in (session (snd (Demo.tick "none" (Demo.seated 4 0 0)))) = None.
Proof.
  split; [repeat split; vm_compute; discriminate|].
  repeat split; vm_compute; reflexivity.
Qed.

(** C2 as stated fails: after login and a two-face frame the multi-face
    counter is 1, and a following frame with no face leaves it at 1. *)
Lemma no_face_tick_resets_multi_counterexample :
  in_exam_tick (Demo.frame "none") Demo.after_two_faces /\
  faces_seen Demo.sensor (Demo.frame "none") = 0 /\
  get_multiple_face_count (session Demo.after_two_faces) = 1 /\
  get_multiple_face_count (session (snd (Demo.tick "none" Demo.after_two_faces))) <> 0.
Proof.
  repeat split; try reflexivity; vm_compute; discriminate.
Qed.

(** C2 (amended): an in-exam tick that sees no face leaves
    multiple_face_count as it was. *)
Theorem no_face_tick_keeps_multiple_face_count
    (extract_faces : string -> option (list float)) (data : face_request) (w : World) :
  in_exam_tick data w ->
  faces_seen extract_faces data = 0 ->
  get_multiple_face_count (session (snd (api_check_face true extract_faces data w)))
  = get_multiple_face_count (session w).
Proof.
  intros Htick Hfaces.
  rewrite (api_check_face_in_exam extract_faces data w Htick). cbv zeta.
  rewrite Hfaces. cbn [snd].
  set (l := tick_outcome 0 _ _ _).
  assert (Hl : l_multiple_face_count l = get_multiple_face_count (session w)).
  { subst l. unfold tick_outcome. cbn [Z.eqb Z.ltb Z.compare].
    destruct (5 <=? _); [reflexivity|].
    destruct (_ =? 1); reflexivity. }
  unfold get_multiple_face_count at 1.
  destruct (l_should_terminate l).
  - destruct (termination_action_effect (student_email (session w))
                (session_exam_id (session w)) l data
                (with_session (written_back l (session w)) w))
      as (_ & Hm & _).
    rewrite Hm. cbn. exact Hl.
  - cbn. exact Hl.
Qed.

Lemma no_face_tick_keeps_multiple_face_count_witness :
  in_exam_tick (Demo.frame "none") Demo.after_two_faces /\
  faces_seen Demo.sensor (Demo.frame "none") = 0 /\
  get_multiple_face_count (session (snd (Demo.tick "none" Demo.after_two_faces)))
  = get_multiple_face_count (session Demo.after_two_faces).
Proof.
  assert (Htick : in_exam_tick (Demo.frame "none") Demo.after_two_faces).
  { repeat split. vm_compute. discriminate. }
  split; [exact Htick|]. split; [reflexivity|].
  exact (no_face_tick_keeps_multiple_face_count Demo.sensor (Demo.frame "none")
           Demo.after_two_faces Htick eq_refl).
Defined.

(** A single-face tick writes zeros into the session and then writes the
    stale locals over them: the three counters are as before the tick. *)
Lemma single_face_tick_keeps_counters extract_faces data w :
  in_exam_tick data w ->
  faces_seen extract_faces data = 1 ->
  let w' := snd (api_check_face true extract_faces data w) in
  no_face_count (session w') = Some (get_no_face_count (session w)) /\
  multiple_face_count (session w') = Some (get_multiple_face_count (session w)) /\
  no_face_warning_count (session w') = Some (get_no_face_warning_count (session w)).
Proof.
  intros Htick Hfaces.
  rewrite (api_check_face_in_exam extract_faces data w Htick). cbv zeta.
  rewrite Hfaces. repeat split.
Qed.

(** C6: the code at the failing input.  After login, a frame with no
    face and then a frame with exactly one face, no_face_count is still
    1; likewise multiple_face_count after a two-face frame. *)
Theorem single_face_tick_does_not_reset :
  faces_seen Demo.sensor (Demo.frame "one") = 1 /\
  no_face_count (session Demo.after_no_face) = Some 1 /\
  no_face_count (session (snd (Demo.tick "one" Demo.after_no_face))) = Some 1 /\
  multiple_face_count (session Demo.after_two_faces) = Some 1 /\
  multiple_face_count (session (snd (Demo.tick "one" Demo.after_two_faces))) = Some 1.
Proof. repeat split; vm_compute; reflexivity. Qed.

(** C8: without the sensor every tick of a logged-in client answers the
    fixed mock reply, sets the three counters to 0, consults neither the
    sensor nor the data service, and ends no session. *)
Theorem degraded_mode_tick
    (extract_faces : string -> option (list float)) (data : face_request) (w : World) :
  logged_in w ->
  let resp := fst (api_check_face false extract_faces data w) in
  let w' := snd (api_check_face false extract_faces data w) in
  resp = JsonFace 200 {| success := true;
                         face_detected := true;
                         message := "Proctoring ON (DeepFace Mock)";
                         terminate := false;
                         reply_no_face_count := 0;
                         reply_multiple_face_count := 0;
                         reply_no_face_warning_count := 0 |} /\
  no_face_count (session w') = Some 0 /\
  multiple_face_count (session w') = Some 0 /\
  no_face_warning_count (session w') = Some 0 /\
  student_logged_in (session w') = student_logged_in (session w) /\
  student_email (session w') = student_email (session w) /\
  session_exam_id (session w') = session_exam_id (session w) /\
  log w' = log w /\ db w' = db w /\
  (forall other_sensor,
     api_check_face false other_sensor data w = api_check_face false extract_faces data w).
Proof.
  intros Hlog. unfold logged_in in Hlog. cbv zeta.
  assert (Hrun : forall sensor,
             api_check_face false sensor data w
             = (JsonFace 200 {| success := true;
                                face_detected := true;
                                message := "Proctoring ON (DeepFace Mock)";
                                terminate := false;
                                reply_no_face_count := 0;
                                reply_multiple_face_count := 0;
                                reply_no_face_warning_count := 0 |},
                with_session
                  (set_no_face_warning_count (Some 0)
                     (set_multiple_face_count (Some 0)
                        (set_no_face_count (Some 0) (session w)))) w)).
  { intros sensor. unfold api_check_face. run_monad. rewrite Hlog. reflexivity. }
  rewrite Hrun. repeat split. intros other. now rewrite Hrun.
Qed.

Lemma degraded_mode_tick_witness :
  logged_in (Demo.seated 4 1 4) /\
  fst (api_check_face false Demo.sensor (Demo.frame "none") (Demo.seated 4 1 4))
  = JsonFace 200 {| success := true;
                    face_detected := true;
                    message := "Proctoring ON (DeepFace Mock)";
                    terminate := false;
                    reply_no_face_count := 0;
                    reply_multiple_face_count := 0;
                    reply_no_face_warning_count := 0 |}.
Proof.
  assert (Hlog : logged_in (Demo.seated 4 1 4)) by reflexivity.
  split; [exact Hlog|].
  exact (proj1 (degraded_mode_tick Demo.sensor (Demo.frame "none")
                  (Demo.seated 4 1 4) Hlog)).
Defined.

Lemma absent_image_payload data : image_data data = None -> image_payload data = "".
Proof. intros H. unfold image_payload. rewrite H. reflexivity. Qed.

(** C9: with the sensor available, a logged-in request whose image is
    absent or empty after the base64 prefix is answered 400 and leaves
    the whole world, hence the three counters, untouched. *)
Theorem empty_image_rejected
    (extract_faces : string -> option (list float)) (data : face_request) (w : World) :
  logged_in w ->
  image_data data = None \/ image_payload data = "" ->
  api_check_face true extract_faces data w
  = (JsonMessage 400 false "No image data received.", w).
Proof.
  intros Hlog Himg. unfold logged_in in Hlog.
  assert (Hempty : image_payload data = "").
  { destruct Himg as [H|H]; [apply absent_image_payload, H | exact H]. }
  unfold api_check_face, bind at 1, get_session at 1.
  fold (image_payload data). rewrite Hlog, Hempty. reflexivity.
Qed.

Lemma empty_image_rejected_witness :
  logged_in (Demo.seated 4 0 4) /\
  image_payload (Demo.frame "") = "" /\
  api_check_face true Demo.sensor (Demo.frame "") (Demo.seated 4 0 4)
  = (JsonMessage 400 false "No image data received.", Demo.seated 4 0 4).
Proof.
  assert (Hlog : logged_in (Demo.seated 4 0 4)) by reflexivity.
  split; [exact Hlog|]. split; [reflexivity|].
  exact (empty_image_rejected Demo.sensor (Demo.frame "") (Demo.seated 4 0 4)
           Hlog (or_intror eq_refl)).
Defined.

(** A request that is not an in-exam tick with an image leaves the world
    as it is. *)
Lemma api_check_face_idle extract_faces data w :
  ~ in_exam_tick data w ->
  snd (api_check_face true extract_faces data w) = w.
Proof.
  intros Hidle. unfold api_check_face, bind at 1, get_session at 1.
  fold (image_payload data).
  destruct (Py.flag (student_logged_in (session w))) eqn:Hlog; [|reflexivity].
  cbn [negb].
  destruct (Py.str_truthy (image_payload data)) eqn:Himg; [|reflexivity].
  cbn [negb].
  destruct (default false (is_pre_check data)) eqn:Hpre.
  - cbn [negb]. destruct (analyse extract_faces (image_payload data)). reflexivity.
  - exfalso. apply Hidle. repeat split; auto. apply str_truthy_nonempty, Himg.
Qed.

Lemma in_exam_tick_dec data w : in_exam_tick data w \/ ~ in_exam_tick data w.
Proof.
  unfold in_exam_tick, logged_in.
  destruct (Py.flag (student_logged_in (session w))); [|right; intros (H & _); discriminate].
  destruct (default false (is_pre_check data));
    [right; intros (_ & H & _); discriminate|].
  destruct (image_payload data) eqn:Himg.
  - right. intros (_ & _ & H). congruence.
  - left. repeat split. discriminate.
Qed.

(** One request: the counters stay non-negative, and the warning count
    never goes down and goes up by one only on a tick that sees no face
    and leaves no_face_count at 1. *)
Lemma tick_counters extract_faces data w :
  let w' := snd (api_check_face true extract_faces data w) in
  (counters_nonneg w -> counters_nonneg w') /\
  get_no_face_warning_count (session w)
  <= get_no_face_warning_count (session w')
  <= get_no_face_warning_count (session w) + 1 /\
  (get_no_face_warning_count (session w')
   = get_no_face_warning_count (session w) + 1 ->
   faces_seen extract_faces data = 0 /\ get_no_face_count (session w') = 1).
Proof.
  cbv zeta. destruct (in_exam_tick_dec data w) as [Htick|Hidle].
  2: { rewrite (api_check_face_idle extract_faces data w Hidle).
       split; [auto|]. split; lia. }
  rewrite (api_check_face_in_exam extract_faces data w Htick). cbv zeta.
  pose proof (faces_seen_nonneg extract_faces data) as Hf.
  set (faces := faces_seen extract_faces data) in *.
  set (n := get_no_face_count (session w)).
  set (m := get_multiple_face_count (session w)).
  set (c := get_no_face_warning_count (session w)).
  set (l := tick_outcome faces n m c).
  set (w1 := with_session (written_back l (session w)) w).
  pose proof (termination_action_effect (student_email (session w))
                (session_exam_id (session w)) l data w1)
    as (Hn & Hm & Hc & _).
  cbn [snd]. unfold counters_nonneg.
  unfold get_no_face_count, get_multiple_face_count, get_no_face_warning_count.
  assert (Hw : forall w2 : World,
             no_face_count (session w2) = Some (l_no_face_count l) ->
             multiple_face_count (session w2) = Some (l_multiple_face_count l) ->
             no_face_warning_count (session w2) = Some (l_no_face_warning_count l) ->
             ((0 <= n /\ 0 <= m /\ 0 <= c ->
               0 <= default 0 (no_face_count (session w2)) /\
               0 <= default 0 (multiple_face_count (session w2)) /\
               0 <= default 0 (no_face_warning_count (session w2))) /\
              c <= default 0 (no_face_warning_count (session w2)) <= c + 1 /\
              (default 0 (no_face_warning_count (session w2)) = c + 1 ->
               faces = 0 /\ default 0 (no_face_count (session w2)) = 1))).
  { intros w2 -> -> ->. cbn [default from_option id].
    subst l. unfold tick_outcome.
    destruct (Z.eqb_spec faces 1); [cbn; lia|].
    destruct (Z.ltb_spec 1 faces); [cbn; lia|].
    destruct (Z.leb_spec 5 (n + 1)); [cbn; lia|].
    destruct (Z.eqb_spec (n + 1) 1); cbn; lia. }
  destruct (l_should_terminate l).
  - apply Hw; [rewrite Hn | rewrite Hm | rewrite Hc]; reflexivity.
  - apply Hw; reflexivity.
Qed.

(** Over any sequence of requests the counters stay non-negative and the
    warning count does not decrease. *)
Lemma run_ticks_counters extract_faces frames w :
  counters_nonneg w ->
  counters_nonneg (run_ticks extract_faces frames w) /\
  get_no_face_warning_count (session w)
  <= get_no_face_warning_count (session (run_ticks extract_faces frames w)).
Proof.
  revert w. induction frames as [|data frames IH]; intros w Hnonneg.
  - cbn. split; [exact Hnonneg | lia].
  - cbn [run_ticks].
    destruct (tick_counters extract_faces data w) as (Hstep & Hmono & _).
    destruct (IH _ (Hstep Hnonneg)) as (Hrest & Hle).
    split; [exact Hrest | lia].
Qed.

(** ** The termination ledger *)

Lemma nonempty_filter_existsb {A} (f : A -> bool) (l : list A) :
  (0 <? Z.of_nat (length (List.filter f l))) = existsb f l.
Proof.
  induction l as [|a l IH]; [reflexivity|].
  cbn [List.filter existsb]. destruct (f a); cbn [orb length]; [|exact IH].
  apply Z.ltb_lt. lia.
Qed.

Lemma check_active_termination_served email exam_id w :
  hd NetOk (net w) = NetOk ->
  fst (check_active_termination email exam_id w) = blocked email exam_id (db w).
Proof.
  intros Hnet. unfold check_active_termination. run_monad. rewrite Hnet.
  run_monad. apply nonempty_filter_existsb.
Qed.

Lemma blocked_matches_put_inactive email exam_id object_id active removed t :
  Backendless.blocked_matches email exam_id
    (Backendless.put_inactive object_id active removed t)
  = Backendless.blocked_matches email exam_id t.
Proof.
  unfold Backendless.put_inactive. destruct (String.eqb _ _); reflexivity.
Qed.

(** The restore action updates [is_active] and [removed_at] only: a pair
    that was blocked stays blocked, whatever object is restored. *)
Lemma restore_keeps_block termination_object_id email exam_id w :
  blocked email exam_id (db (snd (remove_termination_status termination_object_id w)))
  = blocked email exam_id (db w).
Proof.
  unfold remove_termination_status. run_monad.
  destruct (hd NetOk (net w)); try reflexivity.
  run_monad. destruct (existsb _ _); try reflexivity.
  run_monad. unfold blocked. cbn [ExamTerminations with_ExamTerminations].
  induction (ExamTerminations (db w)) as [|t ts IH]; [reflexivity|].
  cbn [map existsb]. rewrite blocked_matches_put_inactive, IH. reflexivity.
Qed.

Lemma terminate_exam_blocks email exam_id reason current_score w :
  Py.float_overflows current_score = false ->
  hd NetOk (net w) = NetOk ->
  blocked email exam_id
    (db (snd (terminate_exam (Some email) (Some exam_id) reason current_score w))) = true.
Proof.
  intros Hconv Hnet. unfold terminate_exam. rewrite Hconv.
  run_monad. rewrite Hnet. run_monad.
  unfold blocked. cbn [ExamTerminations with_ExamTerminations].
  rewrite existsb_app. cbn [existsb].
  unfold Backendless.blocked_matches at 2.
  cbn [t_applicantEmail t_examId isBlocked Py.opt_eqb].
  rewrite !String.eqb_refl. cbn. apply orb_true_r.
Qed.

(** What a run of [check_active_termination] leaves behind. *)
Lemma check_active_termination_run email exam_id w b w1 :
  check_active_termination email exam_id w = (b, w1) ->
  session w1 = session w /\ flashes w1 = flashes w /\ db w1 = db w /\
  clock w1 = clock w /\ net w1 = tl (net w) /\
  log w1 = (GetBlockedTerminations email exam_id, hd NetOk (net w)) :: log w /\
  b = match hd NetOk (net w) with
      | NetOk => blocked email exam_id (db w)
      | _ => false
      end.
Proof.
  unfold check_active_termination. run_monad.
  destruct (hd NetOk (net w)); intros H; injection H as <- <-;
    repeat split; apply nonempty_filter_existsb.
Qed.

(** While a blocking row is on file and the ledger answers, a login
    attempt is turned away before the password is looked at. *)
Lemma login_denied_while_blocked exam_id email password login_exam_id w :
  Py.flag (student_logged_in (session w)) = false ->
  email <> "" -> password <> "" -> login_exam_id <> "" ->
  hd NetOk (net w) = NetOk ->
  blocked email login_exam_id (db w) = true ->
  let form := {| form_email := Some email; form_password := Some password;
                 form_exam_id := Some login_exam_id |} in
  fst (test_login exam_id POST form w) = Redirect "exam_finished" None /\
  session (snd (test_login exam_id POST form w)) = session w /\
  db (snd (test_login exam_id POST form w)) = db w.
Proof.
  intros Hout He Hp Hx Hnet Hblocked. cbv zeta.
  apply str_truthy_nonempty in He, Hp, Hx.
  destruct (check_active_termination email login_exam_id w) as [b w1] eqn:Hrun.
  destruct (check_active_termination_run _ _ _ _ _ Hrun)
    as (Hs & _ & Hd & _ & _ & _ & Hb).
  rewrite Hnet, Hblocked in Hb. subst b.
  assert (Heq : test_login exam_id POST
                  {| form_email := Some email; form_password := Some password;
                     form_exam_id := Some login_exam_id |} w
                = (flash "Access Denied: Your exam access has been permanently terminated due to a policy violation." "error" ;;
                   ret (Redirect "exam_finished" None)) w1).
  { unfold test_login.
    unfold bind at 1. unfold get_session at 1.
    rewrite Hout. cbn [andb].
    cbn beta iota zeta delta
      [form_email form_password form_exam_id Py.opt_truthy Py.str default
       from_option id].
    rewrite He, Hp, Hx. cbn [negb orb].
    unfold bind at 1. rewrite Hrun. reflexivity. }
  rewrite Heq. cbn. auto.
Qed.

(** No sequence of restore actions lifts the block seen by login. *)
Lemma restores_keep_block (ids : list string) email login_exam_id w :
  blocked email login_exam_id (db w) = true ->
  blocked email login_exam_id
    (db (fold_left (fun w id => snd (remove_termination_status id w)) ids w)) = true.
Proof.
  revert w. induction ids as [|id ids IH]; intros w Hblocked; [exact Hblocked|].
  cbn [fold_left]. apply IH. rewrite restore_keeps_block. exact Hblocked.
Qed.

(** C3: the code at the failing input.  The student logs in, is
    terminated by two frames with two faces, and is then turned away with
    the right password; the admin restore succeeds and marks the row
    inactive, yet [isBlocked] stays true and login is still turned away. *)
Theorem restore_does_not_lift_block :
  fst (Demo.login Demo.fresh) = Redirect "pre_exam_check" (Some "E1") /\
  blocked "ann@example.org" "E1" (db Demo.terminated) = true /\
  fst (Demo.login Demo.terminated) = Redirect "exam_finished" None /\
  fst (remove_termination_status "0" Demo.terminated) = true /\
  map is_active (ExamTerminations (db Demo.restored)) = [Some false] /\
  map isBlocked (ExamTerminations (db Demo.restored)) = [Some true] /\
  fst (Demo.login Demo.restored) = Redirect "exam_finished" None /\
  student_logged_in (session (snd (Demo.login Demo.restored))) = None.
Proof. repeat split; vm_compute; reflexivity. Qed.

(** ** Runs of the data-service calls *)

Lemma check_if_result_exists_run email exam_id w b w1 :
  check_if_result_exists email exam_id w = (b, w1) ->
  session w1 = session w /\ flashes w1 = flashes w /\ db w1 = db w /\
  clock w1 = clock w /\ net w1 = tl (net w) /\
  log w1 = (GetResults email exam_id, hd NetOk (net w)) :: log w /\
  b = match hd NetOk (net w) with
      | NetOk => result_on_file email exam_id (db w)
      | _ => false
      end.
Proof.
  unfold check_if_result_exists. run_monad.
  destruct (hd NetOk (net w)); intros H; injection H as <- <-;
    repeat split; apply nonempty_filter_existsb.
Qed.

Lemma get_exam_paper_by_exam_id_run exam_id w p w1 :
  get_exam_paper_by_exam_id exam_id w = (p, w1) ->
  session w1 = session w /\ flashes w1 = flashes w /\ db w1 = db w /\
  clock w1 = clock w /\
  (exists l, log w1 = l ++ log w /\ reads_paper exam_id l) /\
  (forall paper, p = Some paper ->
     questions paper = match hd NetOk (tl (net w)) with
                       | NetOk => questions_of exam_id (db w)
                       | _ => []
                       end /\
     exists e, exam_row exam_id (db w) = Some e /\
               p_startDateTime paper = startDateTime e /\
               p_endDateTime paper = endDateTime e /\
               applicationId paper = e_applicationId e) /\
  (p = None ->
   hd NetOk (net w) <> NetOk \/ exam_row exam_id (db w) = None \/
   hd NetOk (tl (net w)) = NetDown).
Proof.
  unfold get_exam_paper_by_exam_id, reads_paper, exam_row, questions_of.
  cbv beta iota zeta delta [bind ret get_db http].
  cbn [session flashes db net log clock].
  destruct (hd NetOk (net w)) eqn:Ho1; cbv beta iota;
    cbn [session flashes db net log clock].
  2,3: intros H; injection H as <- <-; cbn [session flashes db net log clock].
  2,3: do 4 (split; [reflexivity|]); split; [|split; [discriminate|]].
  2,4: eexists [_]; split; [reflexivity|];
       intros rq o [Hin|[]]; injection Hin as <- _; auto.
  2,3: intros _; left; discriminate.
  destruct (List.find _ (Exams (db w))) as [e|] eqn:Hfind; cbv beta iota;
    cbn [session flashes db net log clock].
  2: { intros H; injection H as <- <-; cbn [session flashes db net log clock].
       do 4 (split; [reflexivity|]); split; [|split; [discriminate|auto]].
       eexists [_]; split; [reflexivity|].
       intros rq o [Hin|[]]; injection Hin as <- _; auto. }
  destruct (hd NetOk (tl (net w))) eqn:Ho2; cbv beta iota;
    cbn [session flashes db net log clock].
  all: intros H; injection H as <- <-; cbn [session flashes db net log clock].
  all: do 4 (split; [reflexivity|]); split; [|split].
  all: try (eexists [_; _]; split; [reflexivity|];
            intros rq o [Hi|[Hi|[]]]; injection Hi as <- _; auto).
  all: try (intros paper Hp;
            first [ discriminate Hp
                  | injection Hp as <-;
                    cbn [questions p_startDateTime p_endDateTime applicationId];
                    split; [reflexivity | eauto 10] ]).
  all: try discriminate.
  auto.
Qed.

Lemma save_exam_result_run rd w b w1 :
  save_exam_result rd w = (b, w1) ->
  let data := {| r_applicantEmail := rd_email rd;
                 r_examId := rd_exam_id rd;
                 r_applicationId := rd_application_id rd;
                 score := rd_score rd;
                 totalQuestions := rd_total_questions rd;
                 submissionTime := clock w |} in
  session w1 = session w /\ flashes w1 = flashes w /\
  log w1 = (PostResult data, hd NetOk (net w)) :: log w /\
  (b = true /\ hd NetOk (net w) = NetOk /\
   db w1 = with_ExamResults (ExamResults (db w) ++ [data]) (db w)
   \/ b = false /\ hd NetOk (net w) <> NetOk /\ db w1 = db w).
Proof.
  unfold save_exam_result. run_monad.
  destruct (hd NetOk (net w)); intros H; injection H as <- <-; cbn;
    repeat split; auto; right; repeat split; discriminate.
Qed.

(** The decorator either turns the request away, in one of three ways,
    or hands the world on to the page after one ledger query. *)
Lemma student_exam_required_run exam_id f w resp w' :
  student_exam_required exam_id f w = (resp, w') ->
  (resp = Redirect "test_login" (Some exam_id) /\
   db w' = db w /\ log w' = log w /\ flashes w' <> [] /\
   Py.flag (student_logged_in (session w)) && Py.opt_eqb (session_exam_id (session w)) exam_id
   = false)
  \/
  (resp = Redirect "exam_finished" None /\
   db w' = db w /\ flashes w' = [] /\ session w' = empty_session /\
   (hd NetOk (net w) = NetOk /\
    blocked (Py.str (student_email (session w))) exam_id (db w) = true) /\
   exists o, log w' = (GetBlockedTerminations (Py.str (student_email (session w))) exam_id, o)
                      :: log w)
  \/
  (exists w1,
     f w1 = (resp, w') /\
     Py.flag (student_logged_in (session w)) = true /\
     Py.opt_eqb (session_exam_id (session w)) exam_id = true /\
     session w1 = session w /\ flashes w1 = flashes w /\ db w1 = db w /\
     clock w1 = clock w /\ net w1 = tl (net w) /\
     log w1 = (GetBlockedTerminations (Py.str (student_email (session w))) exam_id,
               hd NetOk (net w)) :: log w).
Proof.
  unfold student_exam_required.
  unfold bind at 1. unfold get_session at 1. cbv beta iota.
  destruct (Py.flag (student_logged_in (session w))); cbn [negb andb].
  2: { intros H. left. cbn in H. injection H as <- <-. cbn.
       repeat split. intros E; symmetry in E; revert E; apply app_cons_not_nil. }
  destruct (Py.opt_eqb (session_exam_id (session w)) exam_id); cbn [negb].
  2: { intros H. left. cbn in H. injection H as <- <-. cbn.
       repeat split. intros E; symmetry in E; revert E; apply app_cons_not_nil. }
  unfold bind at 1.
  destruct (check_active_termination _ exam_id w) as [b w1] eqn:Hrun.
  destruct (check_active_termination_run _ _ _ _ _ Hrun)
    as (Hs & Hf & Hd & Hc & Hn & Hl & Hb).
  destruct b.
  - intros H. right. left. cbn in H. injection H as <- <-. cbn.
    destruct (hd NetOk (net w)); try discriminate Hb.
    repeat split; eauto.
  - intros H. right. right. exists w1. repeat split; auto.
Qed.

(** ** Submission *)

Lemma submit_exam_cases exam_id form w resp w' :
  submit_exam exam_id form w = (resp, w') ->
  submit_case exam_id form w resp w'.
Proof.
  unfold submit_exam. intros Hrun.
  apply student_exam_required_run in Hrun.
  destruct Hrun as [(-> & Hd & Hl & _) | [(-> & Hd & _ & _ & _ & o & Hl) | Hpass]].
  { apply submit_not_admitted; assumption. }
  { eapply submit_blocked; eassumption. }
  destruct Hpass as (w1 & Hrun & _ & _ & Hs1 & Hf1 & Hd1 & Hc1 & _ & Hl1).
  unfold bind at 1 in Hrun. unfold get_session at 1 in Hrun. cbv beta iota in Hrun.
  unfold bind at 1 in Hrun.
  destruct (check_if_result_exists _ exam_id w1) as [submitted w2] eqn:Hcheck.
  apply check_if_result_exists_run in Hcheck.
  destruct Hcheck as (Hs2 & Hf2 & Hd2 & Hc2 & _ & Hl2 & Hb2).
  rewrite Hs1 in *. rewrite Hd1 in Hb2.
  destruct submitted.
  { cbn in Hrun. injection Hrun as <- <-.
    destruct (hd NetOk (net w1)); try discriminate Hb2.
    eapply submit_already; cbn;
      [ congruence | congruence | rewrite Hl2, Hl1; reflexivity | congruence ]. }
  assert (Hfresh : hd NetOk (net w1) = NetOk ->
                   result_on_file (Py.str (student_email (session w))) exam_id (db w)
                   = false).
  { intros Ho. rewrite Ho in Hb2. congruence. }
  unfold bind at 1 in Hrun.
  destruct (get_exam_paper_by_exam_id exam_id w2) as [paper w3] eqn:Hpaper.
  apply get_exam_paper_by_exam_id_run in Hpaper.
  destruct Hpaper as (Hs3 & Hf3 & Hd3 & Hc3 & (l & Hl3 & Hreads) & Hq & _).
  destruct paper as [exam_paper|].
  2: { cbn in Hrun. injection Hrun as <- <-.
       eapply submit_no_paper with (l := l); cbn;
         [ congruence | congruence | exact Hreads
         | rewrite Hl3, Hl2, Hl1; reflexivity | exact Hfresh ]. }
  destruct (Hq exam_paper eq_refl) as (Hqs & _). clear Hq.
  destruct (questions exam_paper) as [|q qs'] eqn:Hquestions.
  { cbn in Hrun. injection Hrun as <- <-.
    eapply submit_no_paper with (l := l); cbn;
      [ congruence | congruence | exact Hreads
      | rewrite Hl3, Hl2, Hl1; reflexivity | exact Hfresh ]. }
  destruct (hd NetOk (tl (net w2))); try discriminate Hqs.
  rewrite Hd2, Hd1 in Hqs.
  unfold bind at 1 in Hrun.
  destruct (save_exam_result _ w3) as [saved w4] eqn:Hsave.
  apply save_exam_result_run in Hsave. cbv zeta in Hsave.
  cbn [rd_email rd_exam_id rd_application_id rd_score rd_total_questions] in Hsave.
  rewrite Hqs in Hsave.
  change (Build_ExamResult _ _ _ _ _ _)
    with (result_row (student_email (session w)) exam_id (applicationId exam_paper)
                     form (questions_of exam_id (db w)) (clock w3)) in Hsave.
  replace (clock w3) with (clock w) in Hsave by congruence.
  destruct Hsave as (Hs4 & Hf4 & Hl4 & [(-> & Ho & Hd4) | (-> & Ho & Hd4)]).
  - cbn in Hrun. injection Hrun as <- <-.
    rewrite Ho in Hl4.
    eapply submit_saved with (l := l) (application_id := applicationId exam_paper);
      cbn [db session flashes log with_flashes with_session];
      [ rewrite <- Hqs; discriminate | congruence | exact Hreads
      | rewrite Hl4, Hl3, Hl2, Hl1; reflexivity | exact Hfresh ].
  - cbn in Hrun. injection Hrun as <- <-.
    eapply submit_save_failed
      with (l := l) (application_id := applicationId exam_paper);
      cbn [db session flashes log with_flashes with_session];
      [ rewrite <- Hqs; discriminate | exact Ho | congruence | congruence
      | congruence | exact Hreads
      | rewrite Hl4, Hl3, Hl2, Hl1; reflexivity | exact Hfresh ].
Qed.

Lemma log_cannot_grow_into_itself {A} (x : A) (l t : list A) : t <> x :: l ++ t.
Proof.
  intros H. apply (f_equal (@length A)) in H.
  cbn [length] in H. rewrite length_app in H. lia.
Qed.

(** A request that only fetches the paper is not the post of a result. *)
Lemma reads_paper_head exam_id l rest r o l' :
  reads_paper exam_id l ->
  (forall rq' o' t, rest = (rq', o') :: t -> forall r', rq' <> PostResult r') ->
  rest <> [] ->
  l ++ rest <> (PostResult r, o) :: l'.
Proof.
  intros Hreads Hrest Hne H. destruct l as [|[rq o0] l0].
  - cbn in H. destruct rest as [|[rq' o'] t]; [congruence|].
    injection H as Hrq _ _. exact (Hrest _ _ _ eq_refl r Hrq).
  - cbn in H. injection H as Hrq _ _.
    destruct (Hreads rq o0 (or_introl eq_refl)); congruence.
Qed.

(** C10: when the write of the result fails, the session and the data
    tables are as before the request and the student is sent back to the
    exam page. *)
Theorem failed_write_keeps_session
    (exam_id : string) (form : gmap string string) (w : World) :
  let resp := fst (submit_exam exam_id form w) in
  let w' := snd (submit_exam exam_id form w) in
  (exists r o l, o <> NetOk /\ log w' = (PostResult r, o) :: l ++ log w) ->
  session w' = session w /\
  db w' = db w /\
  resp = Redirect "start_exam" (Some exam_id) /\
  flashes w' = flashes w ++
    [("error", "Database Error: Failed to save your result. Contact the administrator.")].
Proof.
  cbv zeta. intros (r & o & l & Ho & Hlog).
  destruct (submit_exam exam_id form w) as [resp w'] eqn:Hrun.
  cbn [fst snd] in *.
  apply submit_exam_cases in Hrun.
  destruct Hrun as [w' Hd Hl | w' o1 Hd Hl | w' o1 Hd Hs Hl Hon
                   | w' o1 o2 l0 Hd Hs Hreads Hl Hfresh
                   | w' o1 o2 l0 app qs data Hqs Hd Hreads Hl Hfresh
                   | w' o' o1 o2 l0 app qs data Hqs Ho' Hd Hs Hf Hreads Hl Hfresh].
  - exfalso. rewrite Hl in Hlog. exact (log_cannot_grow_into_itself _ _ _ Hlog).
  - exfalso. rewrite Hl in Hlog. injection Hlog as Hhead _. discriminate Hhead.
  - exfalso. rewrite Hl in Hlog. injection Hlog as Hhead _. discriminate Hhead.
  - exfalso. rewrite Hl in Hlog. revert Hlog.
    apply reads_paper_head with (exam_id := exam_id); [exact Hreads | | discriminate].
    intros rq' o'' t Heq r'. injection Heq as <- _ _. discriminate.
  - exfalso. rewrite Hl in Hlog. injection Hlog as _ Hout _. congruence.
  - repeat split; assumption.
Qed.

Lemma failed_write_keeps_session_witness :
  (exists r o l, o <> NetOk /\
     log (snd (submit_exam "E1" Demo.answers Demo.seated_write_down))
     = (PostResult r, o) :: l ++ log Demo.seated_write_down) /\
  session (snd (submit_exam "E1" Demo.answers Demo.seated_write_down))
  = session Demo.seated_write_down /\
  fst (submit_exam "E1" Demo.answers Demo.seated_write_down)
  = Redirect "start_exam" (Some "E1").
Proof.
  assert (Hfail : exists r o l, o <> NetOk /\
            log (snd (submit_exam "E1" Demo.answers Demo.seated_write_down))
            = (PostResult r, o) :: l ++ log Demo.seated_write_down).
  { eexists _, NetDown,
      [ (GetQuestions "E1", NetOk); (GetExam "E1", NetOk);
        (GetResults "ann@example.org" "E1", NetOk);
        (GetBlockedTerminations "ann@example.org" "E1", NetOk) ].
    split; [discriminate|]. vm_compute. reflexivity. }
  split; [exact Hfail|].
  pose proof (failed_write_keeps_session "E1" Demo.answers Demo.seated_write_down Hfail)
    as (Hs & _ & Hr & _).
  split; [exact Hs | exact Hr].
Defined.

Lemma issued_requests_unique {A} (l1 l2 t : list A) : l1 ++ t = l2 ++ t -> l1 = l2.
Proof. apply app_inv_tail. Qed.

(** C5: when the result query of a submission is served and a result of
    the pair is on file, the submission is redirected to the finished
    page, the tables are unchanged, and neither the exam paper was
    fetched nor a result posted. *)
Theorem submit_rejected_when_result_exists
    (exam_id : string) (form : gmap string string) (w : World)
    (email : string) (l : list (request * net_outcome)) :
  let resp := fst (submit_exam exam_id form w) in
  let w' := snd (submit_exam exam_id form w) in
  log w' = l ++ log w ->
  In (GetResults email exam_id, NetOk) l ->
  result_on_file email exam_id (db w) = true ->
  resp = Redirect "exam_finished" None /\
  db w' = db w /\
  (forall r o, ~ In (PostResult r, o) l) /\
  (forall o, ~ In (GetExam exam_id, o) l /\ ~ In (GetQuestions exam_id, o) l).
Proof.
  cbv zeta. intros Hlog Hin Hfile.
  destruct (submit_exam exam_id form w) as [resp w'] eqn:Hrun.
  cbn [fst snd] in *.
  apply submit_exam_cases in Hrun.
  destruct Hrun as [w' Hd Hl | w' o1 Hd Hl | w' o1 Hd Hs Hl Hon
                   | w' o1 o2 l0 Hd Hs Hreads Hl Hfresh
                   | w' o1 o2 l0 app qs data Hqs Hd Hreads Hl Hfresh
                   | w' o' o1 o2 l0 app qs data Hqs Ho' Hd Hs Hf Hreads Hl Hfresh].
  - exfalso. rewrite Hl in Hlog.
    apply (issued_requests_unique [] l) in Hlog. subst l. destruct Hin.
  - exfalso. rewrite Hl in Hlog.
    apply (issued_requests_unique [_] l) in Hlog. subst l.
    destruct Hin as [Hin|[]]. discriminate Hin.
  - rewrite Hl in Hlog.
    apply (issued_requests_unique [_; _] l) in Hlog. subst l.
    split; [reflexivity|]. split; [exact Hd|].
    split.
    + intros r o [H|[H|[]]]; discriminate H.
    + intros o. split; intros [H|[H|[]]]; discriminate H.
  - exfalso. rewrite Hl in Hlog.
    change (l0 ++ ?a :: ?b :: log w) with (l0 ++ [a; b] ++ log w) in Hlog.
    rewrite app_assoc in Hlog. apply issued_requests_unique in Hlog. subst l.
    apply in_app_or in Hin. destruct Hin as [Hin|[Hin|[Hin|[]]]].
    + destruct (Hreads _ _ Hin); discriminate.
    + injection Hin as He Ho2. rewrite <- He, (Hfresh Ho2) in Hfile.
      discriminate Hfile.
    + discriminate Hin.
  - exfalso. rewrite Hl in Hlog.
    change (?p :: l0 ++ ?a :: ?b :: log w) with ((p :: l0) ++ [a; b] ++ log w) in Hlog.
    rewrite app_assoc in Hlog. apply issued_requests_unique in Hlog. subst l.
    apply in_app_or in Hin. destruct Hin as [[Hin|Hin]|[Hin|[Hin|[]]]].
    + discriminate Hin.
    + destruct (Hreads _ _ Hin); discriminate.
    + injection Hin as He Ho2. rewrite <- He, (Hfresh Ho2) in Hfile.
      discriminate Hfile.
    + discriminate Hin.
  - exfalso. rewrite Hl in Hlog.
    change (?p :: l0 ++ ?a :: ?b :: log w) with ((p :: l0) ++ [a; b] ++ log w) in Hlog.
    rewrite app_assoc in Hlog. apply issued_requests_unique in Hlog. subst l.
    apply in_app_or in Hin. destruct Hin as [[Hin|Hin]|[Hin|[Hin|[]]]].
    + discriminate Hin.
    + destruct (Hreads _ _ Hin); discriminate.
    + injection Hin as He Ho2. rewrite <- He, (Hfresh Ho2) in Hfile.
      discriminate Hfile.
    + discriminate Hin.
Qed.

Lemma submit_rejected_when_result_exists_witness :
  log (snd (submit_exam "E1" Demo.answers Demo.seated_submitted))
  = [ (GetResults "ann@example.org" "E1", NetOk);
      (GetBlockedTerminations "ann@example.org" "E1", NetOk) ]
    ++ log Demo.seated_submitted /\
  result_on_file "ann@example.org" "E1" (db Demo.seated_submitted) = true /\
  fst (submit_exam "E1" Demo.answers Demo.seated_submitted)
  = Redirect "exam_finished" None /\
  db (snd (submit_exam "E1" Demo.answers Demo.seated_submitted))
  = db Demo.seated_submitted.
Proof.
  assert (Hlog : log (snd (submit_exam "E1" Demo.answers Demo.seated_submitted))
                 = [ (GetResults "ann@example.org" "E1", NetOk);
                     (GetBlockedTerminations "ann@example.org" "E1", NetOk) ]
                   ++ log Demo.seated_submitted) by (vm_compute; reflexivity).
  assert (Hfile : result_on_file "ann@example.org" "E1" (db Demo.seated_submitted)
                  = true) by reflexivity.
  split; [exact Hlog|]. split; [exact Hfile|].
  pose proof (submit_rejected_when_result_exists "E1" Demo.answers
                Demo.seated_submitted "ann@example.org" _ Hlog
                (or_introl eq_refl) Hfile) as (Hr & Hd & _).
  split; [exact Hr | exact Hd].
Defined.

(** ** Scoring *)

Lemma raw_score_insert form (d : gmap string string) q_id correct_ans :
  d !! q_id = None ->
  raw_score form (<[q_id := correct_ans]> d)
  = raw_score form d + (if answer_matches form q_id correct_ans then 1 else 0).
Proof.
  intros Hfresh. unfold raw_score.
  rewrite map_fold_insert_L; [| |exact Hfresh].
  - destruct (answer_matches form q_id correct_ans); lia.
  - intros j1 j2 z1 z2 y _ _ _.
    destruct (answer_matches form j1 z1), (answer_matches form j2 z2); lia.
Qed.

Lemma raw_score_foldl form (qs : list Question) (d : gmap string string) :
  List.NoDup (map q_objectId qs) ->
  (forall q, In q qs -> d !! q_objectId q = None) ->
  raw_score form (foldl (fun d q => <[q_objectId q := correctAnswer q]> d) d qs)
  = raw_score form d + matching_answers form qs.
Proof.
  unfold matching_answers.
  revert d. induction qs as [|q qs IH]; intros d Hnodup Hfresh.
  - cbn. lia.
  - cbn [map] in Hnodup. apply List.NoDup_cons_iff in Hnodup.
    destruct Hnodup as (Hnotin & Hnodup).
    cbn [foldl]. rewrite IH; [|exact Hnodup|].
    + rewrite raw_score_insert by (apply Hfresh; left; reflexivity).
      cbn [List.filter].
      destruct (answer_matches form (q_objectId q) (correctAnswer q));
        cbn [length]; lia.
    + intros q' Hin. rewrite lookup_insert_ne.
      * apply Hfresh. right. exact Hin.
      * intros Heq. apply Hnotin. rewrite Heq. apply in_map. exact Hin.
Qed.

(** With pairwise distinct question ids, the raw score is the number of
    questions answered correctly. *)
Lemma raw_score_counts form (qs : list Question) :
  List.NoDup (map q_objectId qs) ->
  raw_score form (correct_answers qs) = matching_answers form qs.
Proof.
  intros Hnodup. unfold correct_answers.
  rewrite raw_score_foldl; [|exact Hnodup|intros; apply lookup_empty].
  unfold raw_score. rewrite map_fold_empty. lia.
Qed.

(** C4 as stated fails for an exam without questions: the submission is
    turned away as missing exam data and no result row, hence no 0.0, is
    stored. *)
Lemma empty_exam_stores_nothing_counterexample :
  questions_of "E1" (db Demo.seated_empty_exam) = [] /\
  fst (submit_exam "E1" Demo.answers Demo.seated_empty_exam)
  = Redirect "exam_finished" None /\
  ExamResults (db (snd (submit_exam "E1" Demo.answers Demo.seated_empty_exam))) = [] /\
  flashes (snd (submit_exam "E1" Demo.answers Demo.seated_empty_exam))
  = [("error", "Critical Error: Exam data is missing. Submission failed.")].
Proof. repeat split; vm_compute; reflexivity. Qed.

(** C4 (amended): a stored result of an exam with N >= 1 distinct
    questions, K of them answered correctly, has score round(K/N*100, 2)
    and totalQuestions N; an exam without questions stores nothing. *)
Theorem stored_percentage
    (exam_id : string) (form : gmap string string) (w : World) :
  let w' := snd (submit_exam exam_id form w) in
  let qs := questions_of exam_id (db w) in
  let N := Z.of_nat (length qs) in
  let K := matching_answers form qs in
  List.NoDup (map q_objectId qs) ->
  (forall r l, log w' = (PostResult r, NetOk) :: l ++ log w ->
     1 <= N /\
     totalQuestions r = N /\
     score r = Py.round2 (PrimFloat.mul (Py.truediv K N) (Py.float_of_Z 100)) /\
     ExamResults (db w') = ExamResults (db w) ++ [r]) /\
  (N = 0 ->
     ExamResults (db w') = ExamResults (db w) /\
     forall r o l, log w' <> (PostResult r, o) :: l ++ log w).
Proof.
  cbv zeta. intros Hnodup.
  destruct (submit_exam exam_id form w) as [resp w'] eqn:Hrun.
  cbn [fst snd] in *.
  apply submit_exam_cases in Hrun.
  assert (Hno_post : forall l0 a b r o l,
            reads_paper exam_id l0 ->
            (forall r', fst a <> PostResult r') ->
            l0 ++ a :: b :: log w <> (PostResult r, o) :: l ++ log w).
  { intros l0 a b r o l Hreads Ha.
    apply reads_paper_head with (exam_id := exam_id); [exact Hreads| |discriminate].
    intros rq' o' t Heq r'. injection Heq as -> _. exact (Ha r'). }
  destruct Hrun as [w' Hd Hl | w' o1 Hd Hl | w' o1 Hd Hs Hl Hon
                   | w' o1 o2 l0 Hd Hs Hreads Hl Hfresh
                   | w' o1 o2 l0 app qs data Hqs Hd Hreads Hl Hfresh
                   | w' o' o1 o2 l0 app qs data Hqs Ho' Hd Hs Hf Hreads Hl Hfresh].
  - rewrite Hd, Hl. split.
    + intros r l Hlog. exfalso. exact (log_cannot_grow_into_itself _ _ _ Hlog).
    + intros _. split; [reflexivity|]. intros r o l.
      apply log_cannot_grow_into_itself.
  - rewrite Hd, Hl. split.
    + intros r l Hlog. injection Hlog as Hhead _. discriminate Hhead.
    + intros _. split; [reflexivity|]. intros r o l Hlog.
      injection Hlog as Hhead _. discriminate Hhead.
  - rewrite Hd, Hl. split.
    + intros r l Hlog. injection Hlog as Hhead _. discriminate Hhead.
    + intros _. split; [reflexivity|]. intros r o l Hlog.
      injection Hlog as Hhead _. discriminate Hhead.
  - rewrite Hd, Hl. split.
    + intros r l Hlog. exfalso. revert Hlog.
      apply Hno_post; [exact Hreads|]. intros r'. discriminate.
    + intros _. split; [reflexivity|]. intros r o l.
      apply Hno_post; [exact Hreads|]. intros r'. discriminate.
  - assert (Hlen : 1 <= Z.of_nat (length qs)).
    { destruct qs; [congruence | cbn [length]; lia]. }
    split.
    + intros r l Hlog. rewrite Hl in Hlog. injection Hlog as <- _.
      rewrite Hd. subst data. unfold result_row.
      cbn [totalQuestions score ExamResults with_ExamResults].
      split; [exact Hlen|]. split; [reflexivity|]. split; [|reflexivity].
      fold qs. rewrite (raw_score_counts form qs Hnodup).
      unfold percentage_score.
      destruct (Z.ltb_spec 0 (Z.of_nat (length qs))); [reflexivity | lia].
    + fold qs. intros Hzero. lia.
  - assert (Hlen : 1 <= Z.of_nat (length qs)).
    { destruct qs; [congruence | cbn [length]; lia]. }
    split.
    + intros r l Hlog. rewrite Hl in Hlog. injection Hlog as _ Hout _. congruence.
    + fold qs. intros Hzero. lia.
Qed.

Lemma stored_percentage_witness :
  List.NoDup (map q_objectId (questions_of "E1" (db (Demo.seated 0 0 0)))) /\
  matching_answers Demo.answers (questions_of "E1" (db (Demo.seated 0 0 0))) = 2 /\
  map score (ExamResults (db (snd (submit_exam "E1" Demo.answers (Demo.seated 0 0 0)))))
  = [Py.round2 (PrimFloat.mul (Py.truediv 2 3) (Py.float_of_Z 100))].
Proof.
  assert (Hnodup : List.NoDup
                     (map q_objectId (questions_of "E1" (db (Demo.seated 0 0 0))))).
  { vm_compute. repeat constructor; cbn; intuition discriminate. }
  split; [exact Hnodup|]. split; [reflexivity|].
  pose proof (stored_percentage "E1" Demo.answers (Demo.seated 0 0 0) Hnodup)
    as (Hstored & _).
  destruct (Hstored
              {| r_applicantEmail := Some "ann@example.org"; r_examId := "E1";
                 r_applicationId := Some "APP-7";
                 score := Py.round2 (PrimFloat.mul (Py.truediv 2 3) (Py.float_of_Z 100));
                 totalQuestions := 3; submissionTime := 100 |}
              [ (GetQuestions "E1", NetOk); (GetExam "E1", NetOk);
                (GetResults "ann@example.org" "E1", NetOk);
                (GetBlockedTerminations "ann@example.org" "E1", NetOk) ])
    as (_ & _ & _ & Hrows).
  { vm_compute. reflexivity. }
  rewrite Hrows. reflexivity.
Defined.

(** ** The exam window *)

Lemma is_exam_open_world isoparse paper w :
  snd (is_exam_open isoparse paper w) = w.
Proof. reflexivity. Qed.

(** A timestamp that is missing or does not parse leaves the exam open. *)
Lemma window_fail_open isoparse paper w :
  unparsable isoparse (p_startDateTime paper) \/
  unparsable isoparse (p_endDateTime paper) ->
  fst (is_exam_open isoparse paper w) = true.
Proof.
  unfold is_exam_open, unparsable. cbn [bind now ret fst].
  destruct (p_startDateTime paper) as [s|]; [|reflexivity].
  destruct (isoparse s) as [start_time|] eqn:Hs; [|reflexivity].
  destruct (p_endDateTime paper) as [e|]; [|reflexivity].
  destruct (isoparse e) as [end_time|] eqn:He; [|reflexivity].
  intros [H|H]; congruence.
Qed.

(** The exam is closed only when both timestamps parse and the clock is
    outside the window. *)
Lemma window_closed_only isoparse paper w :
  fst (is_exam_open isoparse paper w) = false ->
  exists start_text end_text start_time end_time,
    p_startDateTime paper = Some start_text /\ isoparse start_text = Some start_time /\
    p_endDateTime paper = Some end_text /\ isoparse end_text = Some end_time /\
    ~ (instant start_time <= clock w <= instant end_time).
Proof.
  unfold is_exam_open. cbn [bind now ret fst].
  destruct (p_startDateTime paper) as [s|]; [|discriminate].
  destruct (isoparse s) as [start_time|] eqn:Hs; [|discriminate].
  destruct (p_endDateTime paper) as [e|]; [|discriminate].
  destruct (isoparse e) as [end_time|] eqn:He; [|discriminate].
  unfold dt_le. cbn [instant aware].
  intros H. exists s, e, start_time, end_time. repeat split; auto.
  destruct (Bool.eqb (aware start_time) true); [|discriminate].
  destruct (Z.leb_spec (instant start_time) (clock w)); [|lia].
  destruct (Bool.eqb true (aware end_time)); [|discriminate].
  destruct (Z.leb_spec (clock w) (instant end_time)); [discriminate|lia].
Qed.

(** The last step of the three gated pages: the window check, and the
    page or the closed redirect. *)
Lemma window_step isoparse exam_paper view w3 resp w' :
  (open <- is_exam_open isoparse exam_paper ;;
   if negb open then
     flash closed_message "error" ;; ret (Redirect "exam_finished" None)
   else ret (Render view)) w3 = (resp, w') ->
  (fst (is_exam_open isoparse exam_paper w3) = true /\ resp = Render view /\ w' = w3)
  \/
  (fst (is_exam_open isoparse exam_paper w3) = false /\
   resp = Redirect "exam_finished" None /\
   flashes w' = flashes w3 ++ [("error", closed_message)]).
Proof.
  unfold bind at 1.
  destruct (is_exam_open isoparse exam_paper w3) as [open w4] eqn:Hopen.
  assert (Hw : w4 = w3) by (rewrite <- (is_exam_open_world isoparse exam_paper w3);
                            rewrite Hopen; reflexivity).
  subst w4. cbn [fst].
  destruct open; cbn [negb]; intros H.
  - left. cbn in H. injection H as <- <-. auto.
  - right. cbn in H. injection H as <- <-. auto.
Qed.

(** The closed redirect of a page whose paper was fetched at [w0] comes
    from an exam row whose window excludes the clock. *)
Lemma closed_step_outside isoparse exam_id exam_paper w w0 w3 :
  db w0 = db w -> clock w3 = clock w ->
  (exists e, exam_row exam_id (db w0) = Some e /\
             p_startDateTime exam_paper = startDateTime e /\
             p_endDateTime exam_paper = endDateTime e /\
             applicationId exam_paper = e_applicationId e) ->
  fst (is_exam_open isoparse exam_paper w3) = false ->
  exists e, exam_row exam_id (db w) = Some e /\ outside_window isoparse e (clock w).
Proof.
  intros Hd Hc (e & Hrow & Hstart & Hend & _) Hclosed.
  apply window_closed_only in Hclosed.
  destruct Hclosed as (s & t & start_time & end_time & Hs & Hps & He & Hpe & Hout).
  exists e. split; [congruence|].
  exists s, t, start_time, end_time. rewrite <- Hc. repeat split; congruence.
Qed.

Lemma pre_exam_check_closed isoparse exam_id w :
  refused_as_closed w (fst (pre_exam_check isoparse exam_id w))
                      (snd (pre_exam_check isoparse exam_id w)) ->
  exists e, exam_row exam_id (db w) = Some e /\ outside_window isoparse e (clock w).
Proof.
  destruct (pre_exam_check isoparse exam_id w) as [resp w'] eqn:Hrun.
  cbn [fst snd]. intros Hclosed.
  unfold pre_exam_check in Hrun. apply student_exam_required_run in Hrun.
  destruct Hrun as [(-> & _) | [(-> & _ & Hfl & _) | Hpass]].
  { destruct Hclosed as (H & _). discriminate H. }
  { destruct Hclosed as (_ & H). rewrite Hfl in H.
    exfalso. revert H. apply app_cons_not_nil. }
  destruct Hpass as (w1 & Hrun & _ & _ & Hs1 & Hf1 & Hd1 & Hc1 & _).
  unfold bind at 1 in Hrun. unfold get_session at 1 in Hrun. cbv beta iota in Hrun.
  unfold bind at 1 in Hrun.
  destruct (check_if_result_exists _ exam_id w1) as [submitted w2] eqn:Hcheck.
  apply check_if_result_exists_run in Hcheck.
  destruct Hcheck as (Hs2 & Hf2 & Hd2 & Hc2 & _).
  destruct submitted; [not_closed Hrun Hclosed|].
  unfold bind at 1 in Hrun.
  destruct (get_exam_paper_by_exam_id exam_id w2) as [paper w3] eqn:Hpaper.
  apply get_exam_paper_by_exam_id_run in Hpaper.
  destruct Hpaper as (Hs3 & Hf3 & Hd3 & Hc3 & _ & Hq & _).
  destruct paper as [exam_paper|]; [|not_closed Hrun Hclosed].
  destruct (Hq exam_paper eq_refl) as (_ & Hrow).
  apply window_step in Hrun.
  destruct Hrun as [(_ & -> & _) | (Hopen & _ & _)].
  { destruct Hclosed as (H & _). discriminate H. }
  apply (closed_step_outside isoparse exam_id exam_paper w w2 w3);
    [congruence | congruence | exact Hrow | exact Hopen].
Qed.

Lemma exam_instructions_closed isoparse exam_id w :
  refused_as_closed w (fst (exam_instructions isoparse exam_id w))
                      (snd (exam_instructions isoparse exam_id w)) ->
  exists e, exam_row exam_id (db w) = Some e /\ outside_window isoparse e (clock w).
Proof.
  destruct (exam_instructions isoparse exam_id w) as [resp w'] eqn:Hrun.
  cbn [fst snd]. intros Hclosed.
  unfold exam_instructions in Hrun. apply student_exam_required_run in Hrun.
  destruct Hrun as [(-> & _) | [(-> & _ & Hfl & _) | Hpass]].
  { destruct Hclosed as (H & _). discriminate H. }
  { destruct Hclosed as (_ & H). rewrite Hfl in H.
    exfalso. revert H. apply app_cons_not_nil. }
  destruct Hpass as (w1 & Hrun & _ & _ & Hs1 & Hf1 & Hd1 & Hc1 & _).
  unfold bind at 1 in Hrun. unfold get_session at 1 in Hrun. cbv beta iota in Hrun.
  unfold bind at 1 in Hrun.
  destruct (get_exam_paper_by_exam_id exam_id w1) as [paper w2] eqn:Hpaper.
  apply get_exam_paper_by_exam_id_run in Hpaper.
  destruct Hpaper as (Hs2 & Hf2 & Hd2 & Hc2 & _ & Hq & _).
  destruct paper as [exam_paper|]; [|not_closed Hrun Hclosed].
  destruct (Hq exam_paper eq_refl) as (_ & Hrow).
  unfold bind at 1 in Hrun.
  destruct (check_if_result_exists _ exam_id w2) as [submitted w3] eqn:Hcheck.
  apply check_if_result_exists_run in Hcheck.
  destruct Hcheck as (Hs3 & Hf3 & Hd3 & Hc3 & _).
  destruct submitted; [not_closed Hrun Hclosed|].
  apply window_step in Hrun.
  destruct Hrun as [(_ & -> & _) | (Hopen & _ & _)].
  { destruct Hclosed as (H & _). discriminate H. }
  apply (closed_step_outside isoparse exam_id exam_paper w w1 w3);
    [congruence | congruence | exact Hrow | exact Hopen].
Qed.

Lemma start_exam_closed isoparse exam_id w :
  refused_as_closed w (fst (start_exam isoparse exam_id w))
                      (snd (start_exam isoparse exam_id w)) ->
  exists e, exam_row exam_id (db w) = Some e /\ outside_window isoparse e (clock w).
Proof.
  destruct (start_exam isoparse exam_id w) as [resp w'] eqn:Hrun.
  cbn [fst snd]. intros Hclosed.
  unfold start_exam in Hrun. apply student_exam_required_run in Hrun.
  destruct Hrun as [(-> & _) | [(-> & _ & Hfl & _) | Hpass]].
  { destruct Hclosed as (H & _). discriminate H. }
  { destruct Hclosed as (_ & H). rewrite Hfl in H.
    exfalso. revert H. apply app_cons_not_nil. }
  destruct Hpass as (w1 & Hrun & _ & _ & Hs1 & Hf1 & Hd1 & Hc1 & _).
  unfold bind at 1 in Hrun. unfold get_session at 1 in Hrun. cbv beta iota in Hrun.
  unfold bind at 1 in Hrun.
  destruct (check_if_result_exists _ exam_id w1) as [submitted w2] eqn:Hcheck.
  apply check_if_result_exists_run in Hcheck.
  destruct Hcheck as (Hs2 & Hf2 & Hd2 & Hc2 & _).
  destruct submitted; [not_closed Hrun Hclosed|].
  unfold bind at 1 in Hrun.
  destruct (get_exam_paper_by_exam_id exam_id w2) as [paper w3] eqn:Hpaper.
  apply get_exam_paper_by_exam_id_run in Hpaper.
  destruct Hpaper as (Hs3 & Hf3 & Hd3 & Hc3 & _ & Hq & _).
  destruct paper as [exam_paper|]; [|not_closed Hrun Hclosed].
  destruct (Hq exam_paper eq_refl) as (_ & Hrow).
  destruct (questions exam_paper) as [|q qs]; [not_closed Hrun Hclosed|].
  apply window_step in Hrun.
  destruct Hrun as [(_ & -> & _) | (Hopen & _ & _)].
  { destruct Hclosed as (H & _). discriminate H. }
  apply (closed_step_outside isoparse exam_id exam_paper w w2 w3);
    [congruence | congruence | exact Hrow | exact Hopen].
Qed.

(** With every request served, the queries answer from the tables. *)
Lemma served_head (script : list net_outcome) : script = [] -> hd NetOk script = NetOk.
Proof. intros ->. reflexivity. Qed.

Lemma served_tail (script : list net_outcome) : script = [] -> tl script = [].
Proof. intros ->. reflexivity. Qed.

Lemma pre_exam_check_fail_open isoparse exam_id e w :
  admitted exam_id e w ->
  unparsable isoparse (startDateTime e) \/ unparsable isoparse (endDateTime e) ->
  fst (pre_exam_check isoparse exam_id w) = Render "pre_check_view".
Proof.
  intros (Hflag & Hid & Hnet & Hblocked & Hfile & Hrow) Hbad.
  destruct (pre_exam_check isoparse exam_id w) as [resp w'] eqn:Hrun. cbn [fst].
  unfold pre_exam_check in Hrun. apply student_exam_required_run in Hrun.
  destruct Hrun as [(_ & _ & _ & _ & Hno) | [(_ & _ & _ & _ & (_ & Hb) & _) | Hpass]].
  { rewrite Hflag, Hid in Hno. discriminate Hno. }
  { congruence. }
  destruct Hpass as (w1 & Hrun & _ & _ & Hs1 & Hf1 & Hd1 & Hc1 & Hn1 & _).
  rewrite (served_tail _ Hnet) in Hn1.
  unfold bind at 1 in Hrun. unfold get_session at 1 in Hrun. cbv beta iota in Hrun.
  unfold bind at 1 in Hrun.
  destruct (check_if_result_exists _ exam_id w1) as [submitted w2] eqn:Hcheck.
  apply check_if_result_exists_run in Hcheck.
  destruct Hcheck as (Hs2 & Hf2 & Hd2 & Hc2 & Hn2 & _ & Hb2).
  rewrite (served_head _ Hn1), Hs1, Hd1, Hfile in Hb2. subst submitted.
  rewrite (served_tail _ Hn1) in Hn2.
  unfold bind at 1 in Hrun.
  destruct (get_exam_paper_by_exam_id exam_id w2) as [paper w3] eqn:Hpaper.
  apply get_exam_paper_by_exam_id_run in Hpaper.
  destruct Hpaper as (Hs3 & Hf3 & Hd3 & Hc3 & _ & Hq & Hnone).
  rewrite (served_head _ Hn2), (served_head _ (served_tail _ Hn2)), Hd2, Hd1, Hrow
    in Hnone.
  destruct paper as [exam_paper|];
    [|destruct (Hnone eq_refl) as [H|[H|H]]; congruence].
  destruct (Hq exam_paper eq_refl) as (_ & e' & Hrow' & Hstart & Hend & _).
  rewrite Hd2, Hd1, Hrow in Hrow'. injection Hrow' as <-.
  apply window_step in Hrun.
  destruct Hrun as [(_ & -> & _) | (Hopen & _ & _)]; [reflexivity|].
  rewrite window_fail_open in Hopen; [discriminate Hopen|].
  rewrite Hstart, Hend. exact Hbad.
Qed.

Lemma exam_instructions_fail_open isoparse exam_id e w :
  admitted exam_id e w ->
  unparsable isoparse (startDateTime e) \/ unparsable isoparse (endDateTime e) ->
  fst (exam_instructions isoparse exam_id w) = Render "instructions_view".
Proof.
  intros (Hflag & Hid & Hnet & Hblocked & Hfile & Hrow) Hbad.
  destruct (exam_instructions isoparse exam_id w) as [resp w'] eqn:Hrun. cbn [fst].
  unfold exam_instructions in Hrun. apply student_exam_required_run in Hrun.
  destruct Hrun as [(_ & _ & _ & _ & Hno) | [(_ & _ & _ & _ & (_ & Hb) & _) | Hpass]].
  { rewrite Hflag, Hid in Hno. discriminate Hno. }
  { congruence. }
  destruct Hpass as (w1 & Hrun & _ & _ & Hs1 & Hf1 & Hd1 & Hc1 & Hn1 & _).
  rewrite (served_tail _ Hnet) in Hn1.
  unfold bind at 1 in Hrun. unfold get_session at 1 in Hrun. cbv beta iota in Hrun.
  unfold bind at 1 in Hrun.
  destruct (get_exam_paper_by_exam_id exam_id w1) as [paper w2] eqn:Hpaper.
  assert (Hn2 : net w2 = []).
  { unfold get_exam_paper_by_exam_id in Hpaper.
    cbv beta iota zeta delta [bind ret get_db http] in Hpaper.
    cbn [session flashes db net log clock] in Hpaper.
    rewrite Hn1 in Hpaper. cbn [hd tl] in Hpaper. cbv beta iota in Hpaper.
    cbn [session flashes db net log clock] in Hpaper.
    destruct (List.find _ _); cbv beta iota in Hpaper;
      cbn [session flashes db net log clock hd tl] in Hpaper;
      injection Hpaper as _ <-; reflexivity. }
  apply get_exam_paper_by_exam_id_run in Hpaper.
  destruct Hpaper as (Hs2 & Hf2 & Hd2 & Hc2 & _ & Hq & Hnone).
  rewrite (served_head _ Hn1), (served_head _ (served_tail _ Hn1)), Hd1, Hrow
    in Hnone.
  destruct paper as [exam_paper|];
    [|destruct (Hnone eq_refl) as [H|[H|H]]; congruence].
  destruct (Hq exam_paper eq_refl) as (_ & e' & Hrow' & Hstart & Hend & _).
  rewrite Hd1, Hrow in Hrow'. injection Hrow' as <-.
  unfold bind at 1 in Hrun.
  destruct (check_if_result_exists _ exam_id w2) as [submitted w3] eqn:Hcheck.
  apply check_if_result_exists_run in Hcheck.
  destruct Hcheck as (Hs3 & Hf3 & Hd3 & Hc3 & Hn3 & _ & Hb3).
  rewrite (served_head _ Hn2), Hs1, Hd2, Hd1, Hfile in Hb3. subst submitted.
  apply window_step in Hrun.
  destruct Hrun as [(_ & -> & _) | (Hopen & _ & _)]; [reflexivity|].
  rewrite window_fail_open in Hopen; [discriminate Hopen|].
  rewrite Hstart, Hend. exact Hbad.
Qed.

Lemma start_exam_fail_open isoparse exam_id e w :
  admitted exam_id e w ->
  questions_of exam_id (db w) <> [] ->
  unparsable isoparse (startDateTime e) \/ unparsable isoparse (endDateTime e) ->
  fst (start_exam isoparse exam_id w) = Render "exam_view".
Proof.
  intros (Hflag & Hid & Hnet & Hblocked & Hfile & Hrow) Hquestions Hbad.
  destruct (start_exam isoparse exam_id w) as [resp w'] eqn:Hrun. cbn [fst].
  unfold start_exam in Hrun. apply student_exam_required_run in Hrun.
  destruct Hrun as [(_ & _ & _ & _ & Hno) | [(_ & _ & _ & _ & (_ & Hb) & _) | Hpass]].
  { rewrite Hflag, Hid in Hno. discriminate Hno. }
  { congruence. }
  destruct Hpass as (w1 & Hrun & _ & _ & Hs1 & Hf1 & Hd1 & Hc1 & Hn1 & _).
  rewrite (served_tail _ Hnet) in Hn1.
  unfold bind at 1 in Hrun. unfold get_session at 1 in Hrun. cbv beta iota in Hrun.
  unfold bind at 1 in Hrun.
  destruct (check_if_result_exists _ exam_id w1) as [submitted w2] eqn:Hcheck.
  apply check_if_result_exists_run in Hcheck.
  destruct Hcheck as (Hs2 & Hf2 & Hd2 & Hc2 & Hn2 & _ & Hb2).
  rewrite (served_head _ Hn1), Hs1, Hd1, Hfile in Hb2. subst submitted.
  rewrite (served_tail _ Hn1) in Hn2.
  unfold bind at 1 in Hrun.
  destruct (get_exam_paper_by_exam_id exam_id w2) as [paper w3] eqn:Hpaper.
  apply get_exam_paper_by_exam_id_run in Hpaper.
  destruct Hpaper as (Hs3 & Hf3 & Hd3 & Hc3 & _ & Hq & Hnone).
  rewrite (served_head _ Hn2), (served_head _ (served_tail _ Hn2)), Hd2, Hd1, Hrow
    in Hnone.
  destruct paper as [exam_paper|];
    [|destruct (Hnone eq_refl) as [H|[H|H]]; congruence].
  destruct (Hq exam_paper eq_refl) as (Hqs & e' & Hrow' & Hstart & Hend & _).
  rewrite Hd2, Hd1, Hrow in Hrow'. injection Hrow' as <-.
  rewrite (served_head _ (served_tail _ Hn2)), Hd2, Hd1 in Hqs.
  destruct (questions exam_paper) as [|q qs]; [congruence|].
  apply window_step in Hrun.
  destruct Hrun as [(_ & -> & _) | (Hopen & _ & _)]; [reflexivity|].
  rewrite window_fail_open in Hopen; [discriminate Hopen|].
  rewrite Hstart, Hend. exact Hbad.
Qed.

(** C7: on the three gated pages a start or end timestamp that is
    missing or does not parse leaves the exam open, so an admitted
    student gets the page; and a page is refused as closed only when the
    exam row has two timestamps that parse and the clock is outside the
    window. *)
Theorem gated_pages_window
    (isoparse : string -> option datetime) (exam_id : string) (w : World) :
  (forall e,
     admitted exam_id e w ->
     unparsable isoparse (startDateTime e) \/ unparsable isoparse (endDateTime e) ->
     fst (pre_exam_check isoparse exam_id w) = Render "pre_check_view" /\
     fst (exam_instructions isoparse exam_id w) = Render "instructions_view" /\
     (questions_of exam_id (db w) <> [] ->
      fst (start_exam isoparse exam_id w) = Render "exam_view")) /\
  (refused_as_closed w (fst (pre_exam_check isoparse exam_id w))
                       (snd (pre_exam_check isoparse exam_id w)) ->
   exists e, exam_row exam_id (db w) = Some e /\ outside_window isoparse e (clock w)) /\
  (refused_as_closed w (fst (exam_instructions isoparse exam_id w))
                       (snd (exam_instructions isoparse exam_id w)) ->
   exists e, exam_row exam_id (db w) = Some e /\ outside_window isoparse e (clock w)) /\
  (refused_as_closed w (fst (start_exam isoparse exam_id w))
                       (snd (start_exam isoparse exam_id w)) ->
   exists e, exam_row exam_id (db w) = Some e /\ outside_window isoparse e (clock w)).
Proof.
  split; [|split; [|split]].
  - intros e Hadmitted Hbad. split; [|split].
    + exact (pre_exam_check_fail_open isoparse exam_id e w Hadmitted Hbad).
    + exact (exam_instructions_fail_open isoparse exam_id e w Hadmitted Hbad).
    + intros Hquestions.
      exact (start_exam_fail_open isoparse exam_id e w Hadmitted Hquestions Hbad).
  - apply pre_exam_check_closed.
  - apply exam_instructions_closed.
  - apply start_exam_closed.
Qed.

Lemma gated_pages_window_witness :
  admitted "E1" Demo.malformed Demo.seated_malformed /\
  unparsable Demo.parse (startDateTime Demo.malformed) /\
  fst (pre_exam_check Demo.parse "E1" Demo.seated_malformed) = Render "pre_check_view" /\
  fst (exam_instructions Demo.parse "E1" Demo.seated_malformed)
  = Render "instructions_view" /\
  fst (start_exam Demo.parse "E1" Demo.seated_malformed) = Render "exam_view" /\
  refused_as_closed Demo.seated_ended
    (fst (start_exam Demo.parse "E1" Demo.seated_ended))
    (snd (start_exam Demo.parse "E1" Demo.seated_ended)) /\
  exists e, exam_row "E1" (db Demo.seated_ended) = Some e /\
            outside_window Demo.parse e (clock Demo.seated_ended).
Proof.
  assert (Hadmitted : admitted "E1" Demo.malformed Demo.seated_malformed).
  { repeat split. }
  assert (Hbad : unparsable Demo.parse (startDateTime Demo.malformed)).
  { reflexivity. }
  assert (Hclosed : refused_as_closed Demo.seated_ended
                      (fst (start_exam Demo.parse "E1" Demo.seated_ended))
                      (snd (start_exam Demo.parse "E1" Demo.seated_ended))).
  { split; vm_compute; reflexivity. }
  destruct (gated_pages_window Demo.parse "E1" Demo.seated_malformed)
    as (Hopen & _).
  destruct (Hopen Demo.malformed Hadmitted (or_introl Hbad)) as (Hpre & Hins & Hstart).
  destruct (gated_pages_window Demo.parse "E1" Demo.seated_ended)
    as (_ & _ & _ & Hout).
  split; [exact Hadmitted|]. split; [exact Hbad|].
  split; [exact Hpre|]. split; [exact Hins|].
  split; [apply Hstart; vm_compute; discriminate|].
  split; [exact Hclosed|]. exact (Hout Hclosed).
Defined.

(** ** Scenarios *)

(** Found faces between misses do not restart the count: the fifth frame
    without a face ends the exam for five misses, with one warning on the
    books. *)
Lemma interrupted_misses_add_up :
  tick_terminates
    (fst ((Demo.login ;; Demo.tick "none" ;; Demo.tick "one" ;;
           Demo.tick "none" ;; Demo.tick "one" ;;
           Demo.tick "none" ;; Demo.tick "one" ;;
           Demo.tick "none" ;; Demo.tick "one" ;;
           Demo.tick "none") Demo.fresh)) = true /\
  map terminationReason
    (ExamTerminations
       (db (snd ((Demo.login ;; Demo.tick "none" ;; Demo.tick "one" ;;
                  Demo.tick "none" ;; Demo.tick "one" ;;
                  Demo.tick "none" ;; Demo.tick "one" ;;
                  Demo.tick "none" ;; Demo.tick "one" ;;
                  Demo.tick "none") Demo.fresh))))
  = [Some "NO_FACE_DETECTED_FOR_5_CHECKS"] /\
  no_face_warning_count
    (session (snd ((Demo.login ;; Demo.tick "none" ;; Demo.tick "one" ;;
                    Demo.tick "none" ;; Demo.tick "one" ;;
                    Demo.tick "none" ;; Demo.tick "one" ;;
                    Demo.tick "none" ;; Demo.tick "one" ;;
                    Demo.tick "none") Demo.fresh)))
  = Some 1.
Proof. repeat split; vm_compute; reflexivity. Qed.

(** Seven right answers out of ten give 70.0; one out of three 33.33. *)
Lemma percentage_score_examples :
  percentage_score 7 10 = 70%float /\
  percentage_score 1 3 = Py.round2 (PrimFloat.div 100 3) /\
  percentage_score 0 0 = 0%float.
Proof. repeat split; vm_compute; reflexivity. Qed.

(** [float()] on integers: rounding beyond 2^53, and the first integer
    it refuses. *)
Lemma float_conversion_examples :
  Py.float_of_Z (2 ^ 63) = 0x1p63%float /\
  Py.float_of_Z (2 ^ 53 + 1) = 0x1p53%float /\
  Py.float_of_Z (- 3) = (-3)%float /\
  Py.float_overflows (2 ^ 63) = false /\
  Py.float_overflows (2 ^ 1024 - 2 ^ 970 - 1) = false /\
  Py.float_overflows (2 ^ 1024 - 2 ^ 970) = true /\
  Py.float_overflows (10 ^ 400) = true /\
  Py.float_overflows (- 10 ^ 400) = true.
Proof. repeat split; vm_compute; reflexivity. Qed.

(** * Further properties of the handlers *)

(** ** Face-check requests *)

Lemma terminate_exam_run email exam_id violation_type current_score w b w1 :
  Py.float_overflows current_score = false ->
  terminate_exam email exam_id violation_type current_score w = (b, w1) ->
  let data := termination_row email exam_id violation_type current_score w in
  session w1 = session w /\ flashes w1 = flashes w /\ clock w1 = clock w /\
  net w1 = tl (net w) /\
  log w1 = (PostTermination data, hd NetOk (net w)) :: log w /\
  (hd NetOk (net w) = NetOk /\ b = Returned true /\
   db w1 = with_ExamTerminations (ExamTerminations (db w) ++ [data]) (db w)
   \/ hd NetOk (net w) <> NetOk /\ b = Returned false /\ db w1 = db w).
Proof.
  intros Hconv. unfold terminate_exam, termination_row. rewrite Hconv. run_monad.
  destruct (hd NetOk (net w)); intros H; injection H as <- <-; cbn;
    repeat split; auto; right; repeat split; discriminate.
Qed.

Lemma terminate_exam_raises email exam_id violation_type current_score w :
  Py.float_overflows current_score = true ->
  terminate_exam email exam_id violation_type current_score w
  = (Raised OverflowError, w).
Proof. intros Hover. unfold terminate_exam. rewrite Hover. reflexivity. Qed.

(** X1: with the detector available, a pre-check probe changes nothing,
    whatever the image shows: session, tables and request log are as
    before, the reply never asks to terminate, and for a logged-in client
    it reports the counters of the session as they stand. *)
Theorem pre_check_probe_changes_nothing
    (extract_faces : string -> option (list float)) (data : face_request) (w : World) :
  default false (is_pre_check data) = true ->
  snd (api_check_face true extract_faces data w) = w /\
  tick_terminates (fst (api_check_face true extract_faces data w)) = false /\
  (logged_in w -> image_payload data <> "" ->
   fst (api_check_face true extract_faces data w)
   = JsonFace 200 {| success := true;
                     face_detected := faces_seen extract_faces data =? 1;
                     message := "Face Detected";
                     terminate := false;
                     reply_no_face_count := get_no_face_count (session w);
                     reply_multiple_face_count := get_multiple_face_count (session w);
                     reply_no_face_warning_count :=
                       get_no_face_warning_count (session w) |}).
Proof.
  intros Hpre.
  assert (Hidle : ~ in_exam_tick data w).
  { intros (_ & H & _). congruence. }
  split; [exact (api_check_face_idle extract_faces data w Hidle)|].
  destruct (api_check_face true extract_faces data w) as [resp w'] eqn:Hrun.
  cbn [fst]. unfold api_check_face, bind at 1, get_session at 1 in Hrun.
  fold (image_payload data) in Hrun. unfold logged_in.
  destruct (Py.flag (student_logged_in (session w))); cbn [negb] in Hrun.
  2: { injection Hrun as <- _. split; [reflexivity | intros H; discriminate H]. }
  destruct (Py.str_truthy (image_payload data)) eqn:Himg; cbn [negb] in Hrun.
  2: { injection Hrun as <- _. split; [reflexivity|]. intros _ Hne.
       apply str_truthy_nonempty in Hne. congruence. }
  rewrite Hpre, analyse_faces_seen in Hrun. cbn in Hrun.
  injection Hrun as <- _. split; reflexivity.
Qed.

Lemma pre_check_probe_changes_nothing_witness :
  snd (api_check_face true Demo.sensor
         {| image_data := Some "data:image/jpeg;base64,none";
            is_pre_check := Some true; current_score := None |}
         (Demo.seated 4 1 4))
  = Demo.seated 4 1 4.
Proof.
  exact (proj1 (pre_check_probe_changes_nothing Demo.sensor
                  {| image_data := Some "data:image/jpeg;base64,none";
                     is_pre_check := Some true; current_score := None |}
                  (Demo.seated 4 1 4) eq_refl)).
Defined.

(** What an in-exam tick leaves in the three counters. *)
Lemma in_exam_tick_counters extract_faces data w :
  in_exam_tick data w ->
  let l := tick_outcome (faces_seen extract_faces data) (get_no_face_count (session w))
             (get_multiple_face_count (session w))
             (get_no_face_warning_count (session w)) in
  let w' := snd (api_check_face true extract_faces data w) in
  no_face_count (session w') = Some (l_no_face_count l) /\
  multiple_face_count (session w') = Some (l_multiple_face_count l) /\
  no_face_warning_count (session w') = Some (l_no_face_warning_count l) /\
  (l_should_terminate l = true -> score_converts data ->
   student_logged_in (session w') = None) /\
  (l_should_terminate l = false \/ ~ score_converts data ->
   student_logged_in (session w') = student_logged_in (session w) /\
   log w' = log w /\ db w' = db w /\ net w' = net w).
Proof.
  intros Htick. cbv zeta.
  rewrite (api_check_face_in_exam extract_faces data w Htick). cbv zeta.
  set (l := tick_outcome _ _ _ _).
  pose proof (termination_action_effect (student_email (session w))
                (session_exam_id (session w)) l data
                (with_session (written_back l (session w)) w))
    as (Hn & Hm & Hc & Hcases).
  cbn [snd]. destruct (l_should_terminate l).
  - split; [rewrite Hn; reflexivity|]. split; [rewrite Hm; reflexivity|].
    split; [rewrite Hc; reflexivity|].
    destruct Hcases as [(Hyes & _ & Hout & _) | (Hno & _ & Hsame)].
    + split; [intros _ _; exact Hout|].
      intros [H|H]; [discriminate H | contradiction].
    + split; [intros _ H; contradiction|].
      intros _. rewrite Hsame. repeat split.
  - do 3 (split; [reflexivity|]).
    split; [intros H; discriminate H | intros _; repeat split].
Qed.

(** X2: with the detector available, a face-check request never lowers
    a counter, whatever the frame shows and whoever sends it, and moves
    at most one of the two consecutive counters, by one. *)
Theorem tick_never_lowers_counters
    (extract_faces : string -> option (list float)) (data : face_request) (w : World) :
  let w' := snd (api_check_face true extract_faces data w) in
  get_no_face_count (session w) <= get_no_face_count (session w') /\
  get_multiple_face_count (session w) <= get_multiple_face_count (session w') /\
  get_no_face_warning_count (session w) <= get_no_face_warning_count (session w') /\
  (get_no_face_count (session w') - get_no_face_count (session w))
  + (get_multiple_face_count (session w') - get_multiple_face_count (session w)) <= 1.
Proof.
  cbv zeta. destruct (in_exam_tick_dec data w) as [Htick|Hidle].
  2: { rewrite (api_check_face_idle extract_faces data w Hidle).
       generalize (get_no_face_count (session w)),
         (get_multiple_face_count (session w)),
         (get_no_face_warning_count (session w)).
       intros; lia. }
  destruct (in_exam_tick_counters extract_faces data w Htick)
    as (Hn & Hm & Hc & _).
  set (w' := snd (api_check_face true extract_faces data w)) in *.
  assert (Hn' : get_no_face_count (session w')
                = l_no_face_count
                    (tick_outcome (faces_seen extract_faces data)
                       (get_no_face_count (session w))
                       (get_multiple_face_count (session w))
                       (get_no_face_warning_count (session w))))
    by (unfold get_no_face_count at 1; rewrite Hn; reflexivity).
  assert (Hm' : get_multiple_face_count (session w')
                = l_multiple_face_count
                    (tick_outcome (faces_seen extract_faces data)
                       (get_no_face_count (session w))
                       (get_multiple_face_count (session w))
                       (get_no_face_warning_count (session w))))
    by (unfold get_multiple_face_count at 1; rewrite Hm; reflexivity).
  assert (Hc' : get_no_face_warning_count (session w')
                = l_no_face_warning_count
                    (tick_outcome (faces_seen extract_faces data)
                       (get_no_face_count (session w))
                       (get_multiple_face_count (session w))
                       (get_no_face_warning_count (session w))))
    by (unfold get_no_face_warning_count at 1; rewrite Hc; reflexivity).
  rewrite Hn', Hm', Hc'. clear Hn Hm Hc Hn' Hm' Hc'.
  pose proof (faces_seen_nonneg extract_faces data) as Hf.
  revert Hf.
  generalize (faces_seen extract_faces data), (get_no_face_count (session w)),
    (get_multiple_face_count (session w)),
    (get_no_face_warning_count (session w)).
  clear. intros faces n m c Hf. unfold tick_outcome.
  destruct (Z.eqb_spec faces 1); [cbn; lia|].
  destruct (Z.ltb_spec 1 faces); [cbn; lia|].
  destruct (Z.leb_spec 5 (n + 1)); [cbn; lia|].
  destruct (Z.eqb_spec (n + 1) 1); cbn; lia.
Qed.

Lemma in_exam_tick_gets extract_faces data w :
  in_exam_tick data w ->
  let l := tick_outcome (faces_seen extract_faces data) (get_no_face_count (session w))
             (get_multiple_face_count (session w))
             (get_no_face_warning_count (session w)) in
  let w' := snd (api_check_face true extract_faces data w) in
  get_no_face_count (session w') = l_no_face_count l /\
  get_multiple_face_count (session w') = l_multiple_face_count l /\
  get_no_face_warning_count (session w') = l_no_face_warning_count l.
Proof.
  intros Htick. cbv zeta.
  destruct (in_exam_tick_counters extract_faces data w Htick) as (Hn & Hm & Hc & _).
  set (w' := snd (api_check_face true extract_faces data w)) in *.
  split; [|split].
  - unfold get_no_face_count at 1. rewrite Hn. reflexivity.
  - unfold get_multiple_face_count at 1. rewrite Hm. reflexivity.
  - unfold get_no_face_warning_count at 1. rewrite Hc. reflexivity.
Qed.

Lemma termination_action_run email exam_id l data w1 :
  score_converts data ->
  let w2 := snd (termination_action email exam_id l data w1) in
  let row := termination_row email exam_id (l_violation_type l)
               (default 0 (current_score data)) w1 in
  fst (termination_action email exam_id l data w1) = Returned tt /\
  log w2 = (PostTermination row, hd NetOk (net w1)) :: log w1 /\
  net w2 = tl (net w1) /\
  (hd NetOk (net w1) = NetOk ->
   ExamTerminations (db w2) = ExamTerminations (db w1) ++ [row]) /\
  (hd NetOk (net w1) <> NetOk -> db w2 = db w1).
Proof.
  intros Hconv. cbv zeta. unfold termination_action, bind.
  destruct (terminate_exam _ _ _ _ _) as [b w2] eqn:Hterm.
  apply (terminate_exam_run _ _ _ _ _ _ _ Hconv) in Hterm. cbv zeta in Hterm.
  destruct Hterm as (_ & _ & _ & Hnet & Hlog & Hdb).
  assert (Hb : exists saved, b = Returned saved).
  { destruct Hdb as [(_ & -> & _)|(_ & -> & _)]; eauto. }
  destruct Hb as (saved & ->).
  cbn [modify_session ret snd fst with_session log db net session].
  split; [reflexivity|].
  split; [exact Hlog|]. split; [exact Hnet|]. split.
  - intros Hok. destruct Hdb as [(_ & _ & Hdb)|(Hno & _)]; [|congruence].
    rewrite Hdb. reflexivity.
  - intros Hno. destruct Hdb as [(Hok & _)|(_ & _ & Hdb)]; [congruence|exact Hdb].
Qed.

(** The requests of an in-exam tick: none, or the one termination
    record.  The tick fires when the decision table says terminate and
    [float()] accepts the score. *)
Lemma in_exam_tick_log extract_faces data w :
  in_exam_tick data w ->
  let l := tick_outcome (faces_seen extract_faces data) (get_no_face_count (session w))
             (get_multiple_face_count (session w))
             (get_no_face_warning_count (session w)) in
  let w' := snd (api_check_face true extract_faces data w) in
  let row := termination_row (student_email (session w)) (session_exam_id (session w))
               (l_violation_type l) (default 0 (current_score data)) w in
  let fired := l_should_terminate l
               && negb (Py.float_overflows (default 0 (current_score data))) in
  tick_terminates (fst (api_check_face true extract_faces data w)) = fired /\
  (fired = false -> log w' = log w /\ db w' = db w /\ net w' = net w) /\
  (fired = true ->
   log w' = (PostTermination row, hd NetOk (net w)) :: log w /\
   (hd NetOk (net w) = NetOk ->
    ExamTerminations (db w') = ExamTerminations (db w) ++ [row]) /\
   (hd NetOk (net w) <> NetOk -> db w' = db w) /\
   net w' = tl (net w)).
Proof.
  intros Htick. cbv zeta.
  rewrite (api_check_face_in_exam extract_faces data w Htick). cbv zeta.
  set (l := tick_outcome _ _ _ _).
  destruct (l_should_terminate l) eqn:Hterm; cbn [andb].
  2: { cbn [fst snd tick_terminates terminate].
       split; [reflexivity|]. split; [intros _; repeat split | intros H; discriminate H]. }
  destruct (Py.float_overflows (default 0 (current_score data))) eqn:Hover; cbn [negb].
  - unfold termination_action, bind. rewrite (terminate_exam_raises _ _ _ _ _ Hover).
    cbn [fst snd ret tick_terminates].
    split; [reflexivity|]. split; [intros _; repeat split | intros H; discriminate H].
  - destruct (termination_action_run (student_email (session w))
                (session_exam_id (session w)) l data
                (with_session (written_back l (session w)) w) Hover)
      as (Hr & Hlog & Hnet & Hok & Hno).
    rewrite Hr. cbn [fst snd tick_terminates terminate].
    split; [reflexivity|]. split; [intros H; discriminate H | intros _].
    repeat split; assumption.
Qed.

Lemma run_ticks_logged_out extract_faces frames w :
  ~ logged_in w -> run_ticks extract_faces frames w = w.
Proof.
  intros Hout. induction frames as [|data frames IH]; [reflexivity|].
  cbn [run_ticks]. rewrite api_check_face_idle; [exact IH|].
  intros (H & _). exact (Hout H).
Qed.

Lemma is_tick_in_exam data w :
  logged_in w -> (is_tick data = true <-> in_exam_tick data w).
Proof.
  intros Hlog. unfold is_tick, in_exam_tick. rewrite andb_true_iff, negb_true_iff.
  rewrite str_truthy_nonempty. tauto.
Qed.

Lemma misses_cons extract_faces data frames :
  misses extract_faces (data :: frames)
  = (if is_tick data && (faces_seen extract_faces data =? 0) then 1 else 0)
    + misses extract_faces frames.
Proof.
  unfold misses. cbn [List.filter].
  destruct (is_tick data && (faces_seen extract_faces data =? 0)); cbn [length]; lia.
Qed.

Lemma crowds_cons extract_faces data frames :
  crowds extract_faces (data :: frames)
  = (if is_tick data && (1 <? faces_seen extract_faces data) then 1 else 0)
    + crowds extract_faces frames.
Proof.
  unfold crowds. cbn [List.filter].
  destruct (is_tick data && (1 <? faces_seen extract_faces data)); cbn [length]; lia.
Qed.

Lemma misses_nonneg extract_faces frames : 0 <= misses extract_faces frames.
Proof. unfold misses. lia. Qed.

Lemma crowds_nonneg extract_faces frames : 0 <= crowds extract_faces frames.
Proof. unfold crowds. lia. Qed.

(** The outcome of a tick by the kind of frame, for counters [n], [m], [c]. *)
Lemma tick_outcome_kinds faces n m c :
  0 <= faces ->
  let l := tick_outcome faces n m c in
  (faces = 1 ->
   l_no_face_count l = n /\ l_multiple_face_count l = m /\
   l_no_face_warning_count l = c /\ l_should_terminate l = false) /\
  (1 < faces ->
   l_no_face_count l = n /\ l_multiple_face_count l = m + 1 /\
   l_no_face_warning_count l = c /\
   l_should_terminate l = (2 <=? m + 1) /\
   l_violation_type l <> Some "NO_FACE_DETECTED_5_WARNINGS") /\
  (faces = 0 ->
   l_no_face_count l = n + 1 /\ l_multiple_face_count l = m /\
   l_no_face_warning_count l = (if (n + 1 <? 5) && (n + 1 =? 1) then c + 1 else c) /\
   l_should_terminate l = ((5 <=? n + 1) || ((n + 1 =? 1) && (5 <=? c + 1))) /\
   (l_violation_type l = Some "NO_FACE_DETECTED_5_WARNINGS" -> n = 0 /\ 4 <= c)).
Proof.
  intros Hf. unfold tick_outcome.
  destruct (Z.eqb_spec faces 1).
  { cbn. repeat split; intros; try lia; discriminate. }
  destruct (Z.ltb_spec 1 faces).
  { cbn. repeat split; intros; try lia.
    destruct (2 <=? m + 1); discriminate. }
  destruct (Z.leb_spec 5 (n + 1)).
  { cbn. repeat split; intros; try lia; try discriminate.
    destruct (Z.ltb_spec (n + 1) 5); [lia | reflexivity]. }
  destruct (Z.ltb_spec (n + 1) 5); [|lia].
  destruct (Z.eqb_spec (n + 1) 1).
  { cbn. destruct (Z.leb_spec 5 (c + 1));
      repeat split; intros; try lia; try discriminate. }
  cbn. repeat split; intros; try lia; discriminate.
Qed.

(** X3: while no_face_count is positive, or the warning count is at most
    3, no sequence of face-check requests ever reports the reason
    NO_FACE_DETECTED_5_WARNINGS: the warning count moves only on the
    tick that takes no_face_count from 0 to 1, and no tick takes it back
    to 0.  Every session starts in such a state (all counters 0). *)
Theorem five_warnings_never_reported
    (extract_faces : string -> option (list float))
    (frames : list face_request) (w : World) :
  0 <= get_no_face_count (session w) ->
  (get_no_face_count (session w) = 0 -> get_no_face_warning_count (session w) <= 3) ->
  forall t o,
    In (PostTermination t, o) (log (run_ticks extract_faces frames w)) ->
    In (PostTermination t, o) (log w) \/
    terminationReason t <> Some "NO_FACE_DETECTED_5_WARNINGS".
Proof.
  revert w. induction frames as [|data frames IH]; intros w Hn Hc t o Hin.
  { left. exact Hin. }
  cbn [run_ticks] in Hin.
  destruct (in_exam_tick_dec data w) as [Htick|Hidle].
  2: { rewrite (api_check_face_idle extract_faces data w Hidle) in Hin.
       exact (IH w Hn Hc t o Hin). }
  destruct (in_exam_tick_gets extract_faces data w Htick) as (Hn' & _ & Hc').
  destruct (in_exam_tick_log extract_faces data w Htick) as (_ & Hquiet & Hloud).
  pose proof (tick_outcome_kinds (faces_seen extract_faces data)
                (get_no_face_count (session w)) (get_multiple_face_count (session w))
                (get_no_face_warning_count (session w))
                (faces_seen_nonneg extract_faces data)) as (Hone & Hmany & Hnone).
  pose proof (faces_seen_nonneg extract_faces data) as Hf.
  set (l := tick_outcome _ _ _ _) in *.
  set (w' := snd (api_check_face true extract_faces data w)) in *.
  assert (Hinv : 0 <= get_no_face_count (session w') /\
                 (get_no_face_count (session w') = 0 ->
                  get_no_face_warning_count (session w') <= 3) /\
                 l_violation_type l <> Some "NO_FACE_DETECTED_5_WARNINGS").
  { rewrite Hn', Hc'.
    destruct (Z.eq_dec (faces_seen extract_faces data) 1) as [H1|H1].
    { destruct (Hone H1) as (-> & _ & -> & _).
      repeat split; auto. subst l. unfold tick_outcome.
      apply Z.eqb_eq in H1. rewrite H1. discriminate. }
    destruct (Z_lt_dec 1 (faces_seen extract_faces data)) as [H2|H2].
    { destruct (Hmany H2) as (-> & _ & -> & _ & Hv). repeat split; auto. }
    assert (H0 : faces_seen extract_faces data = 0) by lia.
    destruct (Hnone H0) as (-> & _ & _ & _ & Hv).
    split; [lia|]. split; [lia|].
    intros Hbad. destruct (Hv Hbad). lia. }
  destruct Hinv as (Hn1 & Hc1 & Hreason).
  destruct (IH w' Hn1 Hc1 t o Hin) as [Hold|Hnew]; [|right; exact Hnew].
  destruct (l_should_terminate l
            && negb (Py.float_overflows (default 0 (current_score data)))).
  - destruct (Hloud eq_refl) as (Hlog & _). rewrite Hlog in Hold.
    destruct Hold as [Hhead|Hold]; [|left; exact Hold].
    right. injection Hhead as <- _. exact Hreason.
  - destruct (Hquiet eq_refl) as (Hlog & _). rewrite Hlog in Hold. left. exact Hold.
Qed.

Lemma five_warnings_never_reported_witness :
  0 <= get_no_face_count (session (Demo.seated 0 0 0)) /\
  In (PostTermination Scenario.fifth_miss_row, NetOk)
     (log (run_ticks Demo.sensor Scenario.six_frames (Demo.seated 0 0 0))) /\
  terminationReason Scenario.fifth_miss_row <> Some "NO_FACE_DETECTED_5_WARNINGS".
Proof.
  assert (Hn : 0 <= get_no_face_count (session (Demo.seated 0 0 0)))
    by (vm_compute; discriminate).
  assert (Hc : get_no_face_count (session (Demo.seated 0 0 0)) = 0 ->
               get_no_face_warning_count (session (Demo.seated 0 0 0)) <= 3)
    by (intros _; vm_compute; discriminate).
  assert (Hin : In (PostTermination Scenario.fifth_miss_row, NetOk)
                   (log (run_ticks Demo.sensor Scenario.six_frames (Demo.seated 0 0 0))))
    by (vm_compute; left; reflexivity).
  split; [exact Hn|]. split; [exact Hin|].
  destruct (five_warnings_never_reported Demo.sensor Scenario.six_frames
              (Demo.seated 0 0 0) Hn Hc _ _ Hin) as [Hold|Hnew];
    [destruct Hold | exact Hnew].
Defined.

(** X4: totals, not streaks, decide.  From a logged-in session whose
    counters have not reached a threshold, and for frames whose scores
    [float()] accepts, the client is still logged in after a sequence of
    face-check requests exactly when the in-exam frames without a face,
    added to no_face_count, stay below 5 and those with several faces,
    added to multiple_face_count, stay below 2; frames with one face in
    between change nothing. *)
Theorem termination_by_totals
    (extract_faces : string -> option (list float))
    (frames : list face_request) (w : World) :
  logged_in w ->
  Forall score_converts frames ->
  0 <= get_no_face_count (session w) <= 4 ->
  get_multiple_face_count (session w) <= 1 ->
  (get_no_face_count (session w) = 0 -> get_no_face_warning_count (session w) <= 3) ->
  (logged_in (run_ticks extract_faces frames w) <->
   get_no_face_count (session w) + misses extract_faces frames <= 4 /\
   get_multiple_face_count (session w) + crowds extract_faces frames <= 1).
Proof.
  revert w. induction frames as [|data frames IH]; intros w Hlog Hscores Hn Hm Hc.
  { cbn [run_ticks]. unfold misses, crowds. cbn. split; [lia | auto]. }
  inversion Hscores as [|? ? Hscore Hrest]; subst.
  cbn [run_ticks]. rewrite misses_cons, crowds_cons.
  pose proof (misses_nonneg extract_faces frames) as Hmisses.
  pose proof (crowds_nonneg extract_faces frames) as Hcrowds.
  destruct (is_tick data) eqn:Hkind.
  2: { rewrite api_check_face_idle.
       - rewrite (IH w Hlog Hrest Hn Hm Hc). cbn [andb]. lia.
       - intros Htick. apply (is_tick_in_exam data w Hlog) in Htick. congruence. }
  assert (Htick : in_exam_tick data w) by (apply is_tick_in_exam; assumption).
  cbn [andb].
  destruct (in_exam_tick_gets extract_faces data w Htick) as (Hn' & Hm' & Hc').
  destruct (in_exam_tick_counters extract_faces data w Htick)
    as (_ & _ & _ & Hloud & Hquiet).
  pose proof (tick_outcome_kinds (faces_seen extract_faces data)
                (get_no_face_count (session w)) (get_multiple_face_count (session w))
                (get_no_face_warning_count (session w))
                (faces_seen_nonneg extract_faces data)) as (Hone & Hmany & Hnone).
  pose proof (faces_seen_nonneg extract_faces data) as Hf.
  set (l := tick_outcome _ _ _ _) in *.
  set (w' := snd (api_check_face true extract_faces data w)) in *.
  assert (Hgone : l_should_terminate l = true ->
                  ~ logged_in (run_ticks extract_faces frames w')).
  { intros Hterm. assert (Hout : ~ logged_in w').
    { unfold logged_in. rewrite (Hloud Hterm Hscore). discriminate. }
    rewrite (run_ticks_logged_out _ _ _ Hout). exact Hout. }
  assert (Hstay : l_should_terminate l = false -> logged_in w').
  { intros Hterm. unfold logged_in.
    destruct (Hquiet (or_introl Hterm)) as (-> & _). exact Hlog. }
  destruct (Z.eqb_spec (faces_seen extract_faces data) 0) as [H0|H0].
  - destruct (Hnone H0) as (Hln & Hlm & Hlc & Hterm & _).
    destruct (Z.ltb_spec 1 (faces_seen extract_faces data)); [lia|].
    destruct (l_should_terminate l) eqn:Hl.
    + split; [intros Hstill; destruct (Hgone eq_refl Hstill)|].
      intros (Hbad & _). symmetry in Hterm. apply orb_true_iff in Hterm.
      destruct Hterm as [H5|H5].
      * apply Z.leb_le in H5. lia.
      * apply andb_true_iff in H5. destruct H5 as (H1 & H5).
        apply Z.eqb_eq in H1. apply Z.leb_le in H5. lia.
    + symmetry in Hterm. apply orb_false_iff in Hterm. destruct Hterm as (H5 & _).
      apply Z.leb_gt in H5.
      rewrite (IH w' (Hstay eq_refl) Hrest); rewrite ?Hn', ?Hm', ?Hc', ?Hln, ?Hlm, ?Hlc;
        try lia; try (intros Hzero; lia).
  - destruct (Z.ltb_spec 1 (faces_seen extract_faces data)) as [H2|H2].
    + destruct (Hmany H2) as (Hln & Hlm & Hlc & Hterm & _).
      destruct (l_should_terminate l) eqn:Hl.
      * split; [intros Hstill; destruct (Hgone eq_refl Hstill)|].
        intros (_ & Hbad). symmetry in Hterm. apply Z.leb_le in Hterm. lia.
      * symmetry in Hterm. apply Z.leb_gt in Hterm.
        rewrite (IH w' (Hstay eq_refl) Hrest); rewrite ?Hn', ?Hm', ?Hc', ?Hln, ?Hlm, ?Hlc;
          try lia; try exact Hc.
    + assert (H1 : faces_seen extract_faces data = 1) by lia.
      destruct (Hone H1) as (Hln & Hlm & Hlc & Hterm).
      rewrite (IH w' (Hstay Hterm) Hrest); rewrite ?Hn', ?Hm', ?Hc', ?Hln, ?Hlm, ?Hlc;
        try lia; try exact Hc.
Qed.

Lemma termination_by_totals_witness :
  logged_in (run_ticks Demo.sensor
               [Demo.frame "none"; Demo.frame "one"; Demo.frame "none";
                Demo.frame "two"; Demo.frame "none"; Demo.frame "none"]
               (Demo.seated 0 0 0)) /\
  ~ logged_in (run_ticks Demo.sensor
                 [Demo.frame "none"; Demo.frame "one"; Demo.frame "none";
                  Demo.frame "one"; Demo.frame "none"; Demo.frame "one";
                  Demo.frame "none"; Demo.frame "one"; Demo.frame "none"]
                 (Demo.seated 0 0 0)).
Proof.
  split.
  - apply (termination_by_totals Demo.sensor _ (Demo.seated 0 0 0));
      [reflexivity | repeat constructor | vm_compute; split; discriminate
      | vm_compute; discriminate
      | intros _; vm_compute; discriminate
      | vm_compute; split; discriminate].
  - intros Hlog.
    apply (termination_by_totals Demo.sensor _ (Demo.seated 0 0 0)) in Hlog;
      [ | reflexivity | repeat constructor | vm_compute; split; discriminate
        | vm_compute; discriminate
        | intros _; vm_compute; discriminate].
    destruct Hlog as (Hbad & _). vm_compute in Hbad. apply Hbad. reflexivity.
Defined.

Lemma posted_row_blocks email exam_id violation_type current_score w (d : Backend) :
  ExamTerminations d
  = ExamTerminations (db w)
    ++ [termination_row (Some email) (Some exam_id) violation_type current_score w] ->
  blocked email exam_id d = true.
Proof.
  intros Hrows. unfold blocked. rewrite Hrows, existsb_app. cbn [existsb].
  unfold Backendless.blocked_matches at 2, termination_row.
  cbn [t_applicantEmail t_examId isBlocked Py.opt_eqb].
  rewrite !String.eqb_refl. cbn. apply orb_true_r.
Qed.

(** X5: when the write of the termination record fails, the tick still
    answers terminate and logs the client out, but the tables are as
    before: no block is on file. *)
Theorem failed_termination_write_leaves_no_block
    (extract_faces : string -> option (list float)) (data : face_request) (w : World) :
  in_exam_tick data w ->
  tick_terminates (fst (api_check_face true extract_faces data w)) = true ->
  hd NetOk (net w) <> NetOk ->
  db (snd (api_check_face true extract_faces data w)) = db w /\
  student_logged_in (session (snd (api_check_face true extract_faces data w))) = None.
Proof.
  intros Htick Hterm Hdown.
  destruct (in_exam_tick_log extract_faces data w Htick) as (Hflag & _ & Hloud).
  destruct (in_exam_tick_counters extract_faces data w Htick) as (_ & _ & _ & Hout & _).
  rewrite Hflag in Hterm.
  destruct (Hloud Hterm) as (_ & _ & Hdb & _).
  apply andb_true_iff in Hterm. destruct Hterm as (Hl & Hconv).
  apply negb_true_iff in Hconv.
  split; [exact (Hdb Hdown) | exact (Hout Hl Hconv)].
Qed.

Lemma failed_termination_write_leaves_no_block_witness :
  in_exam_tick (Demo.frame "two") Scenario.seated_ledger_down /\
  tick_terminates (fst (Demo.tick "two" Scenario.seated_ledger_down)) = true /\
  ExamTerminations (db (snd (Demo.tick "two" Scenario.seated_ledger_down))) = [] /\
  student_logged_in (session (snd (Demo.tick "two" Scenario.seated_ledger_down))) = None.
Proof.
  assert (Htick : in_exam_tick (Demo.frame "two") Scenario.seated_ledger_down).
  { repeat split. vm_compute. discriminate. }
  assert (Hterm : tick_terminates (fst (Demo.tick "two" Scenario.seated_ledger_down))
                  = true) by (vm_compute; reflexivity).
  destruct (failed_termination_write_leaves_no_block Demo.sensor (Demo.frame "two")
              Scenario.seated_ledger_down Htick Hterm ltac:(vm_compute; discriminate))
    as (Hdb & Hout).
  split; [exact Htick|]. split; [exact Hterm|]. split; [|exact Hout].
  unfold Demo.tick. rewrite Hdb. reflexivity.
Defined.

(** X6: after a terminating tick whose record was written, the pair of
    the session is blocked, and a login for it is turned away whatever
    the password, as long as the ledger answers. *)
Theorem terminating_tick_blocks_login
    (extract_faces : string -> option (list float)) (data : face_request) (w : World)
    (email exam_id : string) :
  in_exam_tick data w ->
  tick_terminates (fst (api_check_face true extract_faces data w)) = true ->
  hd NetOk (net w) = NetOk ->
  student_email (session w) = Some email ->
  session_exam_id (session w) = Some exam_id ->
  let w' := snd (api_check_face true extract_faces data w) in
  blocked email exam_id (db w') = true /\
  forall url_exam_id password,
    email <> "" -> exam_id <> "" -> password <> "" ->
    hd NetOk (net w') = NetOk ->
    fst (test_login url_exam_id POST (filled_form email password exam_id) w')
    = Redirect "exam_finished" None.
Proof.
  intros Htick Hterm Hok Hemail Hexam. cbv zeta.
  destruct (in_exam_tick_log extract_faces data w Htick) as (Hflag & _ & Hloud).
  destruct (in_exam_tick_counters extract_faces data w Htick) as (_ & _ & _ & Hout & _).
  rewrite Hflag in Hterm.
  destruct (Hloud Hterm) as (_ & Hrows & _ & _).
  specialize (Hrows Hok). rewrite Hemail, Hexam in Hrows.
  assert (Hblocked : blocked email exam_id
                       (db (snd (api_check_face true extract_faces data w))) = true)
    by exact (posted_row_blocks _ _ _ _ _ _ Hrows).
  split; [exact Hblocked|].
  intros url_exam_id password He Hx Hp Hnet.
  apply login_denied_while_blocked; auto.
  apply andb_true_iff in Hterm. destruct Hterm as (Hl & Hconv).
  apply negb_true_iff in Hconv.
  rewrite (Hout Hl Hconv). reflexivity.
Qed.

Lemma terminating_tick_blocks_login_witness :
  in_exam_tick (Demo.frame "two") (Demo.seated 0 1 0) /\
  blocked "ann@example.org" "E1" (db (snd (Demo.tick "two" (Demo.seated 0 1 0)))) = true /\
  fst (test_login "E1" POST (filled_form "ann@example.org" "s3cret" "E1")
         (snd (Demo.tick "two" (Demo.seated 0 1 0))))
  = Redirect "exam_finished" None.
Proof.
  assert (Htick : in_exam_tick (Demo.frame "two") (Demo.seated 0 1 0)).
  { repeat split. vm_compute. discriminate. }
  destruct (terminating_tick_blocks_login Demo.sensor (Demo.frame "two")
              (Demo.seated 0 1 0) "ann@example.org" "E1" Htick
              ltac:(vm_compute; reflexivity) eq_refl eq_refl eq_refl)
    as (Hblocked & Hdenied).
  split; [exact Htick|]. split; [exact Hblocked|].
  apply Hdenied; try discriminate. vm_compute. reflexivity.
Defined.

(** ** Violation reports *)

(** X7: a violation report from a client that is not logged in is
    answered 401, and one from a logged-in client whose session lacks
    the exam id or the e-mail is answered 400; either way nothing
    changes and nothing is asked of the data service. *)
Theorem report_violation_refused (data : violation_request) (w : World) :
  ~ logged_in w \/
  Py.opt_truthy (session_exam_id (session w)) = false \/
  Py.opt_truthy (student_email (session w)) = false ->
  snd (api_report_violation data w) = w /\
  (~ logged_in w ->
   fst (api_report_violation data w)
   = JsonMessage 401 false "Authentication required.") /\
  (logged_in w ->
   fst (api_report_violation data w) = JsonMessage 400 false "Session data missing.").
Proof.
  intros Hbad. unfold logged_in in *.
  destruct (api_report_violation data w) as [resp w'] eqn:Hrun. cbn [fst snd].
  unfold api_report_violation, bind at 1, get_session at 1 in Hrun.
  destruct (Py.flag (student_logged_in (session w))) eqn:Hflag; cbn [negb] in Hrun.
  2: { injection Hrun as <- <-.
       split; [reflexivity|]. split; [reflexivity | intros H; discriminate H]. }
  assert (Hmissing : negb (Py.opt_truthy (session_exam_id (session w)))
                     || negb (Py.opt_truthy (student_email (session w))) = true).
  { destruct Hbad as [Hbad|[Hbad|Hbad]]; [congruence| |]; rewrite Hbad; cbn [negb orb];
      [reflexivity | apply orb_true_r]. }
  rewrite Hmissing in Hrun. injection Hrun as <- <-.
  split; [reflexivity|]. split; [intros H; congruence | reflexivity].
Qed.

Lemma report_violation_refused_witness :
  api_report_violation {| violation_type := Some "TAB_SWITCH"; reported_score := Some 3 |}
    Demo.fresh
  = (JsonMessage 401 false "Authentication required.", Demo.fresh) /\
  api_report_violation {| violation_type := Some "TAB_SWITCH"; reported_score := Some 3 |}
    Scenario.seated_without_email
  = (JsonMessage 400 false "Session data missing.", Scenario.seated_without_email).
Proof.
  assert (Hout : ~ logged_in Demo.fresh) by (intros H; discriminate H).
  assert (Hin : logged_in Scenario.seated_without_email) by reflexivity.
  destruct (report_violation_refused
              {| violation_type := Some "TAB_SWITCH"; reported_score := Some 3 |}
              Demo.fresh (or_introl Hout)) as (Hsame & H401 & _).
  destruct (report_violation_refused
              {| violation_type := Some "TAB_SWITCH"; reported_score := Some 3 |}
              Scenario.seated_without_email (or_intror (or_intror eq_refl)))
    as (Hsame' & _ & H400).
  split; apply injective_projections; cbn [fst snd]; auto.
Defined.

(** X8: a violation report of a logged-in client whose score [float()]
    accepts posts one blocking record with the reported reason
    (CLIENT_SIDE_VIOLATION when none is given), empties the session, and
    answers success whether or not the record was written.  With a score
    that [float()] refuses the view raises: the answer is the 500 page
    and nothing changes, the client stays logged in. *)
Theorem report_violation_terminates
    (data : violation_request) (w : World) (email exam_id : string) :
  logged_in w ->
  student_email (session w) = Some email -> email <> "" ->
  session_exam_id (session w) = Some exam_id -> exam_id <> "" ->
  let reason := default "CLIENT_SIDE_VIOLATION" (violation_type data) in
  let score := default 0 (reported_score data) in
  let row := termination_row (Some email) (Some exam_id) (Some reason) score w in
  let w' := snd (api_report_violation data w) in
  (Py.float_overflows score = false ->
   fst (api_report_violation data w)
   = JsonMessage 200 true ("Exam terminated due to " +:+ reason +:+ ".") /\
   session w' = empty_session /\
   log w' = (PostTermination row, hd NetOk (net w)) :: log w /\
   (hd NetOk (net w) = NetOk ->
    ExamTerminations (db w') = ExamTerminations (db w) ++ [row] /\
    blocked email exam_id (db w') = true /\
    forall url_exam_id password,
      password <> "" -> hd NetOk (net w') = NetOk ->
      fst (test_login url_exam_id POST (filled_form email password exam_id) w')
      = Redirect "exam_finished" None) /\
   (hd NetOk (net w) <> NetOk -> db w' = db w)) /\
  (Py.float_overflows score = true ->
   api_report_violation data w = (InternalServerError OverflowError, w)).
Proof.
  intros Hlog Hemail He Hexam Hx. cbv zeta.
  pose proof He as He'. pose proof Hx as Hx'.
  apply str_truthy_nonempty in He, Hx. unfold logged_in in Hlog.
  destruct (api_report_violation data w) as [resp w'] eqn:Hrun.
  cbn [fst snd].
  unfold api_report_violation, bind at 1, get_session at 1 in Hrun.
  rewrite Hlog, Hemail, Hexam in Hrun.
  cbn [negb orb Py.opt_truthy] in Hrun. rewrite He, Hx in Hrun.
  cbn [negb orb] in Hrun. unfold bind at 1 in Hrun.
  split.
  2: { intros Hover. rewrite (terminate_exam_raises _ _ _ _ _ Hover) in Hrun.
       cbn in Hrun. symmetry. exact Hrun. }
  intros Hconv.
  destruct (terminate_exam _ _ _ _ w) as [b w1] eqn:Hterm.
  apply (terminate_exam_run _ _ _ _ _ _ _ Hconv) in Hterm. cbv zeta in Hterm.
  destruct Hterm as (Hs & _ & _ & _ & Hl & Hdb).
  assert (Hb : exists saved, b = Returned saved).
  { destruct Hdb as [(_ & -> & _)|(_ & -> & _)]; eauto. }
  destruct Hb as (saved & ->).
  cbn in Hrun. injection Hrun as <- <-.
  cbn [session log db].
  split; [reflexivity|]. split; [reflexivity|]. split; [exact Hl|]. split.
  - intros Hok. destruct Hdb as [(_ & _ & Hdb)|(Hno & _)]; [|congruence].
    assert (Hrows : ExamTerminations (db w1)
                    = ExamTerminations (db w)
                      ++ [termination_row (Some email) (Some exam_id)
                            (Some (default "CLIENT_SIDE_VIOLATION" (violation_type data)))
                            (default 0 (reported_score data)) w])
      by (rewrite Hdb; reflexivity).
    pose proof (posted_row_blocks _ _ _ _ _ _ Hrows) as Hblocked.
    split; [exact Hrows|]. split; [exact Hblocked|].
    intros url_exam_id password Hp Hnet.
    apply login_denied_while_blocked; auto.
  - intros Hno. destruct Hdb as [(Hok & _)|(_ & _ & Hdb)]; [congruence|exact Hdb].
Qed.

Lemma report_violation_terminates_witness :
  logged_in (Demo.seated 0 0 0) /\
  fst (api_report_violation {| violation_type := None; reported_score := None |}
         (Demo.seated 0 0 0))
  = JsonMessage 200 true "Exam terminated due to CLIENT_SIDE_VIOLATION." /\
  session (snd (api_report_violation {| violation_type := None; reported_score := None |}
                  (Demo.seated 0 0 0)))
  = empty_session /\
  api_report_violation {| violation_type := None; reported_score := Some (10 ^ 400) |}
    (Demo.seated 0 0 0)
  = (InternalServerError OverflowError, Demo.seated 0 0 0).
Proof.
  assert (Hlog : logged_in (Demo.seated 0 0 0)) by reflexivity.
  destruct (report_violation_terminates
              {| violation_type := None; reported_score := None |}
              (Demo.seated 0 0 0) "ann@example.org" "E1" Hlog eq_refl
              ltac:(discriminate) eq_refl ltac:(discriminate))
    as (Hserved & _).
  destruct (Hserved ltac:(vm_compute; reflexivity)) as (Hresp & Hsession & _).
  destruct (report_violation_terminates
              {| violation_type := None; reported_score := Some (10 ^ 400) |}
              (Demo.seated 0 0 0) "ann@example.org" "E1" Hlog eq_refl
              ltac:(discriminate) eq_refl ltac:(discriminate))
    as (_ & Hraised).
  split; [exact Hlog|]. split; [exact Hresp|]. split; [exact Hsession|].
  apply Hraised. vm_compute. reflexivity.
Defined.

(** ** The decorator and logout *)

Lemma gate_logged_out exam_id f w :
  ~ logged_in w ->
  student_exam_required exam_id f w
  = (Redirect "test_login" (Some exam_id),
     with_flashes (flashes w ++ [("warning", "Please log in to start your test.")]) w).
Proof.
  intros Hout. unfold logged_in in Hout.
  unfold student_exam_required, bind at 1, get_session at 1.
  destruct (Py.flag (student_logged_in (session w))); [congruence|]. reflexivity.
Qed.

Lemma pre_exam_check_logged_out isoparse exam_id w :
  ~ logged_in w ->
  pre_exam_check isoparse exam_id w
  = (Redirect "test_login" (Some exam_id),
     with_flashes (flashes w ++ [("warning", "Please log in to start your test.")]) w).
Proof. intros H. unfold pre_exam_check. apply gate_logged_out, H. Qed.

Lemma exam_instructions_logged_out isoparse exam_id w :
  ~ logged_in w ->
  exam_instructions isoparse exam_id w
  = (Redirect "test_login" (Some exam_id),
     with_flashes (flashes w ++ [("warning", "Please log in to start your test.")]) w).
Proof. intros H. unfold exam_instructions. apply gate_logged_out, H. Qed.

Lemma start_exam_logged_out isoparse exam_id w :
  ~ logged_in w ->
  start_exam isoparse exam_id w
  = (Redirect "test_login" (Some exam_id),
     with_flashes (flashes w ++ [("warning", "Please log in to start your test.")]) w).
Proof. intros H. unfold start_exam. apply gate_logged_out, H. Qed.

Lemma submit_exam_logged_out exam_id form w :
  ~ logged_in w ->
  submit_exam exam_id form w
  = (Redirect "test_login" (Some exam_id),
     with_flashes (flashes w ++ [("warning", "Please log in to start your test.")]) w).
Proof. intros H. unfold submit_exam. apply gate_logged_out, H. Qed.

(** X9: logout empties the session without touching the data service,
    and from then on the gated pages, submission, the violation report
    and the face check turn the client away without issuing a request. *)
Theorem logout_ends_access (w : World) :
  let w' := snd (exam_logout w) in
  fst (exam_logout w) = Redirect "index" None /\
  session w' = empty_session /\ db w' = db w /\ log w' = log w /\
  forall isoparse extract_faces sensor_available exam_id form data report,
    pre_exam_check isoparse exam_id w'
    = (Redirect "test_login" (Some exam_id),
       with_flashes (flashes w' ++ [("warning", "Please log in to start your test.")]) w') /\
    fst (exam_instructions isoparse exam_id w') = Redirect "test_login" (Some exam_id) /\
    fst (start_exam isoparse exam_id w') = Redirect "test_login" (Some exam_id) /\
    fst (submit_exam exam_id form w') = Redirect "test_login" (Some exam_id) /\
    log (snd (exam_instructions isoparse exam_id w')) = log w /\
    log (snd (start_exam isoparse exam_id w')) = log w /\
    log (snd (submit_exam exam_id form w')) = log w /\
    api_check_face sensor_available extract_faces data w'
    = (JsonMessage 401 false "Authentication required.", w') /\
    api_report_violation report w'
    = (JsonMessage 401 false "Authentication required.", w').
Proof.
  cbv zeta. split; [reflexivity|]. split; [reflexivity|].
  split; [reflexivity|]. split; [reflexivity|].
  intros isoparse extract_faces sensor_available exam_id form data report.
  assert (Hout : ~ logged_in (snd (exam_logout w))) by (intros H; discriminate H).
  rewrite (pre_exam_check_logged_out isoparse exam_id _ Hout),
          (exam_instructions_logged_out isoparse exam_id _ Hout),
          (start_exam_logged_out isoparse exam_id _ Hout),
          (submit_exam_logged_out exam_id form _ Hout).
  repeat split.
Qed.

(** X10: a logged-in client asking for another exam than the one of its
    session loses its identity keys, keeps its counters, and is sent to
    the login page of the exam asked for; the page does not run and no
    request is issued. *)
Theorem gate_wrong_exam (exam_id : string) (f : M response) (w : World) :
  logged_in w ->
  Py.opt_eqb (session_exam_id (session w)) exam_id = false ->
  let w' := snd (student_exam_required exam_id f w) in
  fst (student_exam_required exam_id f w) = Redirect "test_login" (Some exam_id) /\
  session w' = {| student_logged_in := None; student_email := None;
                  session_exam_id := None;
                  no_face_count := no_face_count (session w);
                  multiple_face_count := multiple_face_count (session w);
                  no_face_warning_count := no_face_warning_count (session w) |} /\
  log w' = log w /\ db w' = db w /\ net w' = net w.
Proof.
  intros Hlog Hother. unfold logged_in in Hlog. cbv zeta.
  destruct (student_exam_required exam_id f w) as [resp w'] eqn:Hrun. cbn [fst snd].
  unfold student_exam_required, bind at 1, get_session at 1 in Hrun.
  rewrite Hlog, Hother in Hrun. cbn in Hrun. injection Hrun as <- <-.
  repeat split.
Qed.

Lemma gate_wrong_exam_witness :
  logged_in (Demo.seated 2 1 1) /\
  fst (start_exam Demo.parse "E2" (Demo.seated 2 1 1)) = Redirect "test_login" (Some "E2") /\
  log (snd (start_exam Demo.parse "E2" (Demo.seated 2 1 1))) = [].
Proof.
  assert (Hlog : logged_in (Demo.seated 2 1 1)) by reflexivity.
  split; [exact Hlog|].
  unfold start_exam.
  match goal with
  | |- fst (student_exam_required ?x ?f ?w) = _ /\ _ =>
      destruct (gate_wrong_exam x f w Hlog eq_refl) as (Hresp & _ & Hlog' & _)
  end.
  split; [exact Hresp | exact Hlog'].
Defined.

Lemma bind_run {A B : Type} (c : M A) (k : A -> M B) w a w1 :
  c w = (a, w1) -> (x <- c ;; k x) w = k a w1.
Proof. intros H. unfold bind. rewrite H. reflexivity. Qed.

Lemma check_active_termination_world email exam_id w :
  check_active_termination email exam_id w
  = (match hd NetOk (net w) with
     | NetOk => blocked email exam_id (db w)
     | _ => false
     end,
     snd (http (GetBlockedTerminations email exam_id) w)).
Proof.
  unfold check_active_termination. run_monad.
  destruct (hd NetOk (net w)); try reflexivity.
  run_monad. rewrite nonempty_filter_existsb. reflexivity.
Qed.

(** X11: for a logged-in client of the exam asked for, the decorator
    turns on one ledger query: served and reporting a block, it empties
    the session and sends to the finished page; served without a block,
    or not served at all, it runs the page on the session as it was. *)
Theorem gate_follows_ledger (exam_id : string) (f : M response) (w : World) :
  logged_in w ->
  Py.opt_eqb (session_exam_id (session w)) exam_id = true ->
  let email := Py.str (student_email (session w)) in
  let asked := snd (http (GetBlockedTerminations email exam_id) w) in
  (hd NetOk (net w) = NetOk -> blocked email exam_id (db w) = true ->
   fst (student_exam_required exam_id f w) = Redirect "exam_finished" None /\
   session (snd (student_exam_required exam_id f w)) = empty_session /\
   db (snd (student_exam_required exam_id f w)) = db w) /\
  (hd NetOk (net w) = NetOk -> blocked email exam_id (db w) = false ->
   student_exam_required exam_id f w = f asked) /\
  (hd NetOk (net w) <> NetOk ->
   student_exam_required exam_id f w = f asked) /\
  session asked = session w /\ db asked = db w.
Proof.
  intros Hlog Hsame. unfold logged_in in Hlog. cbv zeta.
  assert (Hrun : student_exam_required exam_id f w
                 = (blocked <- check_active_termination
                                 (Py.str (student_email (session w))) exam_id ;;
                    if blocked then
                      flash "Access Denied: Your exam access has been terminated." "error" ;;
                      session_clear ;;
                      ret (Redirect "exam_finished" None)
                    else f) w).
  { unfold student_exam_required, bind at 1, get_session at 1.
    rewrite Hlog, Hsame. reflexivity. }
  rewrite Hrun. clear Hrun.
  rewrite (bind_run _ _ _ _ _ (check_active_termination_world _ exam_id w)).
  split; [|split; [|split]].
  - intros -> ->. repeat split.
  - intros -> ->. reflexivity.
  - intros Hno. destruct (hd NetOk (net w)); [congruence| |]; reflexivity.
  - split; reflexivity.
Qed.

Lemma gate_follows_ledger_witness :
  logged_in Scenario.blocked_ledger_down /\
  blocked "ann@example.org" "E1" (db Scenario.blocked_ledger_down) = true /\
  fst (pre_exam_check Demo.parse "E1" Scenario.blocked_ledger_down)
  = Render "pre_check_view".
Proof.
  assert (Hlog : logged_in Scenario.blocked_ledger_down) by reflexivity.
  split; [exact Hlog|]. split; [reflexivity|].
  unfold pre_exam_check.
  match goal with
  | |- fst (student_exam_required ?x ?f ?w) = _ =>
      destruct (gate_follows_ledger x f w Hlog eq_refl) as (_ & _ & Hdown & _)
  end.
  rewrite Hdown; [vm_compute; reflexivity | vm_compute; discriminate].
Defined.

(** ** Login *)

Lemma get_login_credential_world email exam_id w :
  get_login_credential email exam_id w
  = (match hd NetOk (net w) with
     | NetOk => issued_credential email exam_id (db w)
     | _ => None
     end,
     snd (http (GetCredential email exam_id) w)).
Proof.
  unfold get_login_credential. run_monad.
  destruct (hd NetOk (net w)); reflexivity.
Qed.

Lemma opt_truthy_blank field : Py.opt_truthy field = false <-> blank field.
Proof.
  unfold blank. destruct field as [[|a s]|]; cbn; split; intros H; auto;
    try discriminate; destruct H as [H|H]; discriminate.
Qed.

(** X12: a login form with a missing or empty field is answered with the
    form again and "All fields are required."; nothing is asked of the
    data service and the session is as before. *)
Theorem login_needs_all_fields (exam_id : string) (form : login_form) (w : World) :
  ~ logged_in w ->
  blank (form_email form) \/ blank (form_password form) \/ blank (form_exam_id form) ->
  test_login exam_id POST form w
  = (Render "test_login_view",
     with_flashes (flashes w ++ [("error", "All fields are required.")]) w).
Proof.
  intros Hout Hblank. unfold logged_in in Hout.
  apply not_true_is_false in Hout.
  unfold test_login, bind at 1, get_session at 1.
  rewrite Hout. cbn [andb].
  assert (Hany : negb (Py.opt_truthy (form_exam_id form))
                 || negb (Py.opt_truthy (form_email form))
                 || negb (Py.opt_truthy (form_password form)) = true).
  { destruct Hblank as [H|[H|H]]; apply opt_truthy_blank in H; rewrite H; cbn;
      rewrite ?orb_true_r; reflexivity. }
  cbv zeta. rewrite Hany. reflexivity.
Qed.

Lemma login_needs_all_fields_witness :
  test_login "E1" POST
    {| form_email := Some "ann@example.org"; form_password := Some "";
       form_exam_id := Some "E1" |} Demo.fresh
  = (Render "test_login_view",
     with_flashes [("error", "All fields are required.")] Demo.fresh).
Proof.
  apply (login_needs_all_fields "E1"
           {| form_email := Some "ann@example.org"; form_password := Some "";
              form_exam_id := Some "E1" |} Demo.fresh).
  - intros H. discriminate H.
  - right. left. right. reflexivity.
Defined.

Lemma test_login_filled exam_id email password login_exam_id w :
  ~ logged_in w -> email <> "" -> password <> "" -> login_exam_id <> "" ->
  test_login exam_id POST (filled_form email password login_exam_id) w
  = (if served (hd NetOk (net w)) && blocked email login_exam_id (db w) then
       flash "Access Denied: Your exam access has been permanently terminated due to a policy violation." "error" ;;
       ret (Redirect "exam_finished" None)
     else
       credential <- get_login_credential email login_exam_id ;;
       match credential with
       | Some c =>
           if password_is password c then
             modify_session (fun _ => fresh_login email login_exam_id) ;;
             flash "Login successful. Please complete the pre-test system check." "success" ;;
             ret (Redirect "pre_exam_check" (Some login_exam_id))
           else
             flash "Invalid credentials. Check your Email, Password, and Exam ID (case-sensitive)." "error" ;;
             ret (Render "test_login_view")
       | None =>
           flash "Invalid credentials. Check your Email, Password, and Exam ID (case-sensitive)." "error" ;;
           ret (Render "test_login_view")
       end) (snd (http (GetBlockedTerminations email login_exam_id) w)).
Proof.
  intros Hout He Hp Hx. unfold logged_in in Hout.
  apply not_true_is_false in Hout.
  apply str_truthy_nonempty in He, Hp, Hx.
  unfold test_login, bind at 1, get_session at 1.
  rewrite Hout. cbn [andb].
  cbn beta iota zeta delta
    [filled_form form_email form_password form_exam_id Py.opt_truthy Py.str default
     from_option id].
  rewrite He, Hp, Hx. cbn [negb orb].
  rewrite (bind_run _ _ _ _ _ (check_active_termination_world email login_exam_id w)).
  destruct (hd NetOk (net w)); cbn [served andb];
    try destruct (blocked email login_exam_id (db w)); reflexivity.
Qed.

Lemma login_rejected exam_id email password login_exam_id w :
  ~ logged_in w -> email <> "" -> password <> "" -> login_exam_id <> "" ->
  login_accepts email password login_exam_id w = false ->
  (fst (test_login exam_id POST (filled_form email password login_exam_id) w)
   = Render "test_login_view" \/
   fst (test_login exam_id POST (filled_form email password login_exam_id) w)
   = Redirect "exam_finished" None) /\
  session (snd (test_login exam_id POST (filled_form email password login_exam_id) w))
  = session w.
Proof.
  intros Hout He Hp Hx Hno.
  rewrite (test_login_filled exam_id _ _ _ w Hout He Hp Hx).
  unfold login_accepts in Hno.
  destruct (served (hd NetOk (net w)) && blocked email login_exam_id (db w)).
  { split; [right|]; reflexivity. }
  cbn [negb andb] in Hno.
  rewrite (bind_run _ _ _ _ _ (get_login_credential_world email login_exam_id _)).
  cbn [http snd net db] in *.
  destruct (hd NetOk (tl (net w))); cbn [served andb] in Hno;
    try (split; [left|]; reflexivity).
  destruct (issued_credential email login_exam_id (db w)) as [c|];
    [|split; [left|]; reflexivity].
  rewrite Hno. split; [left|]; reflexivity.
Qed.

(** X13: a login with all fields filled in, from a client that is not
    logged in, succeeds exactly when the ledger query does not report a
    block, the credential query is served and the newest credential of
    the pair carries the password typed.  Success stores the identity
    with all three counters at zero; any other outcome leaves the session
    as it was.  The tables are never changed and only read requests are
    issued. *)
Theorem login_outcome (url_exam_id email password login_exam_id : string) (w : World) :
  ~ logged_in w -> email <> "" -> password <> "" -> login_exam_id <> "" ->
  let run := test_login url_exam_id POST (filled_form email password login_exam_id) w in
  (login_accepts email password login_exam_id w = true ->
   fst run = Redirect "pre_exam_check" (Some login_exam_id) /\
   session (snd run) = fresh_login email login_exam_id) /\
  (login_accepts email password login_exam_id w = false ->
   (fst run = Render "test_login_view" \/ fst run = Redirect "exam_finished" None) /\
   session (snd run) = session w) /\
  db (snd run) = db w /\
  exists l, log (snd run) = l ++ log w /\
            Forall (fun entry => is_read (fst entry) = true) l.
Proof.
  intros Hout He Hp Hx. cbv zeta.
  split; [|split; [exact (login_rejected url_exam_id _ _ _ w Hout He Hp Hx)|]].
  - rewrite (test_login_filled url_exam_id _ _ _ w Hout He Hp Hx).
    unfold login_accepts. intros Hyes.
    destruct (served (hd NetOk (net w)) && blocked email login_exam_id (db w));
      [discriminate Hyes|].
    cbn [negb andb] in Hyes.
    rewrite (bind_run _ _ _ _ _ (get_login_credential_world email login_exam_id _)).
    cbn [http snd net db] in *.
    destruct (hd NetOk (tl (net w))); try discriminate Hyes.
    cbn [served andb] in Hyes.
    destruct (issued_credential email login_exam_id (db w)) as [c|];
      [|discriminate Hyes].
    rewrite Hyes. split; reflexivity.
  - rewrite (test_login_filled url_exam_id _ _ _ w Hout He Hp Hx).
    destruct (served (hd NetOk (net w)) && blocked email login_exam_id (db w)).
    { split; [reflexivity|].
      exists [(GetBlockedTerminations email login_exam_id, hd NetOk (net w))].
      split; [reflexivity|]. repeat constructor. }
    rewrite (bind_run _ _ _ _ _ (get_login_credential_world email login_exam_id _)).
    cbn [http snd net db].
    assert (Hlog : exists l,
               (GetCredential email login_exam_id, hd NetOk (tl (net w)))
               :: (GetBlockedTerminations email login_exam_id, hd NetOk (net w)) :: log w
               = l ++ log w /\
               Forall (fun entry => is_read (fst entry) = true) l).
    { exists [(GetCredential email login_exam_id, hd NetOk (tl (net w)));
              (GetBlockedTerminations email login_exam_id, hd NetOk (net w))].
      split; [reflexivity|]. repeat constructor. }
    destruct (hd NetOk (tl (net w))); try (split; [reflexivity | exact Hlog]).
    destruct (issued_credential email login_exam_id (db w)) as [c|];
      [|split; [reflexivity | exact Hlog]].
    destruct (password_is password c); split; try reflexivity; exact Hlog.
Qed.

Lemma login_outcome_witness :
  fst (test_login "E1" POST (filled_form "ann@example.org" "n3wer" "E1") Scenario.reissued)
  = Redirect "pre_exam_check" (Some "E1") /\
  session (snd (test_login "E1" POST (filled_form "ann@example.org" "n3wer" "E1")
                  Scenario.reissued))
  = fresh_login "ann@example.org" "E1" /\
  fst (test_login "E1" POST (filled_form "ann@example.org" "s3cret" "E1") Scenario.reissued)
  <> Redirect "pre_exam_check" (Some "E1").
Proof.
  assert (Hout : ~ logged_in Scenario.reissued) by (intros H; discriminate H).
  destruct (login_outcome "E1" "ann@example.org" "n3wer" "E1" Scenario.reissued Hout)
    as (Hyes & _); try discriminate.
  destruct (login_outcome "E1" "ann@example.org" "s3cret" "E1" Scenario.reissued Hout)
    as (_ & Hno & _); try discriminate.
  destruct (Hyes eq_refl) as (Hresp & Hsession).
  destruct (Hno eq_refl) as (Hkind & _).
  split; [exact Hresp|]. split; [exact Hsession|].
  destruct Hkind as [-> | ->]; discriminate.
Defined.

Lemma newest_spec (cs : list Credential) :
  match Backendless.newest cs with
  | Some c => In c cs /\ forall c', In c' cs -> sentAt c' <= sentAt c
  | None => cs = []
  end.
Proof.
  induction cs as [|c cs IH]; [reflexivity|].
  cbn [Backendless.newest].
  destruct (Backendless.newest cs) as [c0|].
  - destruct IH as (Hin & Hmax).
    destruct (Z.ltb_spec (sentAt c) (sentAt c0)).
    + split; [right; exact Hin|].
      intros c' [<-|Hc']; [lia | apply Hmax, Hc'].
    + split; [left; reflexivity|].
      intros c' [<-|Hc']; [lia | specialize (Hmax _ Hc'); lia].
  - subst cs. split; [left; reflexivity|].
    intros c' [<-|[]]. lia.
Qed.

Lemma cred_matches_spec email exam_id c :
  Backendless.cred_matches email exam_id c = true
  <-> c_applicantEmail c = email /\ c_examId c = exam_id.
Proof.
  unfold Backendless.cred_matches.
  rewrite andb_true_iff, !String.eqb_eq. reflexivity.
Qed.

Lemma issued_credential_spec email exam_id d :
  match issued_credential email exam_id d with
  | Some c =>
      In c (exam_login d) /\ c_applicantEmail c = email /\ c_examId c = exam_id /\
      forall c', In c' (exam_login d) ->
                 c_applicantEmail c' = email -> c_examId c' = exam_id ->
                 sentAt c' <= sentAt c
  | None =>
      forall c', In c' (exam_login d) ->
                 ~ (c_applicantEmail c' = email /\ c_examId c' = exam_id)
  end.
Proof.
  unfold issued_credential.
  pose proof (newest_spec
                (List.filter (Backendless.cred_matches email exam_id) (exam_login d)))
    as Hspec.
  destruct (Backendless.newest _) as [c|].
  - destruct Hspec as (Hin & Hmax).
    apply filter_In in Hin. destruct Hin as (Hin & Hm).
    apply cred_matches_spec in Hm. destruct Hm as (He & Hx).
    repeat split; auto.
    intros c' Hc' He' Hx'. apply Hmax, filter_In. split; [exact Hc'|].
    apply cred_matches_spec. auto.
  - intros c' Hc' Hm. apply cred_matches_spec in Hm.
    assert (Hin : In c' (List.filter (Backendless.cred_matches email exam_id)
                           (exam_login d)))
      by (apply filter_In; auto).
    rewrite Hspec in Hin. destruct Hin.
Qed.

(** X14: the credential lookup answers with a row of the pair that no
    other row of the pair was sent after, with nothing when the pair has
    no row or the query is not served; it changes neither the session nor
    the tables. *)
Theorem credential_lookup_newest (email exam_id : string) (w : World) :
  let found := fst (get_login_credential email exam_id w) in
  let w' := snd (get_login_credential email exam_id w) in
  (hd NetOk (net w) <> NetOk -> found = None) /\
  (hd NetOk (net w) = NetOk ->
   match found with
   | Some c =>
       In c (exam_login (db w)) /\ c_applicantEmail c = email /\ c_examId c = exam_id /\
       forall c', In c' (exam_login (db w)) ->
                  c_applicantEmail c' = email -> c_examId c' = exam_id ->
                  sentAt c' <= sentAt c
   | None =>
       forall c', In c' (exam_login (db w)) ->
                  ~ (c_applicantEmail c' = email /\ c_examId c' = exam_id)
   end) /\
  session w' = session w /\ db w' = db w /\
  log w' = (GetCredential email exam_id, hd NetOk (net w)) :: log w.
Proof.
  cbv zeta. rewrite get_login_credential_world. cbn [fst snd http session db log].
  split; [|split; [|repeat split]].
  - intros Hno. destruct (hd NetOk (net w)); congruence.
  - intros ->. apply issued_credential_spec.
Qed.

(** X15: a password that only superseded credentials carry does not log
    in: when every row of the pair with the password typed has a later
    row of the pair, the login fails and the session stays as it was,
    whatever the data service does. *)
Theorem superseded_password_rejected
    (url_exam_id email password login_exam_id : string) (w : World) :
  ~ logged_in w -> email <> "" -> password <> "" -> login_exam_id <> "" ->
  (forall c, In c (exam_login (db w)) ->
             c_applicantEmail c = email -> c_examId c = login_exam_id ->
             password_is password c = true ->
             exists c', In c' (exam_login (db w)) /\
                        c_applicantEmail c' = email /\ c_examId c' = login_exam_id /\
                        sentAt c < sentAt c') ->
  let run := test_login url_exam_id POST (filled_form email password login_exam_id) w in
  fst run <> Redirect "pre_exam_check" (Some login_exam_id) /\
  session (snd run) = session w.
Proof.
  intros Hout He Hp Hx Hold. cbv zeta.
  assert (Hno : login_accepts email password login_exam_id w = false).
  { unfold login_accepts.
    pose proof (issued_credential_spec email login_exam_id (db w)) as Hspec.
    destruct (issued_credential email login_exam_id (db w)) as [c|];
      [|apply andb_false_r].
    destruct Hspec as (Hin & Hce & Hcx & Hmax).
    destruct (password_is password c) eqn:Hpw; [|apply andb_false_r].
    destruct (Hold c Hin Hce Hcx Hpw) as (c' & Hin' & He' & Hx' & Hlater).
    specialize (Hmax c' Hin' He' Hx'). lia. }
  destruct (login_rejected url_exam_id _ _ _ w Hout He Hp Hx Hno) as (Hkind & Hsession).
  split; [|exact Hsession].
  destruct Hkind as [-> | ->]; discriminate.
Qed.

Lemma superseded_password_rejected_witness :
  fst (test_login "E1" POST (filled_form "ann@example.org" "s3cret" "E1") Scenario.reissued)
  <> Redirect "pre_exam_check" (Some "E1") /\
  session (snd (test_login "E1" POST (filled_form "ann@example.org" "s3cret" "E1")
                  Scenario.reissued))
  = empty_session.
Proof.
  apply (superseded_password_rejected "E1" "ann@example.org" "s3cret" "E1"
           Scenario.reissued); try discriminate.
  intros c Hin He Hx Hpw.
  exists {| c_applicantEmail := "ann@example.org"; c_examId := "E1";
            generatedPassword := Some "n3wer"; sentAt := 20 |}.
  split; [right; left; reflexivity|]. split; [reflexivity|]. split; [reflexivity|].
  destruct Hin as [<-|[<-|[<-|[]]]]; cbn in *; try discriminate; lia.
Defined.

(** ** The gated pages *)

Lemma check_if_result_exists_world email exam_id w :
  check_if_result_exists email exam_id w
  = (match hd NetOk (net w) with
     | NetOk => result_on_file email exam_id (db w)
     | _ => false
     end,
     snd (http (GetResults email exam_id) w)).
Proof.
  unfold check_if_result_exists. run_monad.
  destruct (hd NetOk (net w)); try reflexivity.
  run_monad. rewrite nonempty_filter_existsb. reflexivity.
Qed.

Lemma get_exam_paper_world exam_id w :
  get_exam_paper_by_exam_id exam_id w
  = (match hd NetOk (net w) with
     | NetOk =>
         match exam_row exam_id (db w) with
         | Some e =>
             match hd NetOk (tl (net w)) with
             | NetOk => Some (paper_of exam_id e (questions_of exam_id (db w)))
             | NetHttpError => Some (paper_of exam_id e [])
             | NetDown => None
             end
         | None => None
         end
     | _ => None
     end,
     match hd NetOk (net w) with
     | NetOk =>
         match exam_row exam_id (db w) with
         | Some e => snd (http (GetQuestions exam_id) (snd (http (GetExam exam_id) w)))
         | None => snd (http (GetExam exam_id) w)
         end
     | _ => snd (http (GetExam exam_id) w)
     end).
Proof.
  unfold get_exam_paper_by_exam_id, exam_row, questions_of, paper_of.
  cbv beta iota zeta delta [bind ret get_db http].
  cbn [session flashes db net log clock fst snd].
  destruct (hd NetOk (net w)); try reflexivity.
  destruct (List.find _ _); [|reflexivity].
  cbv beta iota. cbn [session flashes db net log clock fst snd].
  destruct (hd NetOk (tl (net w))); reflexivity.
Qed.

(** X16: the window check closes the exam exactly when both timestamps
    parse, the start carries an offset, and the clock is before the start
    or, the end carrying an offset too, after the end.  Both bounds are
    inclusive; a start without offset never closes the exam, and an end
    without offset never closes it once it has started. *)
Theorem window_closed_iff
    (isoparse : string -> option datetime) (paper : exam_paper) (w : World) :
  fst (is_exam_open isoparse paper w) = false
  <-> exists start_text end_text start_time end_time,
        p_startDateTime paper = Some start_text /\
        isoparse start_text = Some start_time /\
        p_endDateTime paper = Some end_text /\
        isoparse end_text = Some end_time /\
        aware start_time = true /\
        (clock w < instant start_time \/
         aware end_time = true /\ instant end_time < clock w).
Proof.
  unfold is_exam_open. cbn [bind now ret fst]. split.
  - destruct (p_startDateTime paper) as [s|]; [|discriminate].
    destruct (isoparse s) as [start_time|] eqn:Hs; [|discriminate].
    destruct (p_endDateTime paper) as [e|]; [|discriminate].
    destruct (isoparse e) as [end_time|] eqn:He; [|discriminate].
    unfold dt_le. cbn [instant aware].
    intros H. exists s, e, start_time, end_time.
    destruct (aware start_time); cbn [Bool.eqb] in H; [|discriminate].
    repeat split; auto.
    destruct (Z.leb_spec (instant start_time) (clock w)); [|left; lia].
    destruct (aware end_time); cbn [Bool.eqb] in H; [|discriminate].
    destruct (Z.leb_spec (clock w) (instant end_time)); [discriminate|].
    right. split; [reflexivity | lia].
  - intros (s & e & start_time & end_time & -> & -> & -> & -> & Ha & Hout).
    unfold dt_le. cbn [instant aware]. rewrite Ha. cbn [Bool.eqb].
    destruct (Z.leb_spec (instant start_time) (clock w)); [|reflexivity].
    destruct Hout as [Hbefore | (-> & Hafter)]; [lia|].
    cbn [Bool.eqb]. destruct (Z.leb_spec (clock w) (instant end_time)); [lia|reflexivity].
Qed.

Lemma window_aware isoparse paper w start_text end_text start_time end_time :
  p_startDateTime paper = Some start_text -> isoparse start_text = Some start_time ->
  p_endDateTime paper = Some end_text -> isoparse end_text = Some end_time ->
  aware start_time = true -> aware end_time = true ->
  is_exam_open isoparse paper w
  = ((instant start_time <=? clock w) && (clock w <=? instant end_time), w).
Proof.
  intros Hs Hst He Het Ha Hb. unfold is_exam_open. cbn [bind now ret fst].
  rewrite Hs, Hst, He, Het. unfold dt_le. cbn [instant aware]. rewrite Ha, Hb.
  cbn [Bool.eqb]. destruct (instant start_time <=? clock w); cbn [andb]; [|reflexivity].
  destruct (clock w <=? instant end_time); reflexivity.
Qed.

Lemma gate_admitted exam_id e f w :
  admitted exam_id e w ->
  student_exam_required exam_id f w
  = f (snd (http (GetBlockedTerminations (Py.str (student_email (session w))) exam_id) w)).
Proof.
  intros (Hflag & Hid & Hnet & Hblocked & Hfile & Hrow).
  unfold student_exam_required, bind at 1, get_session at 1.
  rewrite Hflag, Hid. cbn [andb negb]. cbv beta iota zeta.
  rewrite (bind_run _ _ _ _ _ (check_active_termination_world _ exam_id w)).
  rewrite Hnet. cbn [hd]. rewrite Hblocked. reflexivity.
Qed.

Lemma pre_exam_check_admitted isoparse exam_id e w :
  admitted exam_id e w ->
  fst (pre_exam_check isoparse exam_id w)
  = if fst (is_exam_open isoparse (paper_of exam_id e (questions_of exam_id (db w))) w)
    then Render "pre_check_view" else Redirect "exam_finished" None.
Proof.
  intros Hadm. pose proof Hadm as (Hflag & Hid & Hnet & Hblocked & Hfile & Hrow).
  unfold pre_exam_check. rewrite (gate_admitted _ e _ _ Hadm).
  unfold bind at 1, get_session at 1. cbv beta iota zeta.
  rewrite (bind_run _ _ _ _ _ (check_if_result_exists_world _ exam_id _)).
  cbn [http snd net db session hd tl]. rewrite Hnet. cbn [hd tl]. rewrite Hfile.
  rewrite (bind_run _ _ _ _ _ (get_exam_paper_world exam_id _)).
  cbn [http snd net db session hd tl]. rewrite Hrow.
  unfold bind at 1. unfold is_exam_open at 1. cbn [bind now ret fst snd clock].
  unfold is_exam_open. cbn [bind now ret fst snd clock].
  match goal with |- context [negb ?b] => destruct b end; reflexivity.
Qed.

Lemma exam_instructions_admitted isoparse exam_id e w :
  admitted exam_id e w ->
  fst (exam_instructions isoparse exam_id w)
  = if fst (is_exam_open isoparse (paper_of exam_id e (questions_of exam_id (db w))) w)
    then Render "instructions_view" else Redirect "exam_finished" None.
Proof.
  intros Hadm. pose proof Hadm as (Hflag & Hid & Hnet & Hblocked & Hfile & Hrow).
  unfold exam_instructions. rewrite (gate_admitted _ e _ _ Hadm).
  unfold bind at 1, get_session at 1. cbv beta iota zeta.
  rewrite (bind_run _ _ _ _ _ (get_exam_paper_world exam_id _)).
  cbn [http snd net db session hd tl]. rewrite Hnet. cbn [hd tl]. rewrite Hrow.
  rewrite (bind_run _ _ _ _ _ (check_if_result_exists_world _ exam_id _)).
  cbn [http snd net db session hd tl]. rewrite Hfile.
  unfold bind at 1. unfold is_exam_open at 1. cbn [bind now ret fst snd clock].
  unfold is_exam_open. cbn [bind now ret fst snd clock].
  match goal with |- context [negb ?b] => destruct b end; reflexivity.
Qed.

Lemma start_exam_admitted isoparse exam_id e w :
  admitted exam_id e w ->
  fst (start_exam isoparse exam_id w)
  = match questions_of exam_id (db w) with
    | [] => Redirect "test_login" (Some exam_id)
    | _ :: _ =>
        if fst (is_exam_open isoparse (paper_of exam_id e (questions_of exam_id (db w))) w)
        then Render "exam_view" else Redirect "exam_finished" None
    end.
Proof.
  intros Hadm. pose proof Hadm as (Hflag & Hid & Hnet & Hblocked & Hfile & Hrow).
  unfold start_exam. rewrite (gate_admitted _ e _ _ Hadm).
  unfold bind at 1, get_session at 1. cbv beta iota zeta.
  rewrite (bind_run _ _ _ _ _ (check_if_result_exists_world _ exam_id _)).
  cbn [http snd net db session hd tl]. rewrite Hnet. cbn [hd tl]. rewrite Hfile.
  rewrite (bind_run _ _ _ _ _ (get_exam_paper_world exam_id _)).
  cbn [http snd net db session hd tl]. rewrite Hrow.
  cbn [questions paper_of].
  destruct (questions_of exam_id (db w)) as [|q qs] eqn:Hqs; [reflexivity|].
  unfold bind at 1. unfold is_exam_open at 1. cbn [bind now ret fst snd clock].
  unfold is_exam_open. cbn [bind now ret fst snd clock p_startDateTime p_endDateTime paper_of].
  match goal with |- context [negb ?b] => destruct b end; reflexivity.
Qed.

(** X17: for an admitted student of an exam whose two timestamps parse
    and carry an offset, each gated page is shown exactly when the clock
    lies between start and end, both included, and is answered with the
    redirect to the finished page otherwise. *)
Theorem pages_follow_window
    (isoparse : string -> option datetime) (exam_id : string) (e : Exam) (w : World)
    (start_text end_text : string) (start_time end_time : datetime) :
  admitted exam_id e w ->
  startDateTime e = Some start_text -> isoparse start_text = Some start_time ->
  endDateTime e = Some end_text -> isoparse end_text = Some end_time ->
  aware start_time = true -> aware end_time = true ->
  let verdict view :=
    if (instant start_time <=? clock w) && (clock w <=? instant end_time)
    then Render view else Redirect "exam_finished" None in
  fst (pre_exam_check isoparse exam_id w) = verdict "pre_check_view" /\
  fst (exam_instructions isoparse exam_id w) = verdict "instructions_view" /\
  (questions_of exam_id (db w) <> [] ->
   fst (start_exam isoparse exam_id w) = verdict "exam_view").
Proof.
  intros Hadm Hs Hst He Het Ha Hb. cbv zeta.
  assert (Hopen : fst (is_exam_open isoparse
                         (paper_of exam_id e (questions_of exam_id (db w))) w)
                  = (instant start_time <=? clock w) && (clock w <=? instant end_time)).
  { rewrite (window_aware isoparse _ w start_text end_text start_time end_time);
      auto. }
  rewrite (pre_exam_check_admitted isoparse exam_id e w Hadm),
          (exam_instructions_admitted isoparse exam_id e w Hadm),
          (start_exam_admitted isoparse exam_id e w Hadm), Hopen.
  split; [reflexivity|]. split; [reflexivity|].
  intros Hq. destruct (questions_of exam_id (db w)); [congruence | reflexivity].
Qed.

Lemma pages_follow_window_witness :
  fst (pre_exam_check Demo.parse "E1" (Demo.seated 0 0 0)) = Render "pre_check_view" /\
  fst (exam_instructions Demo.parse "E1" (Demo.seated 0 0 0)) = Render "instructions_view" /\
  fst (start_exam Demo.parse "E1" (Demo.seated 0 0 0)) = Render "exam_view" /\
  fst (start_exam Demo.parse "E1" Demo.seated_ended) = Redirect "exam_finished" None.
Proof.
  assert (Hadm : admitted "E1" Demo.in_window (Demo.seated 0 0 0))
    by (repeat split; reflexivity).
  assert (Hadm' : admitted "E1" Demo.ended Demo.seated_ended)
    by (repeat split; reflexivity).
  destruct (pages_follow_window Demo.parse "E1" Demo.in_window (Demo.seated 0 0 0)
              "2025-01-01T09:00:00+00:00" "2025-01-01T12:00:00+00:00"
              {| instant := 50; aware := true |} {| instant := 150; aware := true |}
              Hadm eq_refl eq_refl eq_refl eq_refl eq_refl eq_refl)
    as (Hpre & Hins & Hstart).
  destruct (pages_follow_window Demo.parse "E1" Demo.ended Demo.seated_ended
              "2025-01-01T09:00:00+00:00" "2025-01-01T10:00:00+00:00"
              {| instant := 50; aware := true |} {| instant := 80; aware := true |}
              Hadm' eq_refl eq_refl eq_refl eq_refl eq_refl eq_refl)
    as (_ & _ & Hended).
  split; [exact Hpre|]. split; [exact Hins|].
  split; [apply Hstart | apply Hended]; discriminate.
Defined.

Lemma start_exam_empty isoparse exam_id e w :
  admitted exam_id e w ->
  questions_of exam_id (db w) = [] ->
  start_exam isoparse exam_id w
  = (Redirect "test_login" (Some exam_id),
     with_flashes
       (flashes w ++ [("error", "Exam paper not found or is empty. Contact the administrator.")])
       (snd (http (GetQuestions exam_id)
          (snd (http (GetExam exam_id)
             (snd (http (GetResults (Py.str (student_email (session w))) exam_id)
                (snd (http (GetBlockedTerminations (Py.str (student_email (session w)))
                              exam_id) w))))))))).
Proof.
  intros Hadm Hqs. pose proof Hadm as (Hflag & Hid & Hnet & Hblocked & Hfile & Hrow).
  unfold start_exam. rewrite (gate_admitted _ e _ _ Hadm).
  unfold bind at 1, get_session at 1. cbv beta iota zeta.
  rewrite (bind_run _ _ _ _ _ (check_if_result_exists_world _ exam_id _)).
  cbn [http snd net db session hd tl]. rewrite Hnet. cbn [hd tl]. rewrite Hfile.
  rewrite (bind_run _ _ _ _ _ (get_exam_paper_world exam_id _)).
  cbn [http snd net db session hd tl]. rewrite Hrow.
  cbn [questions paper_of]. rewrite Hqs. reflexivity.
Qed.

Lemma test_login_logged_in exam_id method form w :
  logged_in w ->
  Py.opt_eqb (session_exam_id (session w)) exam_id = true ->
  exam_id <> "ENTER_YOUR_ID" ->
  test_login exam_id method form w = (Redirect "pre_exam_check" (Some exam_id), w).
Proof.
  intros Hflag Hsame Hid. unfold logged_in in Hflag.
  unfold test_login, bind at 1, get_session at 1.
  rewrite Hflag, Hsame. apply String.eqb_neq in Hid. rewrite Hid. reflexivity.
Qed.

(** X18: an exam without questions cannot be started: an admitted
    student is sent from the exam page to the login page even inside the
    window, still logged in, and the login page sends on to the pre-check
    page. *)
Theorem start_exam_needs_questions
    (isoparse : string -> option datetime) (exam_id : string) (e : Exam) (w : World) :
  admitted exam_id e w ->
  questions_of exam_id (db w) = [] ->
  exam_id <> "ENTER_YOUR_ID" ->
  let w' := snd (start_exam isoparse exam_id w) in
  fst (start_exam isoparse exam_id w) = Redirect "test_login" (Some exam_id) /\
  session w' = session w /\ db w' = db w /\
  forall method form,
    fst (test_login exam_id method form w') = Redirect "pre_exam_check" (Some exam_id) /\
    log (snd (test_login exam_id method form w')) = log w'.
Proof.
  intros Hadm Hqs Hid. cbv zeta.
  rewrite (start_exam_empty isoparse exam_id e w Hadm Hqs).
  destruct Hadm as (Hflag & Hsame & _).
  split; [reflexivity|]. split; [reflexivity|]. split; [reflexivity|].
  intros method form.
  rewrite test_login_logged_in; [split; reflexivity | exact Hflag | exact Hsame | exact Hid].
Qed.

Lemma start_exam_needs_questions_witness :
  fst (start_exam Demo.parse "E1" Demo.seated_empty_exam)
  = Redirect "test_login" (Some "E1") /\
  fst (test_login "E1" GET Demo.credentials
         (snd (start_exam Demo.parse "E1" Demo.seated_empty_exam)))
  = Redirect "pre_exam_check" (Some "E1").
Proof.
  assert (Hadm : admitted "E1" Demo.in_window Demo.seated_empty_exam)
    by (repeat split; reflexivity).
  destruct (start_exam_needs_questions Demo.parse "E1" Demo.in_window
              Demo.seated_empty_exam Hadm eq_refl)
    as (Hresp & _ & _ & Hlogin); [discriminate|].
  split; [exact Hresp | apply Hlogin].
Defined.

(** ** What the pages and the login never do *)

Lemma quiet_refl w : quiet w w.
Proof. split; [reflexivity|]. exists []. split; [reflexivity | constructor]. Qed.

Lemma quiet_same w w' : db w' = db w -> log w' = log w -> quiet w w'.
Proof.
  intros Hd Hl. split; [exact Hd|]. exists []. split; [exact Hl | constructor].
Qed.

Lemma quiet_trans w1 w2 w3 : quiet w1 w2 -> quiet w2 w3 -> quiet w1 w3.
Proof.
  intros (Hd1 & l1 & Hl1 & Hr1) (Hd2 & l2 & Hl2 & Hr2).
  split; [congruence|]. exists (l2 ++ l1). split.
  - rewrite Hl2, Hl1. apply app_assoc.
  - apply Forall_app. split; assumption.
Qed.

Lemma reads_only_ret {A : Type} (a : A) : reads_only (ret a).
Proof. intros w. apply quiet_refl. Qed.

Lemma reads_only_bind {A B : Type} (c : M A) (k : A -> M B) :
  reads_only c -> (forall a, reads_only (k a)) -> reads_only (x <- c ;; k x).
Proof.
  intros Hc Hk w. unfold bind. specialize (Hc w).
  destruct (c w) as [a w1]. cbn [snd] in Hc.
  apply (quiet_trans _ _ _ Hc), Hk.
Qed.

Lemma reads_only_get_session : reads_only get_session.
Proof. intros w. apply quiet_refl. Qed.

Lemma reads_only_get_db : reads_only get_db.
Proof. intros w. apply quiet_refl. Qed.

Lemma reads_only_now : reads_only now.
Proof. intros w. apply quiet_refl. Qed.

Lemma reads_only_flash message category : reads_only (flash message category).
Proof. intros w. apply quiet_same; reflexivity. Qed.

Lemma reads_only_modify_session f : reads_only (modify_session f).
Proof. intros w. apply quiet_same; reflexivity. Qed.

Lemma reads_only_session_clear : reads_only session_clear.
Proof. intros w. apply quiet_same; reflexivity. Qed.

Lemma reads_only_http rq : is_read rq = true -> reads_only (http rq).
Proof.
  intros Hread w. split; [reflexivity|].
  exists [(rq, hd NetOk (net w))]. split; [reflexivity|].
  constructor; [exact Hread | constructor].
Qed.

Lemma reads_only_check_active_termination email exam_id :
  reads_only (check_active_termination email exam_id).
Proof.
  unfold check_active_termination.
  repeat first
    [ apply reads_only_ret | apply reads_only_flash | apply reads_only_get_session
    | apply reads_only_get_db | apply reads_only_now
    | apply reads_only_modify_session | apply reads_only_session_clear
    | apply reads_only_http; reflexivity
    | apply reads_only_bind; [|intros ?]
    | match goal with
      | |- reads_only (if ?b then _ else _) => destruct b
      | |- reads_only (match ?x with _ => _ end) => destruct x
      end ].
Qed.

Lemma reads_only_check_if_result_exists email exam_id :
  reads_only (check_if_result_exists email exam_id).
Proof.
  unfold check_if_result_exists.
  repeat first
    [ apply reads_only_ret | apply reads_only_flash | apply reads_only_get_session
    | apply reads_only_get_db | apply reads_only_now
    | apply reads_only_modify_session | apply reads_only_session_clear
    | apply reads_only_http; reflexivity
    | apply reads_only_bind; [|intros ?]
    | match goal with
      | |- reads_only (if ?b then _ else _) => destruct b
      | |- reads_only (match ?x with _ => _ end) => destruct x
      end ].
Qed.

Lemma reads_only_get_login_credential email exam_id :
  reads_only (get_login_credential email exam_id).
Proof.
  unfold get_login_credential.
  repeat first
    [ apply reads_only_ret | apply reads_only_flash | apply reads_only_get_session
    | apply reads_only_get_db | apply reads_only_now
    | apply reads_only_modify_session | apply reads_only_session_clear
    | apply reads_only_http; reflexivity
    | apply reads_only_bind; [|intros ?]
    | match goal with
      | |- reads_only (if ?b then _ else _) => destruct b
      | |- reads_only (match ?x with _ => _ end) => destruct x
      end ].
Qed.

Lemma reads_only_get_exam_paper exam_id :
  reads_only (get_exam_paper_by_exam_id exam_id).
Proof.
  unfold get_exam_paper_by_exam_id.
  repeat first
    [ apply reads_only_ret | apply reads_only_flash | apply reads_only_get_session
    | apply reads_only_get_db | apply reads_only_now
    | apply reads_only_modify_session | apply reads_only_session_clear
    | apply reads_only_http; reflexivity
    | apply reads_only_bind; [|intros ?]
    | match goal with
      | |- reads_only (if ?b then _ else _) => destruct b
      | |- reads_only (match ?x with _ => _ end) => destruct x
      end ].
Qed.

Lemma reads_only_is_exam_open isoparse paper : reads_only (is_exam_open isoparse paper).
Proof. intros w. apply quiet_refl. Qed.

Lemma reads_only_gate exam_id f :
  reads_only f -> reads_only (student_exam_required exam_id f).
Proof.
  intros Hf. unfold student_exam_required.
  repeat first
    [ exact Hf
    | apply reads_only_check_active_termination
    | apply reads_only_ret | apply reads_only_flash | apply reads_only_get_session
    | apply reads_only_modify_session | apply reads_only_session_clear
    | apply reads_only_bind; [|intros ?]
    | match goal with
      | |- reads_only (if ?b then _ else _) => destruct b
      end ].
Qed.

(** X19: the login page, the three gated pages and logout never change a
    table and never issue a request other than a read, whatever the
    session, the tables and the data service are. *)
Theorem pages_only_read
    (isoparse : string -> option datetime) (exam_id : string)
    (method : http_method) (form : login_form) :
  reads_only (test_login exam_id method form) /\
  reads_only (pre_exam_check isoparse exam_id) /\
  reads_only (exam_instructions isoparse exam_id) /\
  reads_only (start_exam isoparse exam_id) /\
  reads_only exam_logout.
Proof.
  unfold test_login, pre_exam_check, exam_instructions, start_exam, exam_logout.
  cbv zeta.
  split; [|split; [|split; [|split]]];
    repeat first
      [ apply reads_only_check_active_termination
      | apply reads_only_check_if_result_exists
      | apply reads_only_get_login_credential
      | apply reads_only_get_exam_paper
      | apply reads_only_is_exam_open
      | apply reads_only_gate
      | apply reads_only_ret | apply reads_only_flash | apply reads_only_get_session
      | apply reads_only_modify_session | apply reads_only_session_clear
      | apply reads_only_bind; [|intros ?]
      | match goal with
        | |- reads_only (if ?b then _ else _) => destruct b
        | |- reads_only (match ?x with _ => _ end) => destruct x
        end ].
Qed.

(** X20: the paper lookup answers with nothing exactly when the exam
    query is not served, the exam row is missing, or the questions query
    meets a connection error.  The questions of a paper are rows of the
    Questions table that belong to the exam: all of them when the
    questions query is served, none when it comes back with an error
    status. *)
Theorem paper_lookup (exam_id : string) (w : World) :
  let found := fst (get_exam_paper_by_exam_id exam_id w) in
  (found = None <->
   hd NetOk (net w) <> NetOk \/ exam_row exam_id (db w) = None \/
   hd NetOk (tl (net w)) = NetDown) /\
  (forall paper, found = Some paper ->
     examId paper = exam_id /\
     (forall q, In q (questions paper) ->
                In q (Questions (db w)) /\ q_examId q = exam_id) /\
     (hd NetOk (tl (net w)) = NetOk ->
      forall q, In q (Questions (db w)) -> q_examId q = exam_id ->
                In q (questions paper)) /\
     (hd NetOk (tl (net w)) = NetHttpError -> questions paper = [])) /\
  session (snd (get_exam_paper_by_exam_id exam_id w)) = session w /\
  db (snd (get_exam_paper_by_exam_id exam_id w)) = db w.
Proof.
  cbv zeta. rewrite get_exam_paper_world. cbn [fst snd].
  assert (Hq : forall q, In q (questions_of exam_id (db w))
                         <-> In q (Questions (db w)) /\ q_examId q = exam_id).
  { intros q. unfold questions_of. rewrite filter_In, String.eqb_eq. reflexivity. }
  destruct (hd NetOk (net w)) eqn:Ho1.
  - destruct (exam_row exam_id (db w)) as [e|] eqn:Hrow.
    + destruct (hd NetOk (tl (net w))) eqn:Ho2.
      * split; [split; [discriminate | intros [H|[H|H]]; congruence]|].
        split; [|split; reflexivity].
        intros paper Hp. injection Hp as <-. cbn [examId questions paper_of].
        split; [reflexivity|]. split; [intros q; apply Hq|].
        split; [|discriminate]. intros _ q Hin Hx. apply Hq. auto.
      * split; [split; [discriminate | intros [H|[H|H]]; congruence]|].
        split; [|split; reflexivity].
        intros paper Hp. injection Hp as <-. cbn [examId questions paper_of].
        split; [reflexivity|]. split; [intros q []|].
        split; [discriminate | reflexivity].
      * split; [split; auto|]. split; [discriminate | split; reflexivity].
    + split; [split; auto|]. split; [discriminate | split; reflexivity].
  - split; [split; [left; discriminate | reflexivity]|].
    split; [discriminate | split; reflexivity].
  - split; [split; [left; discriminate | reflexivity]|].
    split; [discriminate | split; reflexivity].
Qed.

(** ** Submission *)

Lemma save_exam_result_served rd w :
  hd NetOk (net w) = NetOk ->
  let data := {| r_applicantEmail := rd_email rd;
                 r_examId := rd_exam_id rd;
                 r_applicationId := rd_application_id rd;
                 score := rd_score rd;
                 totalQuestions := rd_total_questions rd;
                 submissionTime := clock w |} in
  save_exam_result rd w
  = (true, with_db (with_ExamResults (ExamResults (db w) ++ [data]) (db w))
             (snd (http (PostResult data) w))).
Proof.
  intros Hnet. cbv zeta. unfold save_exam_result. run_monad. rewrite Hnet. reflexivity.
Qed.

Lemma submit_exam_admitted exam_id e form w :
  admitted exam_id e w ->
  questions_of exam_id (db w) <> [] ->
  let row := result_row (student_email (session w)) exam_id (e_applicationId e) form
               (questions_of exam_id (db w)) (clock w) in
  fst (submit_exam exam_id form w) = Render "exam_finished_view" /\
  session (snd (submit_exam exam_id form w)) = empty_session /\
  db (snd (submit_exam exam_id form w))
  = with_ExamResults (ExamResults (db w) ++ [row]) (db w).
Proof.
  intros Hadm Hqs. pose proof Hadm as (Hflag & Hid & Hnet & Hblocked & Hfile & Hrow).
  cbv zeta.
  destruct (submit_exam exam_id form w) as [resp w'] eqn:Hrun. cbn [fst snd].
  unfold submit_exam in Hrun. rewrite (gate_admitted _ e _ _ Hadm) in Hrun.
  unfold bind at 1, get_session at 1 in Hrun. cbv beta iota zeta in Hrun.
  rewrite (bind_run _ _ _ _ _ (check_if_result_exists_world _ exam_id _)) in Hrun.
  cbn [http snd net db session hd tl] in Hrun. rewrite Hnet in Hrun.
  cbn [hd tl] in Hrun. rewrite Hfile in Hrun.
  rewrite (bind_run _ _ _ _ _ (get_exam_paper_world exam_id _)) in Hrun.
  cbn [http snd net db session hd tl] in Hrun. rewrite Hrow in Hrun.
  cbn [questions paper_of applicationId] in Hrun.
  unfold result_row.
  destruct (questions_of exam_id (db w)) as [|q qs] eqn:Hq; [congruence|].
  cbn [session flashes db net log clock hd tl] in Hrun.
  match type of Hrun with
  | bind (save_exam_result ?rd) _ ?w0 = _ =>
      rewrite (bind_run _ _ _ _ _ (save_exam_result_served rd w0 eq_refl)) in Hrun
  end.
  cbv beta iota delta [bind ret modify_session flash] in Hrun.
  apply pair_equal_spec in Hrun. destruct Hrun as (<- & <-).
  split; [reflexivity|]. split; reflexivity.
Qed.

(** X21: a submission by an admitted student of an exam with questions,
    every request served, stores exactly one result row for the pair,
    leaves the other tables alone, empties the six session keys and shows
    the finished page; from then on the result query finds the pair. *)
Theorem submission_round_trip
    (exam_id email : string) (e : Exam) (form : gmap string string) (w : World) :
  admitted exam_id e w ->
  questions_of exam_id (db w) <> [] ->
  student_email (session w) = Some email ->
  let w' := snd (submit_exam exam_id form w) in
  fst (submit_exam exam_id form w) = Render "exam_finished_view" /\
  session w' = empty_session /\
  ExamResults (db w')
  = ExamResults (db w)
    ++ [result_row (Some email) exam_id (e_applicationId e) form
          (questions_of exam_id (db w)) (clock w)] /\
  ExamTerminations (db w') = ExamTerminations (db w) /\
  exam_login (db w') = exam_login (db w) /\
  result_on_file email exam_id (db w') = true.
Proof.
  intros Hadm Hqs Hemail. cbv zeta.
  destruct (submit_exam_admitted exam_id e form w Hadm Hqs) as (Hresp & Hsession & Hdb).
  rewrite Hresp, Hsession, Hdb, Hemail. cbn [ExamResults ExamTerminations exam_login
                                            with_ExamResults].
  repeat split.
  unfold result_on_file. cbn [ExamResults with_ExamResults].
  rewrite existsb_app. cbn [existsb].
  unfold Backendless.result_matches at 2, result_row.
  cbn [r_applicantEmail r_examId Py.opt_eqb]. rewrite !String.eqb_refl.
  cbn. apply orb_true_r.
Qed.

Lemma submission_round_trip_witness :
  fst (submit_exam "E1" Demo.answers (Demo.seated 1 0 1)) = Render "exam_finished_view" /\
  session (snd (submit_exam "E1" Demo.answers (Demo.seated 1 0 1))) = empty_session /\
  result_on_file "ann@example.org" "E1"
    (db (snd (submit_exam "E1" Demo.answers (Demo.seated 1 0 1)))) = true.
Proof.
  assert (Hadm : admitted "E1" Demo.in_window (Demo.seated 1 0 1))
    by (repeat split; reflexivity).
  destruct (submission_round_trip "E1" "ann@example.org" Demo.in_window Demo.answers
              (Demo.seated 1 0 1) Hadm)
    as (Hresp & Hsession & _ & _ & _ & Hfile); [discriminate | reflexivity |].
  split; [exact Hresp|]. split; [exact Hsession | exact Hfile].
Defined.

Lemma gate_passes exam_id f w :
  logged_in w ->
  Py.opt_eqb (session_exam_id (session w)) exam_id = true ->
  hd NetOk (net w) = NetOk ->
  blocked (Py.str (student_email (session w))) exam_id (db w) = false ->
  student_exam_required exam_id f w
  = f (snd (http (GetBlockedTerminations (Py.str (student_email (session w))) exam_id) w)).
Proof.
  intros Hflag Hid Hnet Hblocked. unfold logged_in in Hflag.
  unfold student_exam_required, bind at 1, get_session at 1.
  rewrite Hflag, Hid. cbn [andb negb]. cbv beta iota zeta.
  rewrite (bind_run _ _ _ _ _ (check_active_termination_world _ exam_id w)).
  rewrite Hnet, Hblocked. reflexivity.
Qed.

(** X22: once a result of the pair is on file, a logged-in student who
    is not blocked gets none of the gated pages: with the requests
    served, the pre-check page, the exam page and, when the exam row
    exists, the instructions page all answer with the redirect to the
    finished page, and the session stays as it is. *)
Theorem stored_result_closes_pages
    (isoparse : string -> option datetime) (exam_id : string) (w : World) :
  logged_in w ->
  Py.opt_eqb (session_exam_id (session w)) exam_id = true ->
  net w = [] ->
  blocked (Py.str (student_email (session w))) exam_id (db w) = false ->
  result_on_file (Py.str (student_email (session w))) exam_id (db w) = true ->
  fst (pre_exam_check isoparse exam_id w) = Redirect "exam_finished" None /\
  fst (start_exam isoparse exam_id w) = Redirect "exam_finished" None /\
  (exam_row exam_id (db w) <> None ->
   fst (exam_instructions isoparse exam_id w) = Redirect "exam_finished" None) /\
  session (snd (pre_exam_check isoparse exam_id w)) = session w /\
  session (snd (start_exam isoparse exam_id w)) = session w.
Proof.
  intros Hflag Hid Hnet Hblocked Hfile.
  assert (Hhd : hd NetOk (net w) = NetOk) by (rewrite Hnet; reflexivity).
  assert (Hpre : pre_exam_check isoparse exam_id w
                 = (Redirect "exam_finished" None,
                    with_flashes
                      (flashes w ++ [("warning", "You have already submitted this exam. Access is denied.")])
                      (snd (http (GetResults (Py.str (student_email (session w))) exam_id)
                         (snd (http (GetBlockedTerminations
                                       (Py.str (student_email (session w))) exam_id) w)))))).
  { unfold pre_exam_check. rewrite (gate_passes _ _ _ Hflag Hid Hhd Hblocked).
    unfold bind at 1, get_session at 1. cbv beta iota zeta.
    rewrite (bind_run _ _ _ _ _ (check_if_result_exists_world _ exam_id _)).
    cbn [http snd net db session hd tl]. rewrite Hnet. cbn [hd tl]. rewrite Hfile.
    reflexivity. }
  assert (Hstart : start_exam isoparse exam_id w
                 = (Redirect "exam_finished" None,
                    with_flashes
                      (flashes w ++ [("warning", "You have already submitted this exam. Access is denied.")])
                      (snd (http (GetResults (Py.str (student_email (session w))) exam_id)
                         (snd (http (GetBlockedTerminations
                                       (Py.str (student_email (session w))) exam_id) w)))))).
  { unfold start_exam. rewrite (gate_passes _ _ _ Hflag Hid Hhd Hblocked).
    unfold bind at 1, get_session at 1. cbv beta iota zeta.
    rewrite (bind_run _ _ _ _ _ (check_if_result_exists_world _ exam_id _)).
    cbn [http snd net db session hd tl]. rewrite Hnet. cbn [hd tl]. rewrite Hfile.
    reflexivity. }
  rewrite Hpre, Hstart.
  split; [reflexivity|]. split; [reflexivity|]. split; [|split; reflexivity].
  intros Hrow. destruct (exam_row exam_id (db w)) as [e|] eqn:He; [|congruence].
  unfold exam_instructions. rewrite (gate_passes _ _ _ Hflag Hid Hhd Hblocked).
  unfold bind at 1, get_session at 1. cbv beta iota zeta.
  rewrite (bind_run _ _ _ _ _ (get_exam_paper_world exam_id _)).
  cbn [http snd net db session hd tl]. rewrite Hnet. cbn [hd tl]. rewrite He.
  rewrite (bind_run _ _ _ _ _ (check_if_result_exists_world _ exam_id _)).
  cbn [http snd net db session hd tl]. rewrite Hfile. reflexivity.
Qed.

Lemma stored_result_closes_pages_witness :
  fst (pre_exam_check Demo.parse "E1" Demo.seated_submitted) = Redirect "exam_finished" None /\
  fst (start_exam Demo.parse "E1" Demo.seated_submitted) = Redirect "exam_finished" None /\
  fst (exam_instructions Demo.parse "E1" Demo.seated_submitted)
  = Redirect "exam_finished" None.
Proof.
  destruct (stored_result_closes_pages Demo.parse "E1" Demo.seated_submitted)
    as (Hpre & Hstart & Hins & _); try reflexivity.
  split; [exact Hpre|]. split; [exact Hstart|]. apply Hins. discriminate.
Defined.

Lemma correct_answers_size (qs : list Question) (d : gmap string string) :
  (size (foldl (fun d q => <[q_objectId q := correctAnswer q]> d) d qs)
   <= size d + length qs)%nat.
Proof.
  revert d. induction qs as [|q qs IH]; intros d; cbn [foldl length]; [lia|].
  specialize (IH (<[q_objectId q := correctAnswer q]> d)).
  pose proof (map_size_insert (q_objectId q) (correctAnswer q) d) as Hsize.
  destruct (d !! q_objectId q); unfold id in Hsize; lia.
Qed.

(** X23: the raw score counts answered questions: it lies between zero
    and the number of questions of the paper, whatever the form holds and
    even when question ids repeat, and a form without answers scores
    zero. *)
Theorem raw_score_bounds (form : gmap string string) (qs : list Question) :
  0 <= raw_score form (correct_answers qs) <= Z.of_nat (length qs) /\
  raw_score ∅ (correct_answers qs) = 0.
Proof.
  split.
  - assert (Hsize : 0 <= raw_score form (correct_answers qs)
                    <= Z.of_nat (size (correct_answers qs))).
    { unfold raw_score.
      apply (map_fold_weak_ind
               (fun r (m : gmap string string) => 0 <= r <= Z.of_nat (size m))).
      - rewrite map_size_empty. lia.
      - intros q_id correct_ans m r Hfresh IH.
        rewrite map_size_insert_None by exact Hfresh.
        destruct (answer_matches form q_id correct_ans); lia. }
    pose proof (correct_answers_size qs ∅) as Hle.
    rewrite map_size_empty in Hle. unfold correct_answers in *. lia.
  - unfold raw_score.
    apply (map_fold_weak_ind (fun r (m : gmap string string) => r = 0)); [reflexivity|].
    intros q_id correct_ans m r _ ->.
    unfold answer_matches. rewrite lookup_empty. reflexivity.
Qed.

(** ** The admin restore action *)

Lemma remove_termination_status_world termination_object_id w :
  remove_termination_status termination_object_id w
  = let asked := snd (http (PutTermination termination_object_id false (clock w)) w) in
    if served (hd NetOk (net w))
       && existsb (fun r => String.eqb (t_objectId r) termination_object_id)
                  (ExamTerminations (db w))
    then (true,
          with_db (with_ExamTerminations
                     (map (Backendless.put_inactive termination_object_id false (clock w))
                          (ExamTerminations (db w))) (db w)) asked)
    else (false, asked).
Proof.
  unfold remove_termination_status. run_monad.
  destruct (hd NetOk (net w)); try reflexivity.
  run_monad. cbn [served andb]. destruct (existsb _ _); reflexivity.
Qed.

Lemma restore_keeps_session termination_object_id w :
  session (snd (remove_termination_status termination_object_id w)) = session w.
Proof.
  rewrite remove_termination_status_world. cbv zeta.
  destruct (_ && _); reflexivity.
Qed.

Lemma restores_keep_session (ids : list string) w :
  session (fold_left (fun w id => snd (remove_termination_status id w)) ids w)
  = session w.
Proof.
  revert w. induction ids as [|id ids IH]; intros w; [reflexivity|].
  cbn [fold_left]. rewrite IH. apply restore_keeps_session.
Qed.

(** X24: the restore action succeeds exactly when its request is served
    and a ledger row carries the object id.  A success marks the rows of
    that id inactive with the time of the action and changes nothing
    else: the rows of other ids, the blocking flag of every row, the
    number of rows and the other tables are as before.  A failure leaves
    the tables untouched. *)
Theorem restore_effect (termination_object_id : string) (w : World) :
  let done := fst (remove_termination_status termination_object_id w) in
  let w' := snd (remove_termination_status termination_object_id w) in
  (done = true <->
   hd NetOk (net w) = NetOk /\
   exists t, In t (ExamTerminations (db w)) /\ t_objectId t = termination_object_id) /\
  (done = false -> db w' = db w) /\
  (done = true ->
   forall t, In t (ExamTerminations (db w')) ->
             t_objectId t = termination_object_id ->
             is_active t = Some false /\ removed_at t = Some (clock w)) /\
  (forall t, In t (ExamTerminations (db w)) ->
             t_objectId t <> termination_object_id ->
             In t (ExamTerminations (db w'))) /\
  map isBlocked (ExamTerminations (db w')) = map isBlocked (ExamTerminations (db w)) /\
  map t_objectId (ExamTerminations (db w')) = map t_objectId (ExamTerminations (db w)) /\
  ExamResults (db w') = ExamResults (db w) /\
  exam_login (db w') = exam_login (db w) /\
  session w' = session w.
Proof.
  cbv zeta. rewrite remove_termination_status_world. cbv zeta.
  assert (Hex : existsb (fun r => String.eqb (t_objectId r) termination_object_id)
                        (ExamTerminations (db w)) = true
                <-> exists t, In t (ExamTerminations (db w)) /\
                              t_objectId t = termination_object_id).
  { rewrite existsb_exists. split; intros (t & Hin & Ht); exists t; split; auto;
      apply String.eqb_eq; exact Ht. }
  assert (Hput : forall t,
             t_objectId (Backendless.put_inactive termination_object_id false (clock w) t)
             = t_objectId t /\
             isBlocked (Backendless.put_inactive termination_object_id false (clock w) t)
             = isBlocked t).
  { intros t. unfold Backendless.put_inactive.
    destruct (String.eqb (t_objectId t) termination_object_id); split; reflexivity. }
  destruct (hd NetOk (net w)) eqn:Ho; cbn [served andb].
  - destruct (existsb _ (ExamTerminations (db w))) eqn:Hfound; cbn [fst snd].
    + split; [split; [intros _; split; [reflexivity | apply Hex; reflexivity]
                     | reflexivity]|].
      split; [discriminate|].
      cbn [db with_db http snd ExamTerminations ExamResults exam_login
           with_ExamTerminations session].
      split.
      { intros _ t Hin Ht. apply in_map_iff in Hin.
        destruct Hin as (t0 & <- & _). unfold Backendless.put_inactive in *.
        destruct (String.eqb (t_objectId t0) termination_object_id) eqn:Hid.
        - split; reflexivity.
        - apply String.eqb_neq in Hid. contradiction. }
      split.
      { intros t Hin Ht. apply in_map_iff. exists t. split; [|exact Hin].
        unfold Backendless.put_inactive.
        apply String.eqb_neq in Ht. rewrite Ht. reflexivity. }
      rewrite !map_map.
      split; [apply map_ext; intros t; apply Hput|].
      split; [apply map_ext; intros t; apply Hput|].
      repeat split.
    + split; [split; [discriminate|]|].
      { intros (_ & Ht). apply Hex in Ht. congruence. }
      repeat split; auto; intros; congruence.
  - cbn [fst snd]. split; [split; [discriminate | intros (H & _); discriminate H]|].
    repeat split; auto; intros; congruence.
  - cbn [fst snd]. split; [split; [discriminate | intros (H & _); discriminate H]|].
    repeat split; auto; intros; congruence.
Qed.

(** X25: no sequence of restore actions, whatever their object ids and
    whatever requests are served, lets a blocked student log in again:
    the block that login reads survives them all, so a login whose ledger
    query is served is still sent to the finished page and the client
    stays logged out. *)
Theorem restores_never_readmit
    (ids : list string) (url_exam_id email password login_exam_id : string) (w : World) :
  ~ logged_in w -> email <> "" -> password <> "" -> login_exam_id <> "" ->
  blocked email login_exam_id (db w) = true ->
  let w' := fold_left (fun w id => snd (remove_termination_status id w)) ids w in
  hd NetOk (net w') = NetOk ->
  blocked email login_exam_id (db w') = true /\
  fst (test_login url_exam_id POST (filled_form email password login_exam_id) w')
  = Redirect "exam_finished" None /\
  session (snd (test_login url_exam_id POST (filled_form email password login_exam_id) w'))
  = session w.
Proof.
  intros Hout He Hp Hx Hblocked. cbv zeta. intros Hnet.
  pose proof (restores_keep_block ids email login_exam_id w Hblocked) as Hstill.
  pose proof (restores_keep_session ids w) as Hsession.
  split; [exact Hstill|].
  destruct (login_denied_while_blocked url_exam_id email password login_exam_id
              (fold_left (fun w id => snd (remove_termination_status id w)) ids w))
    as (Hresp & Hs & _); auto.
  { rewrite Hsession. unfold logged_in in Hout. apply not_true_is_false, Hout. }
  split; [exact Hresp|]. unfold filled_form. rewrite Hs. exact Hsession.
Qed.

Lemma restores_never_readmit_witness :
  fst (test_login "E1" POST (filled_form "ann@example.org" "s3cret" "E1")
         (fold_left (fun w id => snd (remove_termination_status id w)) ["0"; "7"; "0"]
            Demo.terminated))
  = Redirect "exam_finished" None.
Proof.
  assert (Hout : ~ logged_in Demo.terminated)
    by (intros H; vm_compute in H; discriminate H).
  assert (Hblocked : blocked "ann@example.org" "E1" (db Demo.terminated) = true)
    by (vm_compute; reflexivity).
  assert (Hnet : hd NetOk
                   (net (fold_left (fun w id => snd (remove_termination_status id w))
                           ["0"; "7"; "0"] Demo.terminated)) = NetOk)
    by (vm_compute; reflexivity).
  assert (He : "ann@example.org" <> "") by discriminate.
  assert (Hp : "s3cret" <> "") by discriminate.
  assert (Hx : "E1" <> "") by discriminate.
  exact (proj1 (proj2 (restores_never_readmit ["0"; "7"; "0"] "E1" "ann@example.org"
                         "s3cret" "E1" Demo.terminated Hout He Hp Hx Hblocked Hnet))).
Defined.
